(** * BudgetApp: the income-statement calculation engine and its roll-ups

    Shallow embedding of the calculation code of
    [frontend/js/income-statement.js] (assumption editor),
    [frontend/js/income-statement-budget.js] (monthly budget view) and
    [frontend/js/daily-budget.js] (summary cards).

    JavaScript objects used as dictionaries are finite maps ([gmap]); the
    module-level variables of each page are the fields of a state record;
    optional chaining [o?.[k]] is a lookup in the option monad and
    [x || 0] is [orZero].  The arithmetic is kept abstract behind the
    class [JsNum], so that every structural statement holds whatever the
    arithmetic is; statements that rest on the laws of arithmetic are
    proved for the exact rationals [Qc]. *)

From Stdlib Require Import ZArith QArith Qcanon Qround Lqa.
From Stdlib Require PrimFloat.
From stdpp Require Import gmap strings list fin_maps.

Local Open Scope string_scope.

(** ** Numbers *)

(** The operations the code performs on numbers: literals, [+ - * /],
    the truthiness test behind [x || 0] and the comparison [x > y]. *)
Class JsNum (A : Type) := {
  lit : Z -> A;
  add : A -> A -> A;
  sub : A -> A -> A;
  mul : A -> A -> A;
  div : A -> A -> A;
  truthy : A -> bool;
  gtb : A -> A -> bool
}.

(** An entry of [assumptionsData[branchId]]: [{ assumption_value: v }]. *)
Record Assumption (A : Type) := { assumption_value : A }.
Arguments assumption_value {A} _.
Arguments Build_Assumption {A} _.

(** An entry of [LINE_ITEMS_CONFIG] (the fields the calculations read;
    [isRevenue] holds exactly when [revenueType] is present). *)
Record ItemConfig := {
  code : string;
  revenueType : option string;
  isCalculated : bool
}.

Definition rawItem (c rt : string) : ItemConfig :=
  {| code := c; revenueType := Some rt; isCalculated := false |}.
Definition calcItem (c : string) : ItemConfig :=
  {| code := c; revenueType := None; isCalculated := true |}.
Definition inputItem (c : string) : ItemConfig :=
  {| code := c; revenueType := None; isCalculated := false |}.

(** Both pages declare the same catalog, in the same order. *)
Definition LINE_ITEMS_CONFIG : list ItemConfig :=
  [ rawItem "REV_IP" "IP"; rawItem "REV_OP" "OP"; rawItem "REV_ER" "ER";
    calcItem "REV_SUB";
    inputItem "DIS_REJECTION_MOH"; inputItem "DIS_REJECTION_INS";
    calcItem "DIS_REJECTION";
    inputItem "DIS_VOLUME"; inputItem "DIS_EARLY_PAY";
    calcItem "DIS_SETTLEMENT"; calcItem "REV_NET";
    inputItem "DC_CONSUMABLES"; inputItem "DC_MEDICINES";
    inputItem "DC_DOCTORS_FEE"; inputItem "DC_EMPLOYEE";
    inputItem "DC_GOVT_FEES"; inputItem "DC_INSURANCE"; inputItem "DC_KITCHEN";
    inputItem "DC_MAINTENANCE"; inputItem "DC_OTHER"; inputItem "DC_REFERRAL";
    inputItem "DC_RENTAL"; inputItem "DC_TRAINING"; inputItem "DC_TRAVEL";
    inputItem "DC_UTILITIES";
    calcItem "TOTAL_DC"; calcItem "GROSS_PROFIT";
    inputItem "GA_GOVT_FEE"; inputItem "GA_AUDIT"; inputItem "GA_COMMUNICATION";
    inputItem "GA_ECL"; inputItem "GA_OTHER"; inputItem "GA_POSTAGE";
    inputItem "GA_PROFESSIONAL"; inputItem "GA_SECURITY"; inputItem "GA_TRAINING";
    inputItem "GA_EMPLOYEE"; inputItem "GA_MARKETING"; inputItem "GA_HO_CHARGES";
    calcItem "TOTAL_GA"; inputItem "OTHER_INCOME"; calcItem "EBITDA";
    inputItem "FINANCE_COST"; inputItem "DEPRECIATION"; inputItem "ZAKAT";
    calcItem "NET_PROFIT"; inputItem "OCI"; calcItem "TOTAL_COMP_INCOME" ].

Definition BRANCH_IDS : list Z := [1; 2; 3; 4; 5; 6]%Z.

(** The codes of [REVENUE_TYPE_CONFIG]. *)
Definition REVENUE_TYPE_CONFIG : list string :=
  ["REV_TYPE_INSURANCE"; "REV_TYPE_CASH"; "REV_TYPE_MOH"; "REV_TYPE_OTHER_CREDIT"].

Definition directCostCodes : list string :=
  ["DC_CONSUMABLES"; "DC_MEDICINES"; "DC_DOCTORS_FEE"; "DC_EMPLOYEE";
   "DC_GOVT_FEES"; "DC_INSURANCE"; "DC_KITCHEN"; "DC_MAINTENANCE"; "DC_OTHER";
   "DC_REFERRAL"; "DC_RENTAL"; "DC_TRAINING"; "DC_TRAVEL"; "DC_UTILITIES"].

Definition gaCodes : list string :=
  ["GA_GOVT_FEE"; "GA_AUDIT"; "GA_COMMUNICATION"; "GA_ECL"; "GA_OTHER";
   "GA_POSTAGE"; "GA_PROFESSIONAL"; "GA_SECURITY"; "GA_TRAINING"; "GA_EMPLOYEE";
   "GA_MARKETING"; "GA_HO_CHARGES"].

(** The months of the [for (let m = 1; m <= 12; m++)] loops. *)
Definition MONTHS : list nat := seq 1 12.

Section Common.
Context {A : Type} `{JsNum A}.

Definition zero : A := lit 0.
Definition hundred : A := lit 100.

(** [v || 0] where [v] may be [undefined]. *)
Definition orZero (v : option A) : A :=
  match v with
  | Some x => if truthy x then x else zero
  | None => zero
  end.

(** [assumptionsData[branchId]?.[code]?.assumption_value || 0] *)
Definition assumptionPct (assumptionsData : gmap Z (gmap string (Assumption A)))
    (branchId : Z) (code : string) : A :=
  orZero (assumption_value <$> (assumptionsData !! branchId ≫= (.!! code))).

(** [revenueTypeAssumptions[branchId]?.[code] || 0] *)
Definition revTypePct (revenueTypeAssumptions : gmap Z (gmap string A))
    (branchId : Z) (code : string) : A :=
  orZero (revenueTypeAssumptions !! branchId ≫= (.!! code)).

End Common.

(** ** The assumption editor (income-statement.js) *)

Module Editor.
Section Editor.
Context {A : Type} `{JsNum A}.

Record State := {
  revenueData : gmap Z (gmap string A);
  revenueTypeAssumptions : gmap Z (gmap string A);
  assumptionsData : gmap Z (gmap string (Assumption A));
  calculatedData : gmap Z (gmap string A)
}.

(** [revenueData[branchId]?.IP || 0], and likewise [OP], [ER]. *)
Definition branchRevenue (revenueData : gmap Z (gmap string A))
    (branchId : Z) (careType : string) : A :=
  orZero (revenueData !! branchId ≫= (.!! careType)).

(** The body of [codes.forEach(code => { ... })] in [calculateAllValues]:
    one percentage-of-net-revenue line per code, accumulated into a total. *)
Definition costLoop (st : State) (branchId : Z) (netRevenue : A)
    (codes : list string) (acc : gmap string A * A) : gmap string A * A :=
  foldl (fun '(cd, total) code =>
           let pct := assumptionPct (assumptionsData st) branchId code in
           let value := mul netRevenue (div pct hundred) in
           (<[code := value]> cd, add total value))
        acc codes.

(** The body of [BRANCH_IDS.forEach(branchId => { ... })]: the object
    stored in [calculatedData[branchId]]. *)
Definition calculateBranch (st : State) (branchId : Z) : gmap string A :=
  let cd : gmap string A := ∅ in
  let ipRevenue := branchRevenue (revenueData st) branchId "IP" in
  let opRevenue := branchRevenue (revenueData st) branchId "OP" in
  let erRevenue := branchRevenue (revenueData st) branchId "ER" in
  let subRevenue := add (add ipRevenue opRevenue) erRevenue in
  let cd := <["REV_SUB" := subRevenue]> cd in
  let mohRevTypePct := revTypePct (revenueTypeAssumptions st) branchId "REV_TYPE_MOH" in
  let insuranceRevTypePct :=
    revTypePct (revenueTypeAssumptions st) branchId "REV_TYPE_INSURANCE" in
  let rejectionMohPct := assumptionPct (assumptionsData st) branchId "DIS_REJECTION_MOH" in
  let rejectionMohValue :=
    mul (mul subRevenue (div rejectionMohPct hundred)) (div mohRevTypePct hundred) in
  let cd := <["DIS_REJECTION_MOH" := rejectionMohValue]> cd in
  let rejectionInsPct := assumptionPct (assumptionsData st) branchId "DIS_REJECTION_INS" in
  let rejectionInsValue :=
    mul (mul subRevenue (div rejectionInsPct hundred)) (div insuranceRevTypePct hundred) in
  let cd := <["DIS_REJECTION_INS" := rejectionInsValue]> cd in
  let totalRejection := add rejectionMohValue rejectionInsValue in
  let cd := <["DIS_REJECTION" := totalRejection]> cd in
  let volumePct := assumptionPct (assumptionsData st) branchId "DIS_VOLUME" in
  let volumeValue := mul subRevenue (div volumePct hundred) in
  let cd := <["DIS_VOLUME" := volumeValue]> cd in
  let earlyPayPct := assumptionPct (assumptionsData st) branchId "DIS_EARLY_PAY" in
  let earlyPayValue := mul subRevenue (div earlyPayPct hundred) in
  let cd := <["DIS_EARLY_PAY" := earlyPayValue]> cd in
  let totalDiscounts := add (add totalRejection volumeValue) earlyPayValue in
  let cd := <["DIS_SETTLEMENT" := totalDiscounts]> cd in
  let netRevenue := sub subRevenue totalDiscounts in
  let cd := <["REV_NET" := netRevenue]> cd in
  let '(cd, totalDirectCosts) :=
    costLoop st branchId netRevenue directCostCodes (cd, zero) in
  let cd := <["TOTAL_DC" := totalDirectCosts]> cd in
  let grossProfit := sub netRevenue totalDirectCosts in
  let cd := <["GROSS_PROFIT" := grossProfit]> cd in
  let '(cd, totalGAExpenses) :=
    costLoop st branchId netRevenue gaCodes (cd, zero) in
  let cd := <["TOTAL_GA" := totalGAExpenses]> cd in
  let otherIncomePct := assumptionPct (assumptionsData st) branchId "OTHER_INCOME" in
  let otherIncome := mul netRevenue (div otherIncomePct hundred) in
  let cd := <["OTHER_INCOME" := otherIncome]> cd in
  let ebitda := add (sub grossProfit totalGAExpenses) otherIncome in
  let cd := <["EBITDA" := ebitda]> cd in
  let financeCostPct := assumptionPct (assumptionsData st) branchId "FINANCE_COST" in
  let financeCost := mul netRevenue (div financeCostPct hundred) in
  let cd := <["FINANCE_COST" := financeCost]> cd in
  let depreciationPct := assumptionPct (assumptionsData st) branchId "DEPRECIATION" in
  let depreciation := mul netRevenue (div depreciationPct hundred) in
  let cd := <["DEPRECIATION" := depreciation]> cd in
  let zakatPct := assumptionPct (assumptionsData st) branchId "ZAKAT" in
  let zakat := mul netRevenue (div zakatPct hundred) in
  let cd := <["ZAKAT" := zakat]> cd in
  let netProfit := sub (sub (sub ebitda financeCost) depreciation) zakat in
  let cd := <["NET_PROFIT" := netProfit]> cd in
  let ociPct := assumptionPct (assumptionsData st) branchId "OCI" in
  let oci := mul netRevenue (div ociPct hundred) in
  let cd := <["OCI" := oci]> cd in
  <["TOTAL_COMP_INCOME" := add netProfit oci]> cd.

(** [calculateAllValues()]: [calculatedData] is reset and refilled branch
    by branch (the closing [updateCalculatedUI()] only writes to the page). *)
Definition calculateAllValues (st : State) : State :=
  {| revenueData := revenueData st;
     revenueTypeAssumptions := revenueTypeAssumptions st;
     assumptionsData := assumptionsData st;
     calculatedData :=
       foldl (fun cd branchId => <[branchId := calculateBranch st branchId]> cd)
             ∅ BRANCH_IDS |}.

(** [calculatedData[branchId]?.[code]] *)
Definition calculated (st : State) (branchId : Z) (code : string) : option A :=
  calculatedData st !! branchId ≫= (.!! code).

(** The value a branch column carries for a line item: revenue lines are
    filled by [createTableRow] from [revenueData[branchId]?.[item.revenueType] || 0],
    every other line is read back as [calculatedData[branchId]?.[item.code] || 0]
    ([updateCalculatedUI], [saveAssumptions]). *)
Definition branchItemValue (st : State) (branchId : Z) (item : ItemConfig) : A :=
  match revenueType item with
  | Some careType => branchRevenue (revenueData st) branchId careType
  | None => orZero (calculated st branchId (code item))
  end.

(** The second loop of [calculateRevenueTypeTotals()]: for one revenue
    type, the value [avgTotal] shown in the "Total %" cell (before
    [toFixed(2)]). *)
Definition revenueTypeTotal (st : State) (revTypeCode : string) : A :=
  let '(typeTotal, branchCount) :=
    foldl (fun '(typeTotal, branchCount) branchId =>
             let val := revTypePct (revenueTypeAssumptions st) branchId revTypeCode in
             if gtb val zero
             then (add typeTotal val, add branchCount (lit 1))
             else (typeTotal, branchCount))
          (zero, zero) BRANCH_IDS in
  if gtb branchCount zero then div typeTotal branchCount else zero.

Definition calculateRevenueTypeTotals (st : State) : list (string * A) :=
  map (fun revTypeCode => (revTypeCode, revenueTypeTotal st revTypeCode))
      REVENUE_TYPE_CONFIG.

End Editor.
Arguments State : clear implicits.
End Editor.

(** ** The monthly budget view (income-statement-budget.js) *)

(** The keys of a [calculatedData[branchId][code]] object:
    [month_1] ... [month_12] and [fy_total]. *)
Inductive RowKey := month_ (m : nat) | fy_total.

#[global] Instance RowKey_eq_dec : EqDecision RowKey.
Proof. solve_decision. Defined.

#[global] Instance RowKey_countable : Countable RowKey.
Proof.
  refine (inj_countable'
            (fun k => match k with month_ m => S m | fy_total => O end)
            (fun n => match n with O => fy_total | S m => month_ m end) _).
  intros []; reflexivity.
Defined.

(** [selectedBranch]: ['all'] or a branch id. *)
Inductive Selection := all | branch (id : Z).

Module Budget.
Section Budget.
Context {A : Type} `{JsNum A}.

Record State := {
  selectedBranch : Selection;
  monthlyRevenueData : gmap Z (gmap nat (gmap string A));
  assumptionsData : gmap Z (gmap string (Assumption A));
  revenueTypeAssumptions : gmap Z (gmap string A);
  calculatedData : gmap Z (gmap string (gmap RowKey A))
}.

Definition setCalculatedData (st : State)
    (cd : gmap Z (gmap string (gmap RowKey A))) : State :=
  {| selectedBranch := selectedBranch st;
     monthlyRevenueData := monthlyRevenueData st;
     assumptionsData := assumptionsData st;
     revenueTypeAssumptions := revenueTypeAssumptions st;
     calculatedData := cd |}.

Definition getSelectedBranches (st : State) : list Z :=
  match selectedBranch st with
  | all => BRANCH_IDS
  | branch id => [id]
  end.

(** [parseFloat(monthRevenue.IP) || 0] where [monthRevenue] is
    [monthData?.[month] || monthData?.[String(month)] || { IP: 0, OP: 0, ER: 0 }]
    (a number key and its string are the same property, and [parseFloat]
    returns a number unchanged). *)
Definition monthRevenue (monthlyRevenueData : gmap Z (gmap nat (gmap string A)))
    (branchId : Z) (month : nat) (careType : string) : A :=
  orZero (monthData ← monthlyRevenueData !! branchId;
          monthRevenue ← monthData !! month;
          monthRevenue !! careType).

(** [obj[code][`month_${month}`] = v]; raises a TypeError ([None]) when
    [obj[code]] is undefined. *)
Definition setCell (code : string) (month : nat) (v : A)
    (obj : gmap string (gmap RowKey A)) : option (gmap string (gmap RowKey A)) :=
  row ← obj !! code;
  Some (<[code := <[month_ month := v]> row]> obj).

(** The body of [codes.forEach(code => { ... })] in [calculateMonthValues]. *)
Definition costLoop (assumptionsData : gmap Z (gmap string (Assumption A)))
    (branchId : Z) (month : nat) (netRevenue : A) (codes : list string)
    (acc : gmap string (gmap RowKey A) * A)
    : option (gmap string (gmap RowKey A) * A) :=
  foldl (fun acc code =>
           '(obj, total) ← acc;
           let pct := assumptionPct assumptionsData branchId code in
           let value := mul netRevenue (div pct hundred) in
           obj ← setCell code month value obj;
           Some (obj, add total value))
        (Some acc) codes.

(** The writes of [calculateMonthValues(branchId, month)] to the object
    [calculatedData[branchId]]. *)
Definition monthWrites (monthlyRevenueData : gmap Z (gmap nat (gmap string A)))
    (assumptionsData : gmap Z (gmap string (Assumption A)))
    (revenueTypeAssumptions : gmap Z (gmap string A))
    (branchId : Z) (month : nat) (obj : gmap string (gmap RowKey A))
    : option (gmap string (gmap RowKey A)) :=
  let ipRevenue := monthRevenue monthlyRevenueData branchId month "IP" in
  let opRevenue := monthRevenue monthlyRevenueData branchId month "OP" in
  let erRevenue := monthRevenue monthlyRevenueData branchId month "ER" in
  let subRevenue := add (add ipRevenue opRevenue) erRevenue in
  obj ← setCell "REV_IP" month ipRevenue obj;
  obj ← setCell "REV_OP" month opRevenue obj;
  obj ← setCell "REV_ER" month erRevenue obj;
  obj ← setCell "REV_SUB" month subRevenue obj;
  let mohRevTypePct := revTypePct revenueTypeAssumptions branchId "REV_TYPE_MOH" in
  let insuranceRevTypePct :=
    revTypePct revenueTypeAssumptions branchId "REV_TYPE_INSURANCE" in
  let rejectionMohPct := assumptionPct assumptionsData branchId "DIS_REJECTION_MOH" in
  let rejectionMohValue :=
    mul (mul subRevenue (div rejectionMohPct hundred)) (div mohRevTypePct hundred) in
  obj ← setCell "DIS_REJECTION_MOH" month rejectionMohValue obj;
  let rejectionInsPct := assumptionPct assumptionsData branchId "DIS_REJECTION_INS" in
  let rejectionInsValue :=
    mul (mul subRevenue (div rejectionInsPct hundred)) (div insuranceRevTypePct hundred) in
  obj ← setCell "DIS_REJECTION_INS" month rejectionInsValue obj;
  let totalRejection := add rejectionMohValue rejectionInsValue in
  obj ← setCell "DIS_REJECTION" month totalRejection obj;
  let volumePct := assumptionPct assumptionsData branchId "DIS_VOLUME" in
  let volumeValue := mul subRevenue (div volumePct hundred) in
  obj ← setCell "DIS_VOLUME" month volumeValue obj;
  let earlyPayPct := assumptionPct assumptionsData branchId "DIS_EARLY_PAY" in
  let earlyPayValue := mul subRevenue (div earlyPayPct hundred) in
  obj ← setCell "DIS_EARLY_PAY" month earlyPayValue obj;
  let totalDiscounts := add (add totalRejection volumeValue) earlyPayValue in
  obj ← setCell "DIS_SETTLEMENT" month totalDiscounts obj;
  let netRevenue := sub subRevenue totalDiscounts in
  obj ← setCell "REV_NET" month netRevenue obj;
  '(obj, totalDirectCosts) ←
    costLoop assumptionsData branchId month netRevenue directCostCodes (obj, zero);
  obj ← setCell "TOTAL_DC" month totalDirectCosts obj;
  let grossProfit := sub netRevenue totalDirectCosts in
  obj ← setCell "GROSS_PROFIT" month grossProfit obj;
  '(obj, totalGAExpenses) ←
    costLoop assumptionsData branchId month netRevenue gaCodes (obj, zero);
  obj ← setCell "TOTAL_GA" month totalGAExpenses obj;
  let otherIncomePct := assumptionPct assumptionsData branchId "OTHER_INCOME" in
  let otherIncome := mul netRevenue (div otherIncomePct hundred) in
  obj ← setCell "OTHER_INCOME" month otherIncome obj;
  let ebitda := add (sub grossProfit totalGAExpenses) otherIncome in
  obj ← setCell "EBITDA" month ebitda obj;
  let financeCostPct := assumptionPct assumptionsData branchId "FINANCE_COST" in
  let financeCost := mul netRevenue (div financeCostPct hundred) in
  obj ← setCell "FINANCE_COST" month financeCost obj;
  let depreciationPct := assumptionPct assumptionsData branchId "DEPRECIATION" in
  let depreciation := mul netRevenue (div depreciationPct hundred) in
  obj ← setCell "DEPRECIATION" month depreciation obj;
  let zakatPct := assumptionPct assumptionsData branchId "ZAKAT" in
  let zakat := mul netRevenue (div zakatPct hundred) in
  obj ← setCell "ZAKAT" month zakat obj;
  let netProfit := sub (sub (sub ebitda financeCost) depreciation) zakat in
  obj ← setCell "NET_PROFIT" month netProfit obj;
  let ociPct := assumptionPct assumptionsData branchId "OCI" in
  let oci := mul netRevenue (div ociPct hundred) in
  obj ← setCell "OCI" month oci obj;
  setCell "TOTAL_COMP_INCOME" month (add netProfit oci) obj.

(** [calculateMonthValues(branchId, month)]: every write goes through the
    object [calculatedData[branchId]], which must exist. *)
Definition calculateMonthValues (st : State) (branchId : Z) (month : nat)
    : option State :=
  obj ← calculatedData st !! branchId;
  obj ← monthWrites (monthlyRevenueData st) (assumptionsData st)
          (revenueTypeAssumptions st) branchId month obj;
  Some (setCalculatedData st (<[branchId := obj]> (calculatedData st))).

(** "Initialize line items": every month and [fy_total] set to 0. *)
Definition initRow : gmap RowKey A :=
  <[fy_total := zero]>
    (foldl (fun row m => <[month_ m := zero]> row) ∅ MONTHS).

Definition initItems : gmap string (gmap RowKey A) :=
  foldl (fun obj item => <[code item := initRow]> obj) ∅ LINE_ITEMS_CONFIG.

(** "Calculate FY totals":
    [fyTotal += calculatedData[branchId][item.code][`month_${m}`] || 0]. *)
Definition rowFyTotal (row : gmap RowKey A) : A :=
  foldl (fun fyTotal m => add fyTotal (orZero (row !! month_ m))) zero MONTHS.

Definition fyTotals (obj : gmap string (gmap RowKey A))
    : option (gmap string (gmap RowKey A)) :=
  foldl (fun obj item =>
           obj ← obj;
           row ← obj !! code item;
           Some (<[code item := <[fy_total := rowFyTotal row]> row]> obj))
        (Some obj) LINE_ITEMS_CONFIG.

(** The body of [branchesToCalc.forEach(branchId => { ... })]. *)
Definition calculateBranchValues (st : State) (branchId : Z) : option State :=
  let st := setCalculatedData st (<[branchId := initItems]> (calculatedData st)) in
  st ← foldl (fun st month => st ← st; calculateMonthValues st branchId month)
         (Some st) MONTHS;
  obj ← calculatedData st !! branchId;
  obj ← fyTotals obj;
  Some (setCalculatedData st (<[branchId := obj]> (calculatedData st))).

(** [calculateAllBranchValues()] *)
Definition calculateAllBranchValues (st : State) : option State :=
  foldl (fun st branchId => st ← st; calculateBranchValues st branchId)
        (Some st) (getSelectedBranches st).

(** [calculatedData[branchId]?.[code]?.[key]] *)
Definition cell (st : State) (branchId : Z) (code : string) (key : RowKey)
    : option A :=
  obj ← calculatedData st !! branchId;
  row ← obj !! code;
  row !! key.

(** [calculatedData[branchId]?.[item.code]?.[`month_${month}`] || 0] *)
Definition branchMonthValue (st : State) (branchId : Z) (item : ItemConfig)
    (month : nat) : A :=
  orZero (cell st branchId (code item) (month_ month)).

(** The month cell of [createDataRow(item)]: the sum over the branches shown. *)
Definition monthTotal (st : State) (item : ItemConfig) (month : nat) : A :=
  foldl (fun monthTotal branchId =>
           add monthTotal (branchMonthValue st branchId item month))
        zero (getSelectedBranches st).

(** [createDataRow(item)]: the twelve month cells and the FY Total cell
    (the values before [formatCurrency]). *)
Definition createDataRow (st : State) (item : ItemConfig) : list A * A :=
  foldl (fun '(cells, fyTotal) month =>
           let monthTotal := monthTotal st item month in
           (app cells [monthTotal], add fyTotal monthTotal))
        ([], zero) MONTHS.

End Budget.
Arguments State : clear implicits.
End Budget.

(** ** The daily-budget summary cards (daily-budget.js) *)

Module Daily.
Section Daily.
Context {A : Type} `{JsNum A}.

(** A record of [dailyBudgetData] (the fields [updateSummaryCards] reads);
    any of them may be missing. *)
Record Row := {
  stay_type : option string;
  cpe : option A;
  alos : option A;
  revenue : option A;
  episodes : option A
}.

(** An entry of [stayTypeMetrics]. *)
Record Metrics := {
  m_revenue : A;
  m_episodes : A;
  totalCPE : A;
  countCPE : A;
  totalALOS : A;
  countALOS : A;
  records : A
}.

Definition emptyMetrics : Metrics :=
  {| m_revenue := zero; m_episodes := zero; totalCPE := zero; countCPE := zero;
     totalALOS := zero; countALOS := zero; records := zero |}.

(** [row.stay_type || 'Unknown'] (the empty string is falsy too). *)
Definition stayTypeOf (row : Row) : string :=
  match stay_type row with
  | Some s => if String.eqb s "" then "Unknown" else s
  | None => "Unknown"
  end.

(** The body of [dailyBudgetData.forEach(row => { ... })]. *)
Definition addRow (stayTypeMetrics : gmap string Metrics) (row : Row)
    : gmap string Metrics :=
  let stayType := stayTypeOf row in
  let cpe := orZero (cpe row) in
  let alos := orZero (alos row) in
  let revenue := orZero (revenue row) in
  let m := default emptyMetrics (stayTypeMetrics !! stayType) in
  let m := {| m_revenue := add (m_revenue m) revenue;
              m_episodes := add (m_episodes m) (orZero (episodes row));
              totalCPE := totalCPE m; countCPE := countCPE m;
              totalALOS := totalALOS m; countALOS := countALOS m;
              records := add (records m) (lit 1) |} in
  let m := if gtb cpe zero
           then {| m_revenue := m_revenue m; m_episodes := m_episodes m;
                   totalCPE := add (totalCPE m) cpe;
                   countCPE := add (countCPE m) (lit 1);
                   totalALOS := totalALOS m; countALOS := countALOS m;
                   records := records m |}
           else m in
  let m := if gtb alos zero
           then {| m_revenue := m_revenue m; m_episodes := m_episodes m;
                   totalCPE := totalCPE m; countCPE := countCPE m;
                   totalALOS := add (totalALOS m) alos;
                   countALOS := add (countALOS m) (lit 1);
                   records := records m |}
           else m in
  <[stayType := m]> stayTypeMetrics.

Definition stayTypeMetrics (dailyBudgetData : list Row) : gmap string Metrics :=
  foldl addRow ∅ dailyBudgetData.

(** The [avgCPE] of a row of the metrics summary table. *)
Definition avgCPE (stayType : string) (metrics : Metrics) : A :=
  if String.eqb stayType "LTC" || String.eqb stayType "Non-LTC"
  then (if gtb (countCPE metrics) zero
        then div (totalCPE metrics) (countCPE metrics) else zero)
  else (if gtb (m_episodes metrics) zero
        then div (m_revenue metrics) (m_episodes metrics) else zero).

(** [updateSummaryCards()]: the "Avg CPE" column of the metrics summary
    table, one row per stay type that has records (the value before the
    [avgCPE > 0 ? formatCurrency(avgCPE) : '-'] of the cell). *)
Definition updateSummaryCards (dailyBudgetData : list Row) : gmap string A :=
  map_imap (fun stayType metrics => Some (avgCPE stayType metrics))
           (stayTypeMetrics dailyBudgetData).

End Daily.
Arguments Row : clear implicits.
Arguments Metrics : clear implicits.
End Daily.

(** ** The calculation engine as the specification states it

    The seventeen evaluation steps of the specification's calculation
    engine, [compute(revenue, assumptions, allocations)], written from the
    specification's formulas; the two pages are compared with it below. *)

Module Spec.
Section Spec.
Context {A : Type} `{JsNum A}.

Record Inputs := {
  revenue : string -> A;      (* care type (IP, OP, ER) to amount *)
  assumption : string -> A;   (* line-item code to percent *)
  allocation : string -> A    (* revenue-type code to percent *)
}.

(** [base × (assumption(code)/100)] *)
Definition percentOf (i : Inputs) (base : A) (code : string) : A :=
  mul base (div (assumption i code) hundred).

Definition REV_SUB (i : Inputs) : A :=
  add (add (revenue i "IP") (revenue i "OP")) (revenue i "ER").

Definition DIS_REJECTION_MOH (i : Inputs) : A :=
  mul (mul (REV_SUB i) (div (assumption i "DIS_REJECTION_MOH") hundred))
      (div (allocation i "REV_TYPE_MOH") hundred).

Definition DIS_REJECTION_INS (i : Inputs) : A :=
  mul (mul (REV_SUB i) (div (assumption i "DIS_REJECTION_INS") hundred))
      (div (allocation i "REV_TYPE_INSURANCE") hundred).

Definition DIS_REJECTION (i : Inputs) : A :=
  add (DIS_REJECTION_MOH i) (DIS_REJECTION_INS i).

Definition DIS_SETTLEMENT (i : Inputs) : A :=
  add (add (DIS_REJECTION i) (percentOf i (REV_SUB i) "DIS_VOLUME"))
      (percentOf i (REV_SUB i) "DIS_EARLY_PAY").

Definition REV_NET (i : Inputs) : A := sub (REV_SUB i) (DIS_SETTLEMENT i).

(** [Σ] of the net-revenue lines of a list of codes, in list order. *)
Definition totalOf (i : Inputs) (codes : list string) : A :=
  foldl (fun total code => add total (percentOf i (REV_NET i) code)) zero codes.

Definition TOTAL_DC (i : Inputs) : A := totalOf i directCostCodes.
Definition GROSS_PROFIT (i : Inputs) : A := sub (REV_NET i) (TOTAL_DC i).
Definition TOTAL_GA (i : Inputs) : A := totalOf i gaCodes.

Definition EBITDA (i : Inputs) : A :=
  add (sub (GROSS_PROFIT i) (TOTAL_GA i)) (percentOf i (REV_NET i) "OTHER_INCOME").

Definition NET_PROFIT (i : Inputs) : A :=
  sub (sub (sub (EBITDA i) (percentOf i (REV_NET i) "FINANCE_COST"))
           (percentOf i (REV_NET i) "DEPRECIATION"))
      (percentOf i (REV_NET i) "ZAKAT").

Definition TOTAL_COMP_INCOME (i : Inputs) : A :=
  add (NET_PROFIT i) (percentOf i (REV_NET i) "OCI").

(** The lines whose base is the sub revenue, and those whose base is the
    net revenue. *)
Definition subRevenueCodes : list string := ["DIS_VOLUME"; "DIS_EARLY_PAY"].
Definition netRevenueCodes : list string :=
  directCostCodes ++ gaCodes
    ++ ["OTHER_INCOME"; "FINANCE_COST"; "DEPRECIATION"; "ZAKAT"; "OCI"].

Definition isOneOf (code : string) (codes : list string) : bool :=
  existsb (String.eqb code) codes.

(** The value of a line item, by code; [None] for a code outside the
    catalog. *)
Definition compute (i : Inputs) (code : string) : option A :=
  if String.eqb code "REV_IP" then Some (revenue i "IP")
  else if String.eqb code "REV_OP" then Some (revenue i "OP")
  else if String.eqb code "REV_ER" then Some (revenue i "ER")
  else if String.eqb code "REV_SUB" then Some (REV_SUB i)
  else if String.eqb code "DIS_REJECTION_MOH" then Some (DIS_REJECTION_MOH i)
  else if String.eqb code "DIS_REJECTION_INS" then Some (DIS_REJECTION_INS i)
  else if String.eqb code "DIS_REJECTION" then Some (DIS_REJECTION i)
  else if isOneOf code subRevenueCodes then Some (percentOf i (REV_SUB i) code)
  else if String.eqb code "DIS_SETTLEMENT" then Some (DIS_SETTLEMENT i)
  else if String.eqb code "REV_NET" then Some (REV_NET i)
  else if isOneOf code netRevenueCodes then Some (percentOf i (REV_NET i) code)
  else if String.eqb code "TOTAL_DC" then Some (TOTAL_DC i)
  else if String.eqb code "GROSS_PROFIT" then Some (GROSS_PROFIT i)
  else if String.eqb code "TOTAL_GA" then Some (TOTAL_GA i)
  else if String.eqb code "EBITDA" then Some (EBITDA i)
  else if String.eqb code "NET_PROFIT" then Some (NET_PROFIT i)
  else if String.eqb code "TOTAL_COMP_INCOME" then Some (TOTAL_COMP_INCOME i)
  else None.

End Spec.
Arguments Inputs : clear implicits.
End Spec.

(** ** Exact arithmetic *)

(** The rationals, for the statements that rest on the laws of arithmetic. *)
#[global] Instance Qc_JsNum : JsNum Qc := {|
  lit z := Q2Qc (inject_Z z);
  add := Qcplus;
  sub := Qcminus;
  mul := Qcmult;
  div := Qcdiv;
  truthy x := negb (Qeq_bool x 0);
  gtb x y := negb (Qle_bool x y)
|}.

(** ** The arithmetic of the program *)

(** An integer literal as a binary64 number (exact below 2^53). *)
Fixpoint floatOfPos (p : positive) : PrimFloat.float :=
  match p with
  | xH => PrimFloat.one
  | xO p => PrimFloat.mul PrimFloat.two (floatOfPos p)
  | xI p => PrimFloat.add (PrimFloat.mul PrimFloat.two (floatOfPos p)) PrimFloat.one
  end.

Definition floatOfZ (z : Z) : PrimFloat.float :=
  match z with
  | Z0 => PrimFloat.zero
  | Zpos p => floatOfPos p
  | Zneg p => PrimFloat.opp (floatOfPos p)
  end.

(** JavaScript's numbers: IEEE 754 binary64 with round to nearest even.  A
    number is falsy when it is [0], [-0] or [NaN]; [x > y] is false when
    either is [NaN]. *)
#[global] Instance Float_JsNum : JsNum PrimFloat.float := {|
  lit := floatOfZ;
  add := PrimFloat.add;
  sub := PrimFloat.sub;
  mul := PrimFloat.mul;
  div := PrimFloat.div;
  truthy x :=
    if PrimFloat.eqb x x then negb (PrimFloat.eqb x PrimFloat.zero) else false;
  gtb x y := PrimFloat.ltb y x
|}.

(** The inputs the editor hands to the engine for a branch. *)
Definition editorInputs {A : Type} `{JsNum A} (st : Editor.State A) (branchId : Z)
    : Spec.Inputs A :=
  {| Spec.revenue := Editor.branchRevenue (Editor.revenueData st) branchId;
     Spec.assumption := assumptionPct (Editor.assumptionsData st) branchId;
     Spec.allocation := revTypePct (Editor.revenueTypeAssumptions st) branchId |}.

(** The inputs the budget view hands to the engine for a branch and month. *)
Definition budgetInputs {A : Type} `{JsNum A} (st : Budget.State A) (branchId : Z)
    (month : nat) : Spec.Inputs A :=
  {| Spec.revenue := Budget.monthRevenue (Budget.monthlyRevenueData st) branchId month;
     Spec.assumption := assumptionPct (Budget.assumptionsData st) branchId;
     Spec.allocation := revTypePct (Budget.revenueTypeAssumptions st) branchId |}.

(** ** Closed forms of the objects the two pages build *)

Section ClosedForms.
Context {A : Type} `{JsNum A}.

(** The value the specification's engine gives a catalog code. *)
Definition valueOf (i : Spec.Inputs A) (code : string) : A :=
  default zero (Spec.compute i code).

(** An editor object: one value per line item that is not raw revenue. *)
Definition itemsObject (V : string -> A) : gmap string A :=
  foldl (fun cd item =>
           match revenueType item with
           | Some _ => cd
           | None => <[code item := V (code item)]> cd
           end) ∅ LINE_ITEMS_CONFIG.

(** A budget object: one row per line item. *)
Definition rowsObject (R : string -> gmap RowKey A)
    : gmap string (gmap RowKey A) :=
  foldl (fun obj item => <[code item := R (code item)]> obj) ∅ LINE_ITEMS_CONFIG.

(** The row of a line item after the twelve months, and after the totals. *)
Definition monthsRow (V : nat -> string -> A) (code : string) : gmap RowKey A :=
  foldl (fun row m => <[month_ m := V m code]> row) Budget.initRow MONTHS.

Definition finalRow (V : nat -> string -> A) (code : string) : gmap RowKey A :=
  <[fy_total := Budget.rowFyTotal (monthsRow V code)]> (monthsRow V code).

Definition branchValues (st : Budget.State A) (branchId : Z)
    : nat -> string -> A :=
  fun month code => valueOf (budgetInputs st branchId month) code.

Definition branchObject (st : Budget.State A) (branchId : Z)
    : gmap string (gmap RowKey A) :=
  rowsObject (finalRow (branchValues st branchId)).

(** The state [calculateAllBranchValues] ends in. *)
Definition finalState (st : Budget.State A) : Budget.State A :=
  Budget.setCalculatedData st
    (foldl (fun cd b => <[b := branchObject st b]> cd)
           (Budget.calculatedData st) (Budget.getSelectedBranches st)).

End ClosedForms.

(** Sums over the exact rationals. *)
Definition sumQc (l : list Qc) : Qc := foldr Qcplus 0%Qc l.

(** ** Runs that differ in the cash and other-credit allocations *)

Section Allocations.
Context {A : Type} `{JsNum A}.

(** Two allocation stores that agree on every code but REV_TYPE_CASH and
    REV_TYPE_OTHER_CREDIT. *)
Definition differOnlyInCashAndOtherCredit (r r' : gmap Z (gmap string A)) : Prop :=
  forall (b : Z) (c : string),
    c <> "REV_TYPE_CASH" -> c <> "REV_TYPE_OTHER_CREDIT" ->
    r !! b ≫= (.!! c) = r' !! b ≫= (.!! c).

Definition editorWithAllocations (st : Editor.State A)
    (r : gmap Z (gmap string A)) : Editor.State A :=
  {| Editor.revenueData := Editor.revenueData st;
     Editor.revenueTypeAssumptions := r;
     Editor.assumptionsData := Editor.assumptionsData st;
     Editor.calculatedData := Editor.calculatedData st |}.

Definition budgetWithAllocations (st : Budget.State A)
    (r : gmap Z (gmap string A)) : Budget.State A :=
  {| Budget.selectedBranch := Budget.selectedBranch st;
     Budget.monthlyRevenueData := Budget.monthlyRevenueData st;
     Budget.assumptionsData := Budget.assumptionsData st;
     Budget.revenueTypeAssumptions := r;
     Budget.calculatedData := Budget.calculatedData st |}.

End Allocations.

(** ** The scenario of the specification

    Branch 1 with revenue 100000 / 50000 / 10000, rejection assumptions
    2% (MOH) and 3% (insurance), allocations 40% (MOH) and 50% (insurance),
    volume discount 1%, early-payment discount 0.5% and one direct cost
    at 10%.  [scenarioBudget] receives the same year in two months,
    [scenarioJanuary] receives the whole of it in January. *)

Definition pct (z : Z) : Assumption Qc := {| assumption_value := lit z |}.

Definition scenarioAssumptions : gmap Z (gmap string (Assumption Qc)) :=
  {[ 1%Z := <["DIS_REJECTION_MOH" := pct 2]>
           (<["DIS_REJECTION_INS" := pct 3]>
           (<["DIS_VOLUME" := pct 1]>
           (<["DIS_EARLY_PAY" := {| assumption_value := Q2Qc (1 # 2) |}]>
           (<["DC_CONSUMABLES" := pct 10]> ∅)))) ]}.

Definition scenarioAllocations : gmap Z (gmap string Qc) :=
  {[ 1%Z := <["REV_TYPE_MOH" := lit 40]>
           (<["REV_TYPE_INSURANCE" := lit 50]>
           (<["REV_TYPE_CASH" := lit 10]> ∅)) ]}.

(** The same allocations but for cash and other credit. *)
Definition otherAllocations : gmap Z (gmap string Qc) :=
  {[ 1%Z := <["REV_TYPE_MOH" := lit 40]>
           (<["REV_TYPE_INSURANCE" := lit 50]>
           (<["REV_TYPE_CASH" := lit 3]>
           (<["REV_TYPE_OTHER_CREDIT" := lit 7]> ∅))) ]}.

Definition scenarioEditor : Editor.State Qc :=
  {| Editor.revenueData :=
       {[ 1%Z := <["IP" := lit 100000]>
                (<["OP" := lit 50000]> (<["ER" := lit 10000]> ∅)) ]};
     Editor.revenueTypeAssumptions := scenarioAllocations;
     Editor.assumptionsData := scenarioAssumptions;
     Editor.calculatedData := ∅ |}.

Definition scenarioBudget : Budget.State Qc :=
  {| Budget.selectedBranch := branch 1;
     Budget.monthlyRevenueData :=
       {[ 1%Z := <[2%nat := <["IP" := lit 60000]> (<["OP" := lit 50000]> ∅)]>
                (<[7%nat := <["IP" := lit 40000]> (<["ER" := lit 10000]> ∅)]> ∅) ]};
     Budget.assumptionsData := scenarioAssumptions;
     Budget.revenueTypeAssumptions := scenarioAllocations;
     Budget.calculatedData := ∅ |}.

Definition scenarioJanuary : Budget.State Qc :=
  {| Budget.selectedBranch := all;
     Budget.monthlyRevenueData :=
       {[ 1%Z := {[ 1%nat := <["IP" := lit 100000]>
                            (<["OP" := lit 50000]> (<["ER" := lit 10000]> ∅)) ]} ]};
     Budget.assumptionsData := scenarioAssumptions;
     Budget.revenueTypeAssumptions := scenarioAllocations;
     Budget.calculatedData := ∅ |}.

(** ** States used to state the roll-up claims *)

Definition budgetSelect {A : Type} (st : Budget.State A) (sel : Selection)
    : Budget.State A :=
  {| Budget.selectedBranch := sel;
     Budget.monthlyRevenueData := Budget.monthlyRevenueData st;
     Budget.assumptionsData := Budget.assumptionsData st;
     Budget.revenueTypeAssumptions := Budget.revenueTypeAssumptions st;
     Budget.calculatedData := Budget.calculatedData st |}.

(** A figure that is 0 or absent. *)
Definition zeroOrAbsent (o : option Qc) : Prop := o = None \/ o = Some 0%Qc.

(** States with nothing loaded. *)
Definition emptyEditor : Editor.State Qc :=
  {| Editor.revenueData := ∅; Editor.revenueTypeAssumptions := scenarioAllocations;
     Editor.assumptionsData := ∅; Editor.calculatedData := ∅ |}.

Definition emptyBudget : Budget.State Qc :=
  {| Budget.selectedBranch := all; Budget.monthlyRevenueData := ∅;
     Budget.assumptionsData := ∅;
     Budget.revenueTypeAssumptions := scenarioAllocations;
     Budget.calculatedData := ∅ |}.

(** The same in the arithmetic of the run itself: the annual figure is the
    twelve monthly figures added up in month order. *)
Definition annualIsMonthlySum {A : Type} `{JsNum A} (est : Editor.State A)
    (bst : Budget.State A) (b : Z) : Prop :=
  Forall (fun careType =>
            Editor.branchRevenue (Editor.revenueData est) b careType =
              foldl (fun total m =>
                       add total (Budget.monthRevenue (Budget.monthlyRevenueData bst)
                                                      b m careType))
                    zero MONTHS)
         ["IP"; "OP"; "ER"].

(** A binary64 run: inpatient revenue of 1000 in each month, 12000 in the
    year, a volume discount of 3 percent and consumables at 7 percent. *)
Definition binary64Assumptions : gmap Z (gmap string (Assumption PrimFloat.float)) :=
  <[1%Z := <["DIS_VOLUME" := {| assumption_value := lit 3 |}]>
             (<["DC_CONSUMABLES" := {| assumption_value := lit 7 |}]> ∅)]> ∅.

Definition binary64Editor : Editor.State PrimFloat.float :=
  {| Editor.revenueData := <[1%Z := <["IP" := lit 12000]> ∅]> ∅;
     Editor.revenueTypeAssumptions := ∅;
     Editor.assumptionsData := binary64Assumptions;
     Editor.calculatedData := ∅ |}.

Definition binary64Budget : Budget.State PrimFloat.float :=
  {| Budget.selectedBranch := branch 1;
     Budget.monthlyRevenueData :=
       <[1%Z := foldl (fun monthData m => <[m := <["IP" := lit 1000]> ∅]> monthData)
                      ∅ MONTHS]> ∅;
     Budget.assumptionsData := binary64Assumptions;
     Budget.revenueTypeAssumptions := ∅;
     Budget.calculatedData := ∅ |}.

(** The annual revenue of a branch, per care type, is the sum of its
    twelve monthly revenues. *)
Definition annualIsSumOfMonths (est : Editor.State Qc) (bst : Budget.State Qc)
    (b : Z) : Prop :=
  Forall (fun careType =>
            Editor.branchRevenue (Editor.revenueData est) b careType =
              sumQc (map (fun m => Budget.monthRevenue (Budget.monthlyRevenueData bst)
                                     b m careType) MONTHS))
         ["IP"; "OP"; "ER"].

(** ** Averages, as the claims word them *)

(** [n] as a rational. *)
Definition natQc (n : nat) : Qc := Q2Qc (inject_Z (Z.of_nat n)).

Definition isPositive (v : Qc) : bool :=
  match (0 ?= v)%Qc with Lt => true | _ => false end.

(** The entries of a list that are strictly greater than 0. *)
Definition positives (l : list Qc) : list Qc := List.filter isPositive l.

(** The arithmetic mean of a list, 0 for the empty list. *)
Definition mean (l : list Qc) : Qc :=
  match l with
  | [] => 0%Qc
  | _ => (sumQc l / natQc (length l))%Qc
  end.

(** The percentages stored for a revenue-type code, over the branches that
    have one. *)
Definition storedAllocations (st : Editor.State Qc) (revTypeCode : string)
    : list Qc :=
  omap (fun b => Editor.revenueTypeAssumptions st !! b ≫= (.!! revTypeCode))
       BRANCH_IDS.

(** ** The two cost-per-episode rules, as the claim words them *)

(** The records of a stay type. *)
Definition rowsOfType (rows : list (Daily.Row Qc)) (stayType : string)
    : list (Daily.Row Qc) :=
  List.filter (fun row => String.eqb (Daily.stayTypeOf row) stayType) rows.

Definition isLongStay (stayType : string) : bool :=
  String.eqb stayType "LTC" || String.eqb stayType "Non-LTC".

(** Rule (a): the mean of the records' positive cpe values. *)
Definition meanOfPositiveCpe (rows : list (Daily.Row Qc)) : Qc :=
  mean (positives (map (fun row => default 0%Qc (Daily.cpe row)) rows)).

(** Rule (b): total revenue over total episode count (0 without episodes). *)
Definition revenueOverEpisodes (rows : list (Daily.Row Qc)) : Qc :=
  let totalRevenue := sumQc (map (fun row => default 0%Qc (Daily.revenue row)) rows) in
  let totalEpisodes := sumQc (map (fun row => default 0%Qc (Daily.episodes row)) rows) in
  if isPositive totalEpisodes then (totalRevenue / totalEpisodes)%Qc else 0%Qc.

(** ** The cascade identities and the inputs of the engine *)

Section Identities.
Context {A : Type} `{JsNum A}.

(** The identities are stated on a reader [get] of the stored values:
    [Editor.calculated st b] for the editor, a month column of
    [Budget.cell] for the budget view. *)

Definition netRevenueIdentity (get : string -> option A) : Prop :=
  exists s d,
    get "REV_SUB" = Some s /\ get "DIS_SETTLEMENT" = Some d /\
    get "REV_NET" = Some (sub s d).

Definition profitIdentities (get : string -> option A) : Prop :=
  exists gp ga oi e fc dep zk np oci,
    get "GROSS_PROFIT" = Some gp /\ get "TOTAL_GA" = Some ga /\
    get "OTHER_INCOME" = Some oi /\ get "FINANCE_COST" = Some fc /\
    get "DEPRECIATION" = Some dep /\ get "ZAKAT" = Some zk /\
    get "OCI" = Some oci /\
    get "EBITDA" = Some e /\ e = add (sub gp ga) oi /\
    get "NET_PROFIT" = Some np /\ np = sub (sub (sub e fc) dep) zk /\
    get "TOTAL_COMP_INCOME" = Some (add np oci).

(** The rejection lines multiply the sub revenue by two percentages, every
    other percentage line multiplies its base by one. *)
Definition rejectionCrossTerm (get : string -> option A)
    (assumption allocation : string -> A) : Prop :=
  exists s n,
    get "REV_SUB" = Some s /\ get "REV_NET" = Some n /\
    get "DIS_REJECTION_MOH" =
      Some (mul (mul s (div (assumption "DIS_REJECTION_MOH") hundred))
                (div (allocation "REV_TYPE_MOH") hundred)) /\
    get "DIS_REJECTION_INS" =
      Some (mul (mul s (div (assumption "DIS_REJECTION_INS") hundred))
                (div (allocation "REV_TYPE_INSURANCE") hundred)) /\
    Forall (fun c => get c = Some (mul s (div (assumption c) hundred)))
           Spec.subRevenueCodes /\
    Forall (fun c => get c = Some (mul n (div (assumption c) hundred)))
           Spec.netRevenueCodes.

(** A reader that agrees with the engine on the catalog satisfies the
    identities. *)
Definition readsEngine (get : string -> option A) (i : Spec.Inputs A) : Prop :=
  Forall (fun item =>
            match revenueType item with
            | Some _ => True
            | None => get (code item) = Spec.compute i (code item)
            end) LINE_ITEMS_CONFIG.

(** Two input sets the engine cannot tell apart: the same three revenue
    figures, the same assumptions, the same MOH and insurance allocations. *)
Definition sameEngineInputs (i i' : Spec.Inputs A) : Prop :=
  Spec.revenue i "IP" = Spec.revenue i' "IP" /\
  Spec.revenue i "OP" = Spec.revenue i' "OP" /\
  Spec.revenue i "ER" = Spec.revenue i' "ER" /\
  (forall c, Spec.assumption i c = Spec.assumption i' c) /\
  Spec.allocation i "REV_TYPE_MOH" = Spec.allocation i' "REV_TYPE_MOH" /\
  Spec.allocation i "REV_TYPE_INSURANCE" = Spec.allocation i' "REV_TYPE_INSURANCE".

End Identities.

(** Engine inputs over the rationals, from their three parts. *)
Definition inputsOf (assumption allocation revenue : string -> Qc)
    : Spec.Inputs Qc :=
  {| Spec.revenue := revenue; Spec.assumption := assumption;
     Spec.allocation := allocation |}.

(** What [stayTypeMetrics] holds for a stay type, in terms of the type's
    records. *)
Definition metricsFor (rows : list (Daily.Row Qc)) (m : Daily.Metrics Qc) : Prop :=
  Daily.m_revenue m = sumQc (map (fun row => default 0%Qc (Daily.revenue row)) rows) /\
  Daily.m_episodes m = sumQc (map (fun row => default 0%Qc (Daily.episodes row)) rows) /\
  Daily.totalCPE m =
    sumQc (positives (map (fun row => default 0%Qc (Daily.cpe row)) rows)) /\
  Daily.countCPE m =
    natQc (length (positives (map (fun row => default 0%Qc (Daily.cpe row)) rows))).

(** ** The editor's input handlers, totals and save/load (income-statement.js) *)

(** A row of the [allAssumptions] array that [saveAssumptions] posts (the
    fields that come from the data; [year], [scenario] and [created_by] are
    the same in every row). *)
Record SavedRow (A : Type) := {
  line_item_code : string;
  branch_id : Z;
  saved_assumption_value : A;
  calculated_value : A
}.
Arguments line_item_code {A} _.
Arguments branch_id {A} _.
Arguments saved_assumption_value {A} _.
Arguments calculated_value {A} _.
Arguments Build_SavedRow {A} _ _ _ _.

(** An element of the [assumptions] array of the assumptions API; either
    percentage field may be missing. *)
Record ApiItem (A : Type) := {
  api_line_item_code : string;
  assumption_percentage : option A;
  api_assumption_value : option A
}.
Arguments api_line_item_code {A} _.
Arguments assumption_percentage {A} _.
Arguments api_assumption_value {A} _.
Arguments Build_ApiItem {A} _ _ _.

(** [item.revenueType] read as a condition. *)
Definition hasRevenueType (item : ItemConfig) : bool :=
  match revenueType item with
  | Some _ => true
  | None => false
  end.

(** The outcome of one request of a loader: an ok answer with its parsed
    body, an answer with another status, or a request (or a parsing) that
    raised. *)
Inductive Response (T : Type) : Type :=
  | ok (data : T)
  | notOk
  | failed.
Arguments ok {T} _.
Arguments notOk {T}.
Arguments failed {T}.

Module EditorPage.
Section EditorPage.
Context {A : Type} `{JsNum A}.

Definition withAssumptions (st : Editor.State A)
    (a : gmap Z (gmap string (Assumption A))) : Editor.State A :=
  {| Editor.revenueData := Editor.revenueData st;
     Editor.revenueTypeAssumptions := Editor.revenueTypeAssumptions st;
     Editor.assumptionsData := a;
     Editor.calculatedData := Editor.calculatedData st |}.

(** [onAssumptionChange(branchId, itemCode, value)]: the entry is created
    when missing, its [assumption_value] is set and everything is
    recalculated (the closing [saveSessionData()] only writes to
    sessionStorage). *)
Definition onAssumptionChange (st : Editor.State A) (branchId : Z)
    (itemCode : string) (value : A) : Editor.State A :=
  let branchAssumptions := default ∅ (Editor.assumptionsData st !! branchId) in
  let assumptionsData :=
    <[branchId := <[itemCode := {| assumption_value := value |}]> branchAssumptions]>
      (Editor.assumptionsData st) in
  Editor.calculateAllValues (withAssumptions st assumptionsData).

(** [onRevenueTypeChange(branchId, revTypeCode, value)] *)
Definition onRevenueTypeChange (st : Editor.State A) (branchId : Z)
    (revTypeCode : string) (value : A) : Editor.State A :=
  let branchTypes := default ∅ (Editor.revenueTypeAssumptions st !! branchId) in
  let revenueTypeAssumptions :=
    <[branchId := <[revTypeCode := value]> branchTypes]>
      (Editor.revenueTypeAssumptions st) in
  Editor.calculateAllValues (editorWithAllocations st revenueTypeAssumptions).

(** The first loop of [calculateRevenueTypeTotals()]: the total of a
    branch's four allocations. *)
Definition branchTotal (st : Editor.State A) (branchId : Z) : A :=
  foldl (fun branchTotal revType =>
           add branchTotal
               (revTypePct (Editor.revenueTypeAssumptions st) branchId revType))
        zero REVENUE_TYPE_CONFIG.

(** The FY Total cell of a row of the editor: [createTableRow] fills it for
    revenue lines, [updateCalculatedUI] for calculated lines, and it stays
    ['-'] ([None]) for the input lines. *)
Definition fyTotalCell (st : Editor.State A) (item : ItemConfig) : option A :=
  match revenueType item with
  | Some careType =>
      Some (foldl (fun totalRevenue branchId =>
                     add totalRevenue
                         (Editor.branchRevenue (Editor.revenueData st) branchId careType))
                  zero BRANCH_IDS)
  | None =>
      if isCalculated item
      then Some (foldl (fun total branchId =>
                          add total (orZero (Editor.calculated st branchId (code item))))
                       zero BRANCH_IDS)
      else None
  end.

(** The [allAssumptions] array of [saveAssumptions()]: per branch, a row
    for every line that is neither calculated nor revenue, then a row for
    every revenue type. *)
Definition saveAssumptions (st : Editor.State A) : list (SavedRow A) :=
  flat_map
    (fun branchId =>
       app
         (flat_map
            (fun item =>
               if negb (isCalculated item) && negb (hasRevenueType item)
               then [ {| line_item_code := code item;
                         branch_id := branchId;
                         saved_assumption_value :=
                           assumptionPct (Editor.assumptionsData st) branchId (code item);
                         calculated_value :=
                           orZero (Editor.calculated st branchId (code item)) |} ]
               else [])
            LINE_ITEMS_CONFIG)
         (map (fun revType =>
                 {| line_item_code := revType;
                    branch_id := branchId;
                    saved_assumption_value :=
                      revTypePct (Editor.revenueTypeAssumptions st) branchId revType;
                    calculated_value := zero |})
              REVENUE_TYPE_CONFIG))
    BRANCH_IDS.

(** [parseFloat(item.assumption_percentage ?? item.assumption_value ?? 0)]
    for numeric fields. *)
Definition itemValue (item : ApiItem A) : A :=
  match assumption_percentage item with
  | Some v => v
  | None => default zero (api_assumption_value item)
  end.

(** The body of [assumptionsArray.forEach(item => { ... })] in
    [loadAllBranchesAssumptions]: revenue-type codes go to
    [revenueTypeAssumptions[branchId]], every other code to
    [assumptionsData[branchId]]. *)
Definition loadItem (acc : gmap string (Assumption A) * gmap string A)
    (item : ApiItem A) : gmap string (Assumption A) * gmap string A :=
  let '(assumptions, revenueTypes) := acc in
  let value := itemValue item in
  if bool_decide (api_line_item_code item ∈ REVENUE_TYPE_CONFIG)
  then (assumptions, <[api_line_item_code item := value]> revenueTypes)
  else (<[api_line_item_code item := {| assumption_value := value |}]> assumptions,
        revenueTypes).

(** What a successful response leaves in [assumptionsData[branchId]] and
    [revenueTypeAssumptions[branchId]]. *)
Definition loadBranchAssumptions (assumptionsArray : list (ApiItem A))
    : gmap string (Assumption A) * gmap string A :=
  foldl loadItem (∅, ∅) assumptionsArray.

(** One callback of [BRANCH_IDS.map(async (branchId) => { ... })] in
    [loadAllBranchesAssumptions]: an ok answer replaces the branch's two
    entries by what its array holds (by two empty objects when the body
    holds no array, [None]); an answer that is not ok writes nothing; a
    request that raises leaves two empty objects. *)
Definition storeBranchAssumptions
    (responses : Z -> Response (option (list (ApiItem A))))
    (stores : gmap Z (gmap string (Assumption A)) * gmap Z (gmap string A))
    (branchId : Z)
    : gmap Z (gmap string (Assumption A)) * gmap Z (gmap string A) :=
  match responses branchId with
  | ok data =>
      let loaded :=
        match data with
        | Some assumptionsArray => loadBranchAssumptions assumptionsArray
        | None => (∅, ∅)
        end in
      (<[branchId := fst loaded]> (fst stores), <[branchId := snd loaded]> (snd stores))
  | notOk => stores
  | failed => (<[branchId := ∅]> (fst stores), <[branchId := ∅]> (snd stores))
  end.

(** [loadAllBranchesAssumptions()]: [assumptionsData] and
    [revenueTypeAssumptions] are emptied, then every configured branch is
    requested.  The requests run concurrently; each callback writes under
    its own branch only, so the outcome does not depend on their order. *)
Definition loadAllBranchesAssumptions (st : Editor.State A)
    (responses : Z -> Response (option (list (ApiItem A)))) : Editor.State A :=
  let stores := foldl (storeBranchAssumptions responses) (∅, ∅) BRANCH_IDS in
  {| Editor.revenueData := Editor.revenueData st;
     Editor.revenueTypeAssumptions := snd stores;
     Editor.assumptionsData := fst stores;
     Editor.calculatedData := Editor.calculatedData st |}.

(** The [revenue] object of a response as [loadAllBranchesRevenue] uses
    it: the one of an ok answer that carries one. *)
Definition responseRevenue (response : Response (option (gmap string A)))
    : option (gmap string A) :=
  match response with
  | ok data => data
  | notOk => None
  | failed => None
  end.

(** The object [loadAllBranchesRevenue] stores in [revenueData[branchId]]:
    [{ IP: parseFloat(data.revenue.IP) || 0, ... }] when the answer is ok
    and carries a [revenue] object, [{ IP: 0, OP: 0, ER: 0 }] in every
    other case. *)
Definition storedRevenue (revenue : option (gmap string A)) : gmap string A :=
  match revenue with
  | Some revenue =>
      <["ER" := orZero (revenue !! "ER")]>
        (<["OP" := orZero (revenue !! "OP")]>
           (<["IP" := orZero (revenue !! "IP")]> ∅))
  | None => <["ER" := zero]> (<["OP" := zero]> (<["IP" := zero]> ∅))
  end.

(** [loadAllBranchesRevenue()]: [revenueData] is emptied, then every
    configured branch is requested and gets an object, whatever the
    outcome of its request. *)
Definition loadAllBranchesRevenue (st : Editor.State A)
    (responses : Z -> Response (option (gmap string A))) : Editor.State A :=
  {| Editor.revenueData :=
       foldl (fun revenueData branchId =>
                <[branchId := storedRevenue (responseRevenue (responses branchId))]>
                  revenueData)
             ∅ BRANCH_IDS;
     Editor.revenueTypeAssumptions := Editor.revenueTypeAssumptions st;
     Editor.assumptionsData := Editor.assumptionsData st;
     Editor.calculatedData := Editor.calculatedData st |}.

End EditorPage.
End EditorPage.

(** The input lines of the catalog: neither calculated nor revenue. *)
Definition inputCodes : list string :=
  ["DIS_REJECTION_MOH"; "DIS_REJECTION_INS"; "DIS_VOLUME"; "DIS_EARLY_PAY"]
    ++ Spec.netRevenueCodes.

(** The lines above the costs: sub revenue, the discounts, net revenue. *)
Definition revenueStageCodes : list string :=
  ["REV_SUB"; "DIS_REJECTION_MOH"; "DIS_REJECTION_INS"; "DIS_REJECTION";
   "DIS_VOLUME"; "DIS_EARLY_PAY"; "DIS_SETTLEMENT"; "REV_NET"].


(** The codes of the lines the engine writes: every line that is not raw
    revenue. *)
Definition computedCodes : list string :=
  map code (List.filter (fun item => negb (hasRevenueType item))
                        LINE_ITEMS_CONFIG).

(** Two input sets that agree on what the lines down to net revenue read:
    the three revenue figures, the four discount percentages and the MOH
    and insurance allocations. *)
Definition sameRevenueStageInputs {A : Type} `{JsNum A} (i i' : Spec.Inputs A)
    : Prop :=
  Spec.revenue i "IP" = Spec.revenue i' "IP" /\
  Spec.revenue i "OP" = Spec.revenue i' "OP" /\
  Spec.revenue i "ER" = Spec.revenue i' "ER" /\
  Spec.assumption i "DIS_REJECTION_MOH" = Spec.assumption i' "DIS_REJECTION_MOH" /\
  Spec.assumption i "DIS_REJECTION_INS" = Spec.assumption i' "DIS_REJECTION_INS" /\
  Spec.assumption i "DIS_VOLUME" = Spec.assumption i' "DIS_VOLUME" /\
  Spec.assumption i "DIS_EARLY_PAY" = Spec.assumption i' "DIS_EARLY_PAY" /\
  Spec.allocation i "REV_TYPE_MOH" = Spec.allocation i' "REV_TYPE_MOH" /\
  Spec.allocation i "REV_TYPE_INSURANCE" = Spec.allocation i' "REV_TYPE_INSURANCE".

(** Two input sets that agree on everything the engine reads for the
    catalog: the three revenue figures, the percentage of every input
    line, the MOH and insurance allocations. *)
Definition sameCatalogInputs {A : Type} `{JsNum A} (i i' : Spec.Inputs A) : Prop :=
  Spec.revenue i "IP" = Spec.revenue i' "IP" /\
  Spec.revenue i "OP" = Spec.revenue i' "OP" /\
  Spec.revenue i "ER" = Spec.revenue i' "ER" /\
  Forall (fun c => Spec.assumption i c = Spec.assumption i' c) inputCodes /\
  Spec.allocation i "REV_TYPE_MOH" = Spec.allocation i' "REV_TYPE_MOH" /\
  Spec.allocation i "REV_TYPE_INSURANCE" = Spec.allocation i' "REV_TYPE_INSURANCE".

(** The array the assumptions API returns for a branch when it echoes what
    [saveAssumptions] posted for it. *)
Definition echoedRows {A : Type} `{JsNum A} (st : Editor.State A) (branchId : Z)
    : list (string * A) :=
  map (fun r => (line_item_code r, saved_assumption_value r))
      (List.filter (fun r => Z.eqb (branch_id r) branchId)
                   (EditorPage.saveAssumptions st)).

(** A state with figures in two branches. *)
Definition scenarioTwoBranches : Editor.State Qc :=
  {| Editor.revenueData :=
       <[2%Z := <["OP" := lit 5000]> ∅]> (Editor.revenueData scenarioEditor);
     Editor.revenueTypeAssumptions :=
       <[2%Z := <["REV_TYPE_MOH" := lit 100]> ∅]> scenarioAllocations;
     Editor.assumptionsData :=
       <[2%Z := <["DIS_REJECTION_MOH" := pct 5]> (<["DC_MEDICINES" := pct 4]> ∅)]>
         scenarioAssumptions;
     Editor.calculatedData := ∅ |}.

(** The answers of the assumptions API when it echoes, for every branch,
    the rows saved from that state, with the values in the
    [assumption_value] field. *)
Definition scenarioReload (branchId : Z) : Response (option (list (ApiItem Qc))) :=
  ok (Some (map (fun p => {| api_line_item_code := fst p;
                             assumption_percentage := None;
                             api_assumption_value := Some (snd p) |})
                (echoedRows scenarioTwoBranches branchId))).

(** ** The Excel export of the budget view (income-statement-budget.js) *)

(** [Math.round]: the nearest integer, a half going up. *)
Definition mathRound (x : Qc) : Z := Qfloor (x + Q2Qc (1 # 2))%Qc.

(** The numbers of a sheet row in [exportToExcel] ([rowData] after the
    item's name): the rounded month totals, then the rounded total of the
    unrounded month totals. *)
Definition exportRow (st : Budget.State Qc) (item : ItemConfig) : list Z :=
  let '(rowData, fyTotal) :=
    foldl (fun '(rowData, fyTotal) month =>
             let monthTotal :=
               foldl (fun monthTotal branchId =>
                        let value :=
                          orZero (Budget.cell st branchId (code item) (month_ month)) in
                        add monthTotal value)
                     zero (Budget.getSelectedBranches st) in
             (app rowData [mathRound monthTotal], add fyTotal monthTotal))
          ([], zero) MONTHS in
  app rowData [mathRound fyTotal].

(** [exportToExcel()]: nothing is exported while [calculatedData] is empty;
    otherwise the sheet gets one data row per line item. *)
Definition exportToExcel (st : Budget.State Qc) : option (list (list Z)) :=
  if decide (Budget.calculatedData st = ∅) then None
  else Some (map (exportRow st) LINE_ITEMS_CONFIG).

Definition sumZ (l : list Z) : Z := foldr Z.add 0%Z l.

(** ** The summary table and the results table (daily-budget.js) *)

Module DailyPage.
Section DailyPage.
Context {A : Type} `{JsNum A}.

(** The [avgALOS] of a row of the metrics summary table. *)
Definition avgALOS (metrics : Daily.Metrics A) : A :=
  if gtb (Daily.countALOS metrics) zero
  then div (Daily.totalALOS metrics) (Daily.countALOS metrics) else zero.

(** [sourceTotals], when the API sent them. *)
Record SourceTotals := {
  st_revenue : option A;
  st_census : option A
}.

(** [totalRevenue] of [updateSummaryCards]: the source total when there is
    one, else the sum over the records. *)
Definition totalRevenue (sourceTotals : option SourceTotals)
    (dailyBudgetData : list (Daily.Row A)) : A :=
  match sourceTotals with
  | Some t => orZero (st_revenue t)
  | None => foldl (fun sum row => add sum (orZero (Daily.revenue row)))
                  zero dailyBudgetData
  end.

(** [totalEpisodes] *)
Definition totalEpisodes (dailyBudgetData : list (Daily.Row A)) : A :=
  foldl (fun sum row => add sum (orZero (Daily.episodes row))) zero dailyBudgetData.

End DailyPage.
Arguments SourceTotals : clear implicits.
End DailyPage.

(** The mean of the positive alos values of a list of records. *)
Definition meanOfPositiveAlos (rows : list (Daily.Row Qc)) : Qc :=
  mean (positives (map (fun row => default 0%Qc (Daily.alos row)) rows)).

(** What an entry of [stayTypeMetrics] holds of the lengths of stay and the
    number of the records it was accumulated from. *)
Definition alosFor (rows : list (Daily.Row Qc)) (m : Daily.Metrics Qc) : Prop :=
  Daily.totalALOS m =
    sumQc (positives (map (fun row => default 0%Qc (Daily.alos row)) rows)) /\
  Daily.countALOS m =
    natQc (length (positives (map (fun row => default 0%Qc (Daily.alos row)) rows))) /\
  Daily.records m = natQc (length rows).

(** The sum of a column of the metrics summary table over its stay types. *)
Definition columnTotal (F : Daily.Metrics Qc -> Qc)
    (stm : gmap string (Daily.Metrics Qc)) : Qc :=
  sumQc (map (fun entry => F (snd entry)) (map_to_list stm)).

Module Results.

(** A record of [dailyBudgetData] as the results table reads it. *)
Record Row := {
  care_type : option string;
  stay_type : option string;
  table_date : option string
}.

(** The values of the four filter controls; the empty string when unset. *)
Record Filters := {
  careType : string;
  stayType : string;
  dateFrom : string;
  dateTo : string
}.

(** A string read as a condition: the empty string is falsy. *)
Definition isSet (s : string) : bool := negb (String.eqb s "").

(** [d.care_type === careType] for a string [careType]. *)
Definition strictEq (field : option string) (value : string) : bool :=
  match field with
  | Some s => String.eqb s value
  | None => false
  end.

(** [d.table_date >= dateFrom] and [d.table_date <= dateTo] on strings (code
    unit order, which for the ASCII of a date is the order of
    [String.leb]); a missing date compares false. *)
Definition geStr (field : option string) (value : string) : bool :=
  match field with
  | Some s => String.leb value s
  | None => false
  end.

Definition leStr (field : option string) (value : string) : bool :=
  match field with
  | Some s => String.leb s value
  | None => false
  end.

(** The filtering of [renderResults()]. *)
Definition applyFilters (f : Filters) (dailyBudgetData : list Row) : list Row :=
  let filtered := dailyBudgetData in
  let filtered :=
    if isSet (careType f)
    then List.filter (fun d => strictEq (care_type d) (careType f)) filtered
    else filtered in
  let filtered :=
    if isSet (stayType f)
    then List.filter (fun d => strictEq (stay_type d) (stayType f)) filtered
    else filtered in
  let filtered :=
    if isSet (dateFrom f)
    then List.filter (fun d => geStr (table_date d) (dateFrom f)) filtered
    else filtered in
  if isSet (dateTo f)
  then List.filter (fun d => leStr (table_date d) (dateTo f)) filtered
  else filtered.

Definition pageSize : Z := 50.

(** [Math.ceil(filtered.length / pageSize)] *)
Definition totalPages {T : Type} (filtered : list T) : Z :=
  Qceiling (inject_Z (Z.of_nat (length filtered)) / inject_Z pageSize).

(** [Array.prototype.slice(start, end)]: a negative index counts from the
    end, both are clamped to the array, and nothing is returned when the
    end is not after the start. *)
Definition slice {T : Type} (l : list T) (start end_ : Z) : list T :=
  let len := Z.of_nat (length l) in
  let k := if (start <? 0)%Z then Z.max (len + start) 0 else Z.min start len in
  let final := if (end_ <? 0)%Z then Z.max (len + end_) 0 else Z.min end_ len in
  take (Z.to_nat (final - k)) (drop (Z.to_nat k) l).

(** [pageData] of [renderResults()]. *)
Definition pageData {T : Type} (filtered : list T) (currentPage : Z) : list T :=
  let start := ((currentPage - 1) * pageSize)%Z in
  slice filtered start (start + pageSize).

(** [renderResults()]: the record count shown, the rows of the page and
    the number of pages handed to [renderPagination]. *)
Definition renderResults (f : Filters) (currentPage : Z)
    (dailyBudgetData : list Row) : nat * list Row * Z :=
  let filtered := applyFilters f dailyBudgetData in
  (length filtered, pageData filtered currentPage, totalPages filtered).

(** The numbered buttons of [renderPagination(totalPages)]. *)
Definition numberedButtons (totalPages currentPage : Z) : list Z :=
  if (totalPages <=? 1)%Z then []
  else
    let startPage := Z.max 1 (currentPage - 2) in
    let endPage := Z.min totalPages (currentPage + 2) in
    seqZ startPage (endPage - startPage + 1).

(** The pages [goToPage] can be called with from the pagination bar: the
    targets of the buttons that are not disabled. *)
Definition enabledTargets (totalPages currentPage : Z) : list Z :=
  if (totalPages <=? 1)%Z then []
  else
    app (if (currentPage =? 1)%Z then [] else [1%Z; (currentPage - 1)%Z])
        (app (numberedButtons totalPages currentPage)
             (if (currentPage =? totalPages)%Z then []
              else [(currentPage + 1)%Z; totalPages])).

(** A record passes the filters that are set. *)
Definition passes (f : Filters) (d : Row) : bool :=
  (negb (isSet (careType f)) || strictEq (care_type d) (careType f)) &&
  (negb (isSet (stayType f)) || strictEq (stay_type d) (stayType f)) &&
  (negb (isSet (dateFrom f)) || geStr (table_date d) (dateFrom f)) &&
  (negb (isSet (dateTo f)) || leStr (table_date d) (dateTo f)).

End Results.

(** ** What one call of [calculateMonthValues] may touch *)

(** [obj'] has the rows of [obj] and differs from it at most in the cells
    of one month. *)
Definition touchesOnlyMonth {A : Type} (month : nat)
    (obj obj' : gmap string (gmap RowKey A)) : Prop :=
  dom obj' = dom obj /\
  forall (c : string) (key : RowKey),
    key <> month_ month -> obj' !! c ≫= (.!! key) = obj !! c ≫= (.!! key).

(** The branch object has a row for every line item. *)
Definition hasRows {A : Type} (obj : gmap string (gmap RowKey A)) : Prop :=
  Forall (fun item => is_Some (obj !! code item)) LINE_ITEMS_CONFIG.

(** A state whose first branch has been initialised but not calculated. *)
Definition scenarioInitialised : Budget.State Qc :=
  Budget.setCalculatedData scenarioBudget (<[1%Z := Budget.initItems]> ∅).

(** * Facts that hold for every arithmetic *)

(** [Forall] over a literal list, one element at a time. *)
Ltac forall_items tac :=
  repeat (apply Forall_cons; split; [ cbv beta; tac | ]); apply Forall_nil; exact I.

Lemma lookup_foldl_insert {K V : Type} `{Countable K} (f : K -> V)
    (l : list K) (m : gmap K V) (k : K) :
  foldl (fun cd k => <[k := f k]> cd) m l !! k =
    if decide (k ∈ l) then Some (f k) else m !! k.
Proof.
  revert m; induction l as [|a l IH]; intros m; simpl.
  - destruct (decide (k ∈ [])) as [Hin|_]; [inversion Hin | reflexivity].
  - rewrite IH.
    destruct (decide (k ∈ l)) as [Hl|Hl].
    + rewrite decide_True by (right; exact Hl). reflexivity.
    + destruct (decide (k = a)) as [->|Hne].
      * rewrite decide_True by left. apply lookup_insert_eq.
      * rewrite decide_False by (intros Hin; inversion Hin; subst; tauto).
        apply lookup_insert_ne; congruence.
Qed.

Section GenericFacts.
Context {A : Type} `{JsNum A}.

(** ** Editor *)

Lemma calculateBranch_closed (st : Editor.State A) (b : Z) :
  Editor.calculateBranch st b = itemsObject (valueOf (editorInputs st b)).
Proof.
  unfold Editor.calculateBranch, Editor.costLoop, editorInputs.
  generalize (Editor.branchRevenue (Editor.revenueData st) b).
  generalize (assumptionPct (Editor.assumptionsData st) b).
  generalize (revTypePct (Editor.revenueTypeAssumptions st) b).
  intros alloc pct rev.
  vm_cast_no_check
    (@eq_refl (gmap string A)
       (itemsObject (valueOf {| Spec.revenue := rev; Spec.assumption := pct;
                                Spec.allocation := alloc |}))).
Qed.

Lemma itemsObject_lookup (V : string -> A) :
  Forall (fun item =>
            itemsObject V !! code item =
              match revenueType item with
              | Some _ => None
              | None => Some (V (code item))
              end) LINE_ITEMS_CONFIG.
Proof. unfold LINE_ITEMS_CONFIG. forall_items ltac:(vm_compute; reflexivity). Qed.

Lemma compute_catalog (i : Spec.Inputs A) :
  Forall (fun item => Spec.compute i (code item) = Some (valueOf i (code item)))
         LINE_ITEMS_CONFIG.
Proof. unfold LINE_ITEMS_CONFIG. forall_items ltac:(reflexivity). Qed.

Lemma calculateAllValues_lookup (st : Editor.State A) (b : Z) :
  Editor.calculatedData (Editor.calculateAllValues st) !! b =
    if decide (b ∈ BRANCH_IDS) then Some (Editor.calculateBranch st b) else None.
Proof.
  cbv [Editor.calculateAllValues Editor.calculatedData].
  rewrite (lookup_foldl_insert (Editor.calculateBranch st)).
  destruct (decide (b ∈ BRANCH_IDS)); [reflexivity | apply lookup_empty].
Qed.

(** What the editor stores for a catalog item of one of its branches. *)
Lemma editor_calculated (st : Editor.State A) (b : Z) (item : ItemConfig) :
  b ∈ BRANCH_IDS -> item ∈ LINE_ITEMS_CONFIG ->
  Editor.calculated (Editor.calculateAllValues st) b (code item) =
    match revenueType item with
    | Some _ => None
    | None => Spec.compute (editorInputs st b) (code item)
    end.
Proof.
  intros Hb Hitem. unfold Editor.calculated.
  rewrite calculateAllValues_lookup, decide_True by exact Hb. simpl.
  rewrite calculateBranch_closed.
  pose proof (itemsObject_lookup (valueOf (editorInputs st b))) as HL.
  pose proof (compute_catalog (editorInputs st b)) as HC.
  rewrite Forall_forall in HL, HC.
  rewrite (HL item Hitem), (HC item Hitem).
  destruct (revenueType item); reflexivity.
Qed.

End GenericFacts.

Section BudgetFacts.
Context {A : Type} `{JsNum A}.

(** ** Budget view *)

Lemma initItems_rows : Budget.initItems = rowsObject (fun _ => Budget.initRow).
Proof. reflexivity. Qed.

Lemma monthWrites_rows (mrd : gmap Z (gmap nat (gmap string A)))
    (asm : gmap Z (gmap string (Assumption A))) (rta : gmap Z (gmap string A))
    (b : Z) (m : nat) (R : string -> gmap RowKey A) :
  Budget.monthWrites mrd asm rta b m (rowsObject R) =
    Some (rowsObject (fun c =>
            <[month_ m := valueOf {| Spec.revenue := Budget.monthRevenue mrd b m;
                                     Spec.assumption := assumptionPct asm b;
                                     Spec.allocation := revTypePct rta b |} c]>
              (R c))).
Proof.
  unfold Budget.monthWrites, Budget.costLoop.
  generalize (Budget.monthRevenue mrd b m).
  generalize (assumptionPct asm b).
  generalize (revTypePct rta b).
  intros alloc pct rev.
  vm_cast_no_check
    (@eq_refl (option (gmap string (gmap RowKey A)))
       (Some (rowsObject (fun c =>
                <[month_ m := valueOf {| Spec.revenue := rev; Spec.assumption := pct;
                                         Spec.allocation := alloc |} c]> (R c))))).
Qed.

Lemma fyTotals_rows (R : string -> gmap RowKey A) :
  Budget.fyTotals (rowsObject R) =
    Some (rowsObject (fun c => <[fy_total := Budget.rowFyTotal (R c)]> (R c))).
Proof.
  vm_cast_no_check
    (@eq_refl (option (gmap string (gmap RowKey A)))
       (Some (rowsObject (fun c => <[fy_total := Budget.rowFyTotal (R c)]> (R c))))).
Qed.

Lemma calculateMonthValues_insert (st : Budget.State A)
    (cd : gmap Z (gmap string (gmap RowKey A))) (b : Z)
    (obj : gmap string (gmap RowKey A)) (m : nat) :
  Budget.calculateMonthValues (Budget.setCalculatedData st (<[b := obj]> cd)) b m =
    obj' ← Budget.monthWrites (Budget.monthlyRevenueData st) (Budget.assumptionsData st)
             (Budget.revenueTypeAssumptions st) b m obj;
    Some (Budget.setCalculatedData st (<[b := obj']> cd)).
Proof.
  unfold Budget.calculateMonthValues, Budget.setCalculatedData.
  cbn [Budget.calculatedData Budget.monthlyRevenueData Budget.assumptionsData
       Budget.revenueTypeAssumptions Budget.selectedBranch].
  rewrite lookup_insert_eq. cbn [mbind option_bind].
  destruct (Budget.monthWrites _ _ _ b m obj) as [obj'|]; cbn [mbind option_bind];
    [rewrite insert_insert_eq | ]; reflexivity.
Qed.

Lemma months_rows (st : Budget.State A) (cd : gmap Z (gmap string (gmap RowKey A)))
    (b : Z) (ms : list nat) (R : string -> gmap RowKey A) :
  foldl (fun st month => st ← st; Budget.calculateMonthValues st b month)
        (Some (Budget.setCalculatedData st (<[b := rowsObject R]> cd))) ms =
    Some (Budget.setCalculatedData st
            (<[b := rowsObject (fun c =>
                      foldl (fun row m => <[month_ m := branchValues st b m c]> row)
                            (R c) ms)]> cd)).
Proof.
  revert R; induction ms as [|m ms IH]; intros R; [reflexivity|].
  cbn [foldl mbind option_bind].
  rewrite calculateMonthValues_insert, monthWrites_rows. cbn [mbind option_bind].
  rewrite IH. reflexivity.
Qed.

Lemma calculateBranchValues_closed (st : Budget.State A) (b : Z) :
  Budget.calculateBranchValues st b =
    Some (Budget.setCalculatedData st
            (<[b := branchObject st b]> (Budget.calculatedData st))).
Proof.
  unfold Budget.calculateBranchValues.
  rewrite initItems_rows, months_rows.
  cbn [mbind option_bind Budget.setCalculatedData Budget.calculatedData].
  rewrite lookup_insert_eq. cbn [mbind option_bind].
  rewrite fyTotals_rows. cbn [mbind option_bind].
  rewrite insert_insert_eq. reflexivity.
Qed.

Lemma branches_closed (st : Budget.State A) (l : list Z)
    (cd : gmap Z (gmap string (gmap RowKey A))) :
  foldl (fun st branchId => st ← st; Budget.calculateBranchValues st branchId)
        (Some (Budget.setCalculatedData st cd)) l =
    Some (Budget.setCalculatedData st
            (foldl (fun cd b => <[b := branchObject st b]> cd) cd l)).
Proof.
  revert cd; induction l as [|b l IH]; intros cd; [reflexivity|].
  cbn [foldl mbind option_bind].
  rewrite calculateBranchValues_closed. apply IH.
Qed.

(** [calculateAllBranchValues] never raises. *)
Lemma calculateAllBranchValues_closed (st : Budget.State A) :
  Budget.calculateAllBranchValues st = Some (finalState st).
Proof.
  unfold Budget.calculateAllBranchValues, finalState.
  rewrite <- branches_closed. destruct st; reflexivity.
Qed.

Lemma finalState_calculatedData (st : Budget.State A) :
  Budget.calculatedData (finalState st) =
    foldl (fun cd b => <[b := branchObject st b]> cd)
          (Budget.calculatedData st) (Budget.getSelectedBranches st).
Proof. reflexivity. Qed.

Lemma finalState_lookup (st : Budget.State A) (b : Z) :
  b ∈ Budget.getSelectedBranches st ->
  Budget.calculatedData (finalState st) !! b = Some (branchObject st b).
Proof.
  intros Hb. unfold finalState. cbn [Budget.setCalculatedData Budget.calculatedData].
  rewrite (lookup_foldl_insert (branchObject st)), decide_True by exact Hb.
  reflexivity.
Qed.

Lemma rowsObject_lookup (R : string -> gmap RowKey A) :
  Forall (fun item => rowsObject R !! code item = Some (R (code item)))
         LINE_ITEMS_CONFIG.
Proof. unfold LINE_ITEMS_CONFIG. forall_items ltac:(vm_compute; reflexivity). Qed.

Lemma finalRow_month (V : nat -> string -> A) (c : string) :
  Forall (fun m => finalRow V c !! month_ m = Some (V m c)) MONTHS.
Proof. unfold MONTHS; simpl seq. forall_items ltac:(vm_compute; reflexivity). Qed.

Lemma finalRow_fy (V : nat -> string -> A) (c : string) :
  finalRow V c !! fy_total =
    Some (foldl (fun fyTotal m => add fyTotal (orZero (Some (V m c)))) zero MONTHS).
Proof. vm_compute; reflexivity. Qed.

(** The month cells and the fiscal total that [calculateAllBranchValues]
    leaves for a selected branch and a catalog item. *)
Lemma budget_month_cell (st : Budget.State A) (b : Z) (item : ItemConfig) (m : nat) :
  b ∈ Budget.getSelectedBranches st -> item ∈ LINE_ITEMS_CONFIG -> m ∈ MONTHS ->
  Budget.cell (finalState st) b (code item) (month_ m) =
    Spec.compute (budgetInputs st b m) (code item).
Proof.
  intros Hb Hitem Hm. unfold Budget.cell.
  rewrite finalState_lookup by exact Hb. cbn [mbind option_bind].
  unfold branchObject.
  pose proof (rowsObject_lookup (finalRow (branchValues st b))) as HR.
  pose proof (finalRow_month (branchValues st b) (code item)) as HM.
  pose proof (compute_catalog (budgetInputs st b m)) as HC.
  rewrite Forall_forall in HR; rewrite Forall_forall in HM;
    rewrite Forall_forall in HC.
  rewrite (HR item Hitem). cbn [mbind option_bind].
  rewrite (HM m Hm), (HC item Hitem). reflexivity.
Qed.

Lemma budget_fy_cell (st : Budget.State A) (b : Z) (item : ItemConfig) :
  b ∈ Budget.getSelectedBranches st -> item ∈ LINE_ITEMS_CONFIG ->
  Budget.cell (finalState st) b (code item) fy_total =
    Some (foldl (fun fyTotal m =>
                   add fyTotal (orZero (Budget.cell (finalState st) b (code item)
                                                    (month_ m))))
                zero MONTHS).
Proof.
  intros Hb Hitem.
  assert (Hcells : Forall (fun m =>
            Budget.cell (finalState st) b (code item) (month_ m) =
              Some (branchValues st b m (code item))) MONTHS).
  { rewrite Forall_forall; intros m Hm.
    rewrite budget_month_cell by assumption.
    pose proof (compute_catalog (budgetInputs st b m)) as HC.
    rewrite Forall_forall in HC. apply (HC item Hitem). }
  unfold Budget.cell at 1.
  rewrite finalState_lookup by exact Hb. cbn [mbind option_bind].
  unfold branchObject.
  pose proof (rowsObject_lookup (finalRow (branchValues st b))) as HR.
  rewrite Forall_forall in HR.
  rewrite (HR item Hitem). cbn [mbind option_bind].
  rewrite finalRow_fy. f_equal.
  generalize (@zero A _).
  induction Hcells as [|m ms Hm _ IH]; intros z; [reflexivity|].
  cbn [foldl]. rewrite Hm. apply IH.
Qed.

End BudgetFacts.


Ltac in_list := repeat constructor.

(** * The cascade identities *)

Section IdentityFacts.
Context {A : Type} `{JsNum A}.

Lemma readsEngine_netRevenue get i :
  readsEngine get i -> netRevenueIdentity get.
Proof.
  intros HR. unfold readsEngine in HR. rewrite Forall_forall in HR.
  exists (Spec.REV_SUB i), (Spec.DIS_SETTLEMENT i).
  repeat split.
  - apply (HR (calcItem "REV_SUB")); in_list.
  - apply (HR (calcItem "DIS_SETTLEMENT")); in_list.
  - apply (HR (calcItem "REV_NET")); in_list.
Qed.

Lemma readsEngine_profit get i :
  readsEngine get i -> profitIdentities get.
Proof.
  intros HR. unfold readsEngine in HR. rewrite Forall_forall in HR.
  exists (Spec.GROSS_PROFIT i), (Spec.TOTAL_GA i),
    (Spec.percentOf i (Spec.REV_NET i) "OTHER_INCOME"), (Spec.EBITDA i),
    (Spec.percentOf i (Spec.REV_NET i) "FINANCE_COST"),
    (Spec.percentOf i (Spec.REV_NET i) "DEPRECIATION"),
    (Spec.percentOf i (Spec.REV_NET i) "ZAKAT"), (Spec.NET_PROFIT i),
    (Spec.percentOf i (Spec.REV_NET i) "OCI").
  repeat split.
  - apply (HR (calcItem "GROSS_PROFIT")); in_list.
  - apply (HR (calcItem "TOTAL_GA")); in_list.
  - apply (HR (inputItem "OTHER_INCOME")); in_list.
  - apply (HR (inputItem "FINANCE_COST")); in_list.
  - apply (HR (inputItem "DEPRECIATION")); in_list.
  - apply (HR (inputItem "ZAKAT")); in_list.
  - apply (HR (inputItem "OCI")); in_list.
  - apply (HR (calcItem "EBITDA")); in_list.
  - apply (HR (calcItem "NET_PROFIT")); in_list.
  - apply (HR (calcItem "TOTAL_COMP_INCOME")); in_list.
Qed.

Lemma readsEngine_input get i c :
  readsEngine get i -> inputItem c ∈ LINE_ITEMS_CONFIG ->
  get c = Spec.compute i c.
Proof.
  intros HR Hc. unfold readsEngine in HR. rewrite Forall_forall in HR.
  apply (HR (inputItem c) Hc).
Qed.

Lemma readsEngine_rejection get i :
  readsEngine get i ->
  rejectionCrossTerm get (Spec.assumption i) (Spec.allocation i).
Proof.
  intros HR. pose proof (readsEngine_input get i) as HI.
  specialize (fun c => HI c HR).
  unfold readsEngine in HR. rewrite Forall_forall in HR.
  exists (Spec.REV_SUB i), (Spec.REV_NET i).
  split; [apply (HR (calcItem "REV_SUB")); in_list|].
  split; [apply (HR (calcItem "REV_NET")); in_list|].
  split; [apply (HR (inputItem "DIS_REJECTION_MOH")); in_list|].
  split; [apply (HR (inputItem "DIS_REJECTION_INS")); in_list|].
  split.
  - unfold Spec.subRevenueCodes.
    forall_items ltac:(rewrite HI; [reflexivity | in_list]).
  - unfold Spec.netRevenueCodes, directCostCodes, gaCodes; simpl app.
    forall_items ltac:(rewrite HI; [reflexivity | in_list]).
Qed.

Lemma editor_readsEngine (st : Editor.State A) (b : Z) :
  b ∈ BRANCH_IDS ->
  readsEngine (Editor.calculated (Editor.calculateAllValues st) b)
              (editorInputs st b).
Proof.
  intros Hb. unfold readsEngine. rewrite Forall_forall. intros item Hitem.
  pose proof (editor_calculated st b item Hb Hitem) as HE.
  destruct (revenueType item); [exact I | exact HE].
Qed.

Lemma budget_readsEngine (st : Budget.State A) (b : Z) (m : nat) :
  b ∈ Budget.getSelectedBranches st -> m ∈ MONTHS ->
  readsEngine (fun c => Budget.cell (finalState st) b c (month_ m))
              (budgetInputs st b m).
Proof.
  intros Hb Hm. unfold readsEngine. rewrite Forall_forall. intros item Hitem.
  destruct (revenueType item); [exact I|].
  apply budget_month_cell; assumption.
Qed.

(** C3: in both pages the stored REV_NET is the stored REV_SUB minus the
    stored DIS_SETTLEMENT, one subtraction of the two values with nothing
    applied in between; the editor for each of its branches, the budget
    view (which never raises) for every selected branch and month. *)
Theorem net_revenue_is_sub_minus_settlement
    (est : Editor.State A) (bst : Budget.State A) :
  Forall (fun b =>
            netRevenueIdentity (Editor.calculated (Editor.calculateAllValues est) b))
         BRANCH_IDS /\
  exists bst', Budget.calculateAllBranchValues bst = Some bst' /\
    Forall (fun b =>
              Forall (fun m =>
                        netRevenueIdentity (fun c => Budget.cell bst' b c (month_ m)))
                     MONTHS)
           (Budget.getSelectedBranches bst).
Proof.
  split.
  - rewrite Forall_forall; intros b Hb.
    eapply readsEngine_netRevenue, editor_readsEngine, Hb.
  - exists (finalState bst); split; [apply calculateAllBranchValues_closed|].
    rewrite Forall_forall; intros b Hb. rewrite Forall_forall; intros m Hm.
    eapply readsEngine_netRevenue, budget_readsEngine; eassumption.
Qed.

(** C4: in both pages EBITDA = GROSS_PROFIT - TOTAL_GA + OTHER_INCOME,
    NET_PROFIT = EBITDA - FINANCE_COST - DEPRECIATION - ZAKAT and
    TOTAL_COMP_INCOME = NET_PROFIT + OCI hold between the stored values. *)
Theorem profit_cascade_identities
    (est : Editor.State A) (bst : Budget.State A) :
  Forall (fun b =>
            profitIdentities (Editor.calculated (Editor.calculateAllValues est) b))
         BRANCH_IDS /\
  exists bst', Budget.calculateAllBranchValues bst = Some bst' /\
    Forall (fun b =>
              Forall (fun m =>
                        profitIdentities (fun c => Budget.cell bst' b c (month_ m)))
                     MONTHS)
           (Budget.getSelectedBranches bst).
Proof.
  split.
  - rewrite Forall_forall; intros b Hb.
    eapply readsEngine_profit, editor_readsEngine, Hb.
  - exists (finalState bst); split; [apply calculateAllBranchValues_closed|].
    rewrite Forall_forall; intros b Hb. rewrite Forall_forall; intros m Hm.
    eapply readsEngine_profit, budget_readsEngine; eassumption.
Qed.

End IdentityFacts.

(** * What the engine depends on *)

Section Dependence.
Context {A : Type} `{JsNum A}.

Section Ext.
Variables i i' : Spec.Inputs A.
Hypothesis Hsame : sameEngineInputs i i'.

Lemma percentOf_ext base c : Spec.percentOf i base c = Spec.percentOf i' base c.
Proof.
  destruct Hsame as (_ & _ & _ & Hpct & _). unfold Spec.percentOf.
  rewrite Hpct. reflexivity.
Qed.

Lemma REV_SUB_ext : Spec.REV_SUB i = Spec.REV_SUB i'.
Proof.
  destruct Hsame as (Hip & Hop & Her & _). unfold Spec.REV_SUB.
  rewrite Hip, Hop, Her. reflexivity.
Qed.

Lemma DIS_REJECTION_ext : Spec.DIS_REJECTION i = Spec.DIS_REJECTION i'.
Proof.
  destruct Hsame as (_ & _ & _ & Hpct & Hmoh & Hins).
  unfold Spec.DIS_REJECTION, Spec.DIS_REJECTION_MOH, Spec.DIS_REJECTION_INS.
  rewrite REV_SUB_ext, !Hpct, Hmoh, Hins. reflexivity.
Qed.

Lemma REV_NET_ext : Spec.REV_NET i = Spec.REV_NET i'.
Proof.
  unfold Spec.REV_NET, Spec.DIS_SETTLEMENT.
  rewrite DIS_REJECTION_ext, REV_SUB_ext, !percentOf_ext. reflexivity.
Qed.

Lemma totalOf_ext codes : Spec.totalOf i codes = Spec.totalOf i' codes.
Proof.
  unfold Spec.totalOf. generalize (@zero A _).
  induction codes as [|c codes IH]; intros z; [reflexivity|].
  cbn [foldl].
  rewrite <- (IH (add z (Spec.percentOf i' (Spec.REV_NET i') c))).
  f_equal. f_equal. rewrite <- REV_NET_ext. apply percentOf_ext.
Qed.

Lemma compute_ext c : Spec.compute i c = Spec.compute i' c.
Proof.
  pose proof Hsame as (Hip & Hop & Her & Hpct & Hmoh & Hins).
  unfold Spec.compute, Spec.TOTAL_COMP_INCOME, Spec.NET_PROFIT, Spec.EBITDA,
    Spec.GROSS_PROFIT, Spec.TOTAL_GA, Spec.TOTAL_DC, Spec.DIS_SETTLEMENT.
  unfold Spec.DIS_REJECTION_MOH, Spec.DIS_REJECTION_INS at 1 2.
  rewrite !totalOf_ext, REV_NET_ext, DIS_REJECTION_ext, REV_SUB_ext.
  rewrite !percentOf_ext, !Hpct, Hip, Hop, Her, Hmoh, Hins.
  reflexivity.
Qed.

Lemma valueOf_ext c : valueOf i c = valueOf i' c.
Proof. unfold valueOf. rewrite compute_ext. reflexivity. Qed.

End Ext.

Lemma itemsObject_ext (V V' : string -> A) :
  (forall c, V c = V' c) -> itemsObject V = itemsObject V'.
Proof.
  intros HV. cbv [itemsObject LINE_ITEMS_CONFIG foldl rawItem calcItem inputItem
                   code revenueType].
  rewrite !HV. reflexivity.
Qed.

Lemma rowsObject_ext (R R' : string -> gmap RowKey A) :
  (forall c, R c = R' c) -> rowsObject R = rowsObject R'.
Proof.
  intros HR. cbv [rowsObject LINE_ITEMS_CONFIG foldl rawItem calcItem inputItem
                   code revenueType].
  rewrite !HR. reflexivity.
Qed.

Lemma finalRow_ext (V V' : nat -> string -> A) (c : string) :
  (forall m, V m c = V' m c) -> finalRow V c = finalRow V' c.
Proof.
  intros HV. unfold finalRow, monthsRow.
  assert (Hfold : forall ms (row : gmap RowKey A),
            foldl (fun row m => <[month_ m := V m c]> row) row ms =
            foldl (fun row m => <[month_ m := V' m c]> row) row ms).
  { induction ms as [|m ms IH]; intros row; [reflexivity|].
    cbn [foldl]. rewrite HV. apply IH. }
  rewrite Hfold. reflexivity.
Qed.

Lemma foldl_insert_ext {V : Type} (f g : Z -> V) (l : list Z) (cd : gmap Z V) :
  (forall b, f b = g b) ->
  foldl (fun cd b => <[b := f b]> cd) cd l =
  foldl (fun cd b => <[b := g b]> cd) cd l.
Proof.
  intros Hfg. revert cd; induction l as [|b l IH]; intros cd; [reflexivity|].
  cbn [foldl]. rewrite Hfg. apply IH.
Qed.

(** The two pages run the same cascade: on inputs the engine cannot tell
    apart, a month column of the budget view holds what the editor stores,
    whatever the arithmetic. *)
Lemma same_inputs_same_values (est : Editor.State A) (bst : Budget.State A)
    (b : Z) (m : nat) (item : ItemConfig) :
  b ∈ BRANCH_IDS -> b ∈ Budget.getSelectedBranches bst -> m ∈ MONTHS ->
  item ∈ LINE_ITEMS_CONFIG -> revenueType item = None ->
  sameEngineInputs (editorInputs est b) (budgetInputs bst b m) ->
  Budget.cell (finalState bst) b (code item) (month_ m) =
    Editor.calculated (Editor.calculateAllValues est) b (code item).
Proof.
  intros Hb Hsel Hm Hitem Hrt Hsame.
  rewrite budget_month_cell, editor_calculated by assumption.
  rewrite Hrt. symmetry. apply compute_ext, Hsame.
Qed.

End Dependence.

(** * Independence from the cash and other-credit allocations *)

Section Independence.
Context {A : Type} `{JsNum A}.

Lemma differOnly_revTypePct (r r' : gmap Z (gmap string A)) (b : Z) (c : string) :
  differOnlyInCashAndOtherCredit r r' ->
  c <> "REV_TYPE_CASH" -> c <> "REV_TYPE_OTHER_CREDIT" ->
  revTypePct r b c = revTypePct r' b c.
Proof. intros Hd H1 H2. unfold revTypePct. rewrite (Hd b c H1 H2). reflexivity. Qed.

(** C10: a run whose allocation store differs from another's only in the
    REV_TYPE_CASH and REV_TYPE_OTHER_CREDIT entries computes the same
    [calculatedData], in the editor and in the budget view. *)
Theorem cash_and_other_credit_do_not_matter
    (est : Editor.State A) (bst : Budget.State A)
    (r r' : gmap Z (gmap string A)) :
  differOnlyInCashAndOtherCredit (Editor.revenueTypeAssumptions est) r ->
  differOnlyInCashAndOtherCredit (Budget.revenueTypeAssumptions bst) r' ->
  Editor.calculatedData (Editor.calculateAllValues (editorWithAllocations est r)) =
    Editor.calculatedData (Editor.calculateAllValues est) /\
  Budget.calculatedData <$>
      Budget.calculateAllBranchValues (budgetWithAllocations bst r') =
    Budget.calculatedData <$> Budget.calculateAllBranchValues bst.
Proof.
  intros He Hb. split.
  - cbv [Editor.calculateAllValues Editor.calculatedData].
    apply foldl_insert_ext. intros b.
    rewrite !calculateBranch_closed. apply itemsObject_ext. intros c.
    apply valueOf_ext. unfold sameEngineInputs, editorInputs, editorWithAllocations.
    cbn [Spec.revenue Spec.assumption Spec.allocation Editor.revenueData
         Editor.assumptionsData Editor.revenueTypeAssumptions].
    split; [reflexivity|]. split; [reflexivity|]. split; [reflexivity|].
    split; [reflexivity|].
    split; symmetry; apply differOnly_revTypePct; (exact He || discriminate).
  - rewrite !calculateAllBranchValues_closed.
    apply (f_equal Some).
    rewrite !finalState_calculatedData.
    apply foldl_insert_ext. intros b. unfold branchObject.
    apply rowsObject_ext. intros c. apply finalRow_ext. intros m.
    unfold branchValues. apply valueOf_ext.
    unfold sameEngineInputs, budgetInputs, budgetWithAllocations.
    cbn [Spec.revenue Spec.assumption Spec.allocation Budget.monthlyRevenueData
         Budget.assumptionsData Budget.revenueTypeAssumptions].
    split; [reflexivity|]. split; [reflexivity|]. split; [reflexivity|].
    split; [reflexivity|].
    split; symmetry; apply differOnly_revTypePct; (exact Hb || discriminate).
Qed.

End Independence.

(** * Evaluation over the exact rationals *)

Lemma Qc_some_eq (o : option Qc) (q : Qc) :
  match o with Some x => Qeq_bool x q | None => false end = true -> o = Some q.
Proof.
  destruct o as [x|]; [|discriminate].
  intros Hq. f_equal. apply Qc_is_canon, Qeq_bool_eq, Hq.
Qed.

(** Decides a closed equation [o = Some q] over [Qc] by evaluation. *)
Ltac qc_eval := apply Qc_some_eq; vm_compute; reflexivity.

(** The figures of the specification's scenario, as the editor computes
    them. *)
Example scenario_editor_values :
  let get := Editor.calculated (Editor.calculateAllValues scenarioEditor) 1 in
  get "REV_SUB" = Some (lit 160000) /\
  get "DIS_REJECTION_INS" = Some (lit 2400) /\
  get "DIS_REJECTION" = Some (lit 3680) /\
  get "DIS_VOLUME" = Some (lit 1600) /\
  get "DIS_EARLY_PAY" = Some (lit 800) /\
  get "DIS_SETTLEMENT" = Some (lit 6080) /\
  get "REV_NET" = Some (lit 153920) /\
  get "DC_CONSUMABLES" = Some (lit 15392) /\
  get "TOTAL_DC" = Some (lit 15392) /\
  get "GROSS_PROFIT" = Some (lit 138528).
Proof. cbv zeta. repeat split; qc_eval. Qed.

(** C2: the two rejection lines are the sub revenue times their own
    assumption over 100 times a revenue-type allocation over 100 (MOH,
    respectively insurance), while every other percentage line is its base
    times one percentage over 100; this holds in both pages and for every
    arithmetic.  In the scenario (REV_SUB = 160000, assumption 2,
    allocation 40) both pages give DIS_REJECTION_MOH = 1280. *)
Theorem rejection_cross_term :
  (forall (A : Type) (N : JsNum A) (est : Editor.State A) (bst : Budget.State A),
     Forall (fun b =>
               rejectionCrossTerm
                 (Editor.calculated (Editor.calculateAllValues est) b)
                 (assumptionPct (Editor.assumptionsData est) b)
                 (revTypePct (Editor.revenueTypeAssumptions est) b))
            BRANCH_IDS /\
     exists bst', Budget.calculateAllBranchValues bst = Some bst' /\
       Forall (fun b =>
                 Forall (fun m =>
                           rejectionCrossTerm
                             (fun c => Budget.cell bst' b c (month_ m))
                             (assumptionPct (Budget.assumptionsData bst) b)
                             (revTypePct (Budget.revenueTypeAssumptions bst) b))
                        MONTHS)
              (Budget.getSelectedBranches bst)) /\
  Editor.calculated (Editor.calculateAllValues scenarioEditor) 1 "REV_SUB"
    = Some (lit 160000) /\
  Editor.calculated (Editor.calculateAllValues scenarioEditor) 1 "DIS_REJECTION_MOH"
    = Some (lit 1280) /\
  (st ← Budget.calculateAllBranchValues scenarioJanuary;
   Budget.cell st 1 "REV_SUB" (month_ 1)) = Some (lit 160000) /\
  (st ← Budget.calculateAllBranchValues scenarioJanuary;
   Budget.cell st 1 "DIS_REJECTION_MOH" (month_ 1)) = Some (lit 1280).
Proof.
  split; [|repeat split; qc_eval].
  intros A N est bst. split.
  - rewrite Forall_forall; intros b Hb.
    apply (readsEngine_rejection _ (editorInputs est b)), editor_readsEngine, Hb.
  - exists (finalState bst); split; [apply calculateAllBranchValues_closed|].
    rewrite Forall_forall; intros b Hb. rewrite Forall_forall; intros m Hm.
    apply (readsEngine_rejection _ (budgetInputs bst b m)), budget_readsEngine;
      assumption.
Qed.

Lemma scenario_differOnly :
  differOnlyInCashAndOtherCredit scenarioAllocations otherAllocations.
Proof.
  intros b c Hcash Hother. unfold scenarioAllocations, otherAllocations.
  destruct (decide (b = 1%Z)) as [->|Hb].
  - rewrite !lookup_singleton_eq. cbn [mbind option_bind].
    rewrite !lookup_insert.
    repeat case_decide; try reflexivity; congruence.
  - rewrite !lookup_singleton_ne by congruence. reflexivity.
Defined.

Lemma cash_and_other_credit_do_not_matter_witness :
  differOnlyInCashAndOtherCredit
    (Editor.revenueTypeAssumptions scenarioEditor) otherAllocations /\
  differOnlyInCashAndOtherCredit
    (Budget.revenueTypeAssumptions scenarioBudget) otherAllocations /\
  Editor.calculatedData
      (Editor.calculateAllValues (editorWithAllocations scenarioEditor otherAllocations)) =
    Editor.calculatedData (Editor.calculateAllValues scenarioEditor) /\
  Budget.calculatedData <$>
      Budget.calculateAllBranchValues
        (budgetWithAllocations scenarioBudget otherAllocations) =
    Budget.calculatedData <$> Budget.calculateAllBranchValues scenarioBudget.
Proof.
  split; [exact scenario_differOnly|].
  split; [exact scenario_differOnly|].
  apply (cash_and_other_credit_do_not_matter scenarioEditor scenarioBudget
           otherAllocations otherAllocations);
    exact scenario_differOnly.
Defined.

(** * The laws of exact arithmetic *)

Section Exact.
Local Open Scope Qc_scope.

(** Unfolds the operations of [Qc_JsNum]. *)
Ltac qc_ops :=
  change (@zero Qc Qc_JsNum) with 0%Qc in *;
  cbv [add sub mul div hundred lit Qc_JsNum] in *.

Lemma truthy_false (x : Qc) : truthy x = false -> x = 0.
Proof.
  cbv [truthy Qc_JsNum]. intros Hx. apply negb_false_iff in Hx.
  apply Qc_is_canon, Qeq_bool_eq, Hx.
Qed.

Lemma orZero_default (o : option Qc) : orZero o = default 0 o.
Proof.
  destruct o as [x|]; [|reflexivity]. cbn [orZero default].
  destruct (truthy x) eqn:Hx; [reflexivity|].
  rewrite (truthy_false x Hx). reflexivity.
Qed.

Lemma gtb_zero (x : Qc) : gtb x zero = true <-> 0 < x.
Proof.
  cbv [gtb Qc_JsNum]. rewrite negb_true_iff.
  change (Qle_bool x (zero : Qc) = false <-> (0 < x)%Q).
  split.
  - intros Hle. apply Qnot_le_lt. intros Hn.
    apply Qle_bool_iff in Hn. change (this (zero : Qc)) with 0%Q in Hle.
    congruence.
  - intros Hlt. destruct (Qle_bool x (zero : Qc)) eqn:Hle; [|reflexivity].
    apply Qle_bool_iff in Hle. exfalso. exact (Qlt_not_le _ _ Hlt Hle).
Qed.

Lemma foldl_add_sumQc {B : Type} (f : B -> Qc) (l : list B) (z : Qc) :
  foldl (fun t x => add t (f x)) z l = z + sumQc (map f l).
Proof.
  revert z; induction l as [|x l IH]; intros z; cbn [foldl map sumQc foldr].
  - ring.
  - rewrite IH. fold (sumQc (map f l)). qc_ops. ring.
Qed.

(** ** The engine is additive in the revenue *)

Section Linear.
Variables assumption allocation : string -> Qc.

Local Abbreviation inp := (inputsOf assumption allocation).

Variables r1 r2 : string -> Qc.
Let r12 : string -> Qc := fun careType => r1 careType + r2 careType.

Ltac linear :=
  cbn [Spec.revenue Spec.assumption Spec.allocation inputsOf]; qc_ops;
  unfold Qcdiv; subst r12; cbv beta; ring.

Lemma REV_SUB_add :
  Spec.REV_SUB (inp r12) =
    Spec.REV_SUB (inp r1) + Spec.REV_SUB (inp r2).
Proof. unfold Spec.REV_SUB. linear. Qed.

Lemma percentOf_add (c : string) (x y : Qc) (r r' r'' : string -> Qc) :
  Spec.percentOf (inp r) (x + y) c =
    Spec.percentOf (inp r') x c + Spec.percentOf (inp r'') y c.
Proof. unfold Spec.percentOf. linear. Qed.

Lemma DIS_REJECTION_MOH_add :
  Spec.DIS_REJECTION_MOH (inp r12) =
    Spec.DIS_REJECTION_MOH (inp r1) + Spec.DIS_REJECTION_MOH (inp r2).
Proof. unfold Spec.DIS_REJECTION_MOH. rewrite REV_SUB_add. linear. Qed.

Lemma DIS_REJECTION_INS_add :
  Spec.DIS_REJECTION_INS (inp r12) =
    Spec.DIS_REJECTION_INS (inp r1) + Spec.DIS_REJECTION_INS (inp r2).
Proof. unfold Spec.DIS_REJECTION_INS. rewrite REV_SUB_add. linear. Qed.

Lemma DIS_REJECTION_add :
  Spec.DIS_REJECTION (inp r12) =
    Spec.DIS_REJECTION (inp r1) + Spec.DIS_REJECTION (inp r2).
Proof.
  unfold Spec.DIS_REJECTION.
  rewrite DIS_REJECTION_MOH_add, DIS_REJECTION_INS_add. linear.
Qed.

Lemma DIS_SETTLEMENT_add :
  Spec.DIS_SETTLEMENT (inp r12) =
    Spec.DIS_SETTLEMENT (inp r1) + Spec.DIS_SETTLEMENT (inp r2).
Proof.
  unfold Spec.DIS_SETTLEMENT.
  rewrite DIS_REJECTION_add, REV_SUB_add.
  rewrite !(percentOf_add _ _ _ r12 r1 r2). linear.
Qed.

Lemma REV_NET_add :
  Spec.REV_NET (inp r12) =
    Spec.REV_NET (inp r1) + Spec.REV_NET (inp r2).
Proof. unfold Spec.REV_NET. rewrite DIS_SETTLEMENT_add, REV_SUB_add. linear. Qed.

Lemma totalOf_add (codes : list string) :
  Spec.totalOf (inp r12) codes =
    Spec.totalOf (inp r1) codes + Spec.totalOf (inp r2) codes.
Proof.
  unfold Spec.totalOf.
  assert (Hz : (zero : Qc) = zero + zero) by (qc_ops; ring).
  rewrite Hz at 1. generalize (zero : Qc) at 2 4. generalize (zero : Qc).
  induction codes as [|c codes IH]; intros z1 z2; cbn [foldl]; [reflexivity|].
  rewrite <- IH. f_equal.
  rewrite REV_NET_add, (percentOf_add _ _ _ r12 r1 r2). linear.
Qed.

Lemma GROSS_PROFIT_add :
  Spec.GROSS_PROFIT (inp r12) =
    Spec.GROSS_PROFIT (inp r1) + Spec.GROSS_PROFIT (inp r2).
Proof.
  unfold Spec.GROSS_PROFIT, Spec.TOTAL_DC. rewrite REV_NET_add, totalOf_add. linear.
Qed.

Lemma EBITDA_add :
  Spec.EBITDA (inp r12) = Spec.EBITDA (inp r1) + Spec.EBITDA (inp r2).
Proof.
  unfold Spec.EBITDA, Spec.TOTAL_GA.
  rewrite GROSS_PROFIT_add, totalOf_add, REV_NET_add.
  rewrite (percentOf_add _ _ _ r12 r1 r2). linear.
Qed.

Lemma NET_PROFIT_add :
  Spec.NET_PROFIT (inp r12) =
    Spec.NET_PROFIT (inp r1) + Spec.NET_PROFIT (inp r2).
Proof.
  unfold Spec.NET_PROFIT. rewrite EBITDA_add, REV_NET_add.
  rewrite !(percentOf_add _ _ _ r12 r1 r2). linear.
Qed.

Lemma TOTAL_COMP_INCOME_add :
  Spec.TOTAL_COMP_INCOME (inp r12) =
    Spec.TOTAL_COMP_INCOME (inp r1) + Spec.TOTAL_COMP_INCOME (inp r2).
Proof.
  unfold Spec.TOTAL_COMP_INCOME. rewrite NET_PROFIT_add, REV_NET_add.
  rewrite (percentOf_add _ _ _ r12 r1 r2). linear.
Qed.

Lemma valueOf_add (c : string) :
  valueOf (inp r12) c = valueOf (inp r1) c + valueOf (inp r2) c.
Proof.
  unfold valueOf, Spec.compute.
  repeat match goal with
         | |- context [if ?t then _ else _] =>
             lazymatch t with
             | String.eqb c _ => destruct t
             | Spec.isOneOf c _ => destruct t
             end
         end; cbn [default].
  all: try reflexivity.
  - apply REV_SUB_add.
  - apply DIS_REJECTION_MOH_add.
  - apply DIS_REJECTION_INS_add.
  - apply DIS_REJECTION_add.
  - rewrite REV_SUB_add. apply percentOf_add.
  - apply DIS_SETTLEMENT_add.
  - apply REV_NET_add.
  - rewrite REV_NET_add. apply percentOf_add.
  - apply totalOf_add.
  - apply GROSS_PROFIT_add.
  - apply totalOf_add.
  - apply EBITDA_add.
  - apply NET_PROFIT_add.
  - apply TOTAL_COMP_INCOME_add.
Qed.

End Linear.

Lemma valueOf_zero (assumption allocation : string -> Qc) (c : string) :
  valueOf (inputsOf assumption allocation (fun _ => 0)) c = 0.
Proof.
  pose proof (valueOf_add assumption allocation (fun _ => 0) (fun _ => 0) c) as Hadd.
  rewrite (valueOf_ext _ (inputsOf assumption allocation (fun _ => 0))) in Hadd.
  - set (x := valueOf _ c) in *.
    assert (Hx : x + x - x = x - x) by (rewrite <- Hadd; reflexivity).
    ring_simplify in Hx. exact Hx.
  - unfold sameEngineInputs; cbn [Spec.revenue Spec.assumption Spec.allocation
                                   inputsOf].
    repeat split; ring.
Qed.

Lemma valueOf_sum (assumption allocation : string -> Qc)
    (rev : nat -> string -> Qc) (ms : list nat) (c : string) :
  sumQc (map (fun m => valueOf (inputsOf assumption allocation (rev m)) c) ms) =
    valueOf (inputsOf assumption allocation
               (fun careType => sumQc (map (fun m => rev m careType) ms))) c.
Proof.
  induction ms as [|m ms IH]; cbn [map sumQc foldr].
  - symmetry. apply valueOf_zero.
  - fold (sumQc (map (fun m => valueOf (inputsOf assumption allocation (rev m)) c) ms)).
    rewrite IH. symmetry.
    apply (valueOf_add assumption allocation (rev m)
             (fun careType => sumQc (map (fun m => rev m careType) ms))).
Qed.

(** ** What the two pages hold, in exact arithmetic *)

Lemma raw_item_values (i : Spec.Inputs Qc) :
  Forall (fun item =>
            forall careType, revenueType item = Some careType ->
              valueOf i (code item) = Spec.revenue i careType)
         LINE_ITEMS_CONFIG.
Proof.
  unfold LINE_ITEMS_CONFIG.
  forall_items ltac:(intros careType Hct; cbn in Hct;
                     first [discriminate | injection Hct as <-; reflexivity]).
Qed.

Lemma editor_item_value (est : Editor.State Qc) (b : Z) (item : ItemConfig) :
  b ∈ BRANCH_IDS -> item ∈ LINE_ITEMS_CONFIG ->
  Editor.branchItemValue (Editor.calculateAllValues est) b item =
    valueOf (editorInputs est b) (code item).
Proof.
  intros Hb Hitem. unfold Editor.branchItemValue.
  pose proof (editor_calculated est b item Hb Hitem) as HE.
  pose proof (raw_item_values (editorInputs est b)) as HR.
  pose proof (compute_catalog (editorInputs est b)) as HC.
  rewrite Forall_forall in HR; rewrite Forall_forall in HC.
  destruct (revenueType item) as [careType|] eqn:Hrt.
  - rewrite (HR item Hitem careType Hrt). reflexivity.
  - rewrite HE, (HC item Hitem), orZero_default. reflexivity.
Qed.

Lemma budget_month_value (bst : Budget.State Qc) (b : Z) (item : ItemConfig) (m : nat) :
  b ∈ Budget.getSelectedBranches bst -> item ∈ LINE_ITEMS_CONFIG -> m ∈ MONTHS ->
  Budget.cell (finalState bst) b (code item) (month_ m) =
    Some (valueOf (budgetInputs bst b m) (code item)).
Proof.
  intros Hb Hitem Hm. rewrite budget_month_cell by assumption.
  pose proof (compute_catalog (budgetInputs bst b m)) as HC.
  rewrite Forall_forall in HC. apply (HC item Hitem).
Qed.

Lemma budget_fy_value (bst : Budget.State Qc) (b : Z) (item : ItemConfig) :
  b ∈ Budget.getSelectedBranches bst -> item ∈ LINE_ITEMS_CONFIG ->
  Budget.cell (finalState bst) b (code item) fy_total =
    Some (sumQc (map (fun m => valueOf (budgetInputs bst b m) (code item)) MONTHS)).
Proof.
  intros Hb Hitem. rewrite budget_fy_cell by assumption. f_equal.
  rewrite (foldl_add_sumQc
             (fun m => orZero (Budget.cell (finalState bst) b (code item) (month_ m)))).
  change (@zero Qc Qc_JsNum) with 0. rewrite Qcplus_0_l. f_equal.
  apply map_ext_in. intros m Hm. apply list_elem_of_In in Hm.
  rewrite budget_month_value by assumption. rewrite orZero_default. reflexivity.
Qed.

End Exact.

(** * The two pages agree *)

(** C1, as amended: for a branch that both pages compute, with the same
    assumptions and revenue-type allocations and an annual revenue that
    is, per care type, the sum of the twelve monthly revenues, the fiscal
    total the budget view derives month by month equals, for every line
    item of the catalog, the value the assumption editor holds for the
    branch, when the two cascades are evaluated in exact rational
    arithmetic: they are the same function of their inputs.  In the
    binary64 arithmetic of the program the two can differ by rounding, as
    the counterexample below shows. *)
Theorem editor_and_budget_totals_agree
    (est : Editor.State Qc) (bst : Budget.State Qc) (b : Z) :
  b ∈ BRANCH_IDS -> b ∈ Budget.getSelectedBranches bst ->
  Editor.assumptionsData est !! b = Budget.assumptionsData bst !! b ->
  Editor.revenueTypeAssumptions est !! b = Budget.revenueTypeAssumptions bst !! b ->
  annualIsSumOfMonths est bst b ->
  exists bst', Budget.calculateAllBranchValues bst = Some bst' /\
    Forall (fun item =>
              Budget.cell bst' b (code item) fy_total =
                Some (Editor.branchItemValue (Editor.calculateAllValues est) b item))
           LINE_ITEMS_CONFIG.
Proof.
  intros Hb Hsel Hasm Halloc Hrev.
  exists (finalState bst). split; [apply calculateAllBranchValues_closed|].
  rewrite Forall_forall. intros item Hitem.
  rewrite budget_fy_value, editor_item_value by assumption. f_equal.
  change (sumQc (map (fun m =>
            valueOf (inputsOf (assumptionPct (Budget.assumptionsData bst) b)
                              (revTypePct (Budget.revenueTypeAssumptions bst) b)
                              (Budget.monthRevenue (Budget.monthlyRevenueData bst) b m))
                    (code item)) MONTHS) =
          valueOf (editorInputs est b) (code item)).
  rewrite valueOf_sum. apply valueOf_ext.
  unfold annualIsSumOfMonths in Hrev. rewrite Forall_forall in Hrev.
  unfold sameEngineInputs, editorInputs, inputsOf.
  cbn [Spec.revenue Spec.assumption Spec.allocation].
  split; [symmetry; apply Hrev; in_list|].
  split; [symmetry; apply Hrev; in_list|].
  split; [symmetry; apply Hrev; in_list|].
  unfold assumptionPct, revTypePct. rewrite Hasm, Halloc.
  split; [reflexivity|]. split; reflexivity.
Qed.

Lemma editor_and_budget_totals_agree_witness :
  (1%Z ∈ BRANCH_IDS /\ 1%Z ∈ Budget.getSelectedBranches scenarioBudget /\
   Editor.assumptionsData scenarioEditor !! 1%Z =
     Budget.assumptionsData scenarioBudget !! 1%Z /\
   Editor.revenueTypeAssumptions scenarioEditor !! 1%Z =
     Budget.revenueTypeAssumptions scenarioBudget !! 1%Z /\
   annualIsSumOfMonths scenarioEditor scenarioBudget 1) /\
  exists bst', Budget.calculateAllBranchValues scenarioBudget = Some bst' /\
    Forall (fun item =>
              Budget.cell bst' 1 (code item) fy_total =
                Some (Editor.branchItemValue
                        (Editor.calculateAllValues scenarioEditor) 1 item))
           LINE_ITEMS_CONFIG.
Proof.
  assert (Hrev : annualIsSumOfMonths scenarioEditor scenarioBudget 1).
  { unfold annualIsSumOfMonths.
    forall_items ltac:(apply Qc_is_canon; vm_compute; reflexivity). }
  split.
  - split; [in_list|]. split; [in_list|]. split; [reflexivity|].
    split; [reflexivity|]. exact Hrev.
  - apply (editor_and_budget_totals_agree scenarioEditor scenarioBudget 1);
      [in_list | in_list | reflexivity | reflexivity | exact Hrev].
Defined.

(** C1, counterexample: in binary64 the two pages do not show identical
    numbers.  With an inpatient revenue of 1000 in every month and 12000 in
    the year (the sum is exact), a volume discount of 3 percent and
    consumables at 7 percent, the hypotheses of the claim hold and the
    fiscal total of the consumables line in the budget view is not the
    value the editor holds; the former is the smaller. *)
Lemma editor_and_budget_totals_differ_in_binary64 :
  (1%Z ∈ BRANCH_IDS /\ 1%Z ∈ Budget.getSelectedBranches binary64Budget /\
   Editor.assumptionsData binary64Editor !! 1%Z =
     Budget.assumptionsData binary64Budget !! 1%Z /\
   Editor.revenueTypeAssumptions binary64Editor !! 1%Z =
     Budget.revenueTypeAssumptions binary64Budget !! 1%Z /\
   annualIsMonthlySum binary64Editor binary64Budget 1) /\
  ~ (exists bst', Budget.calculateAllBranchValues binary64Budget = Some bst' /\
       Forall (fun item =>
                 Budget.cell bst' 1 (code item) fy_total =
                   Some (Editor.branchItemValue
                           (Editor.calculateAllValues binary64Editor) 1 item))
              LINE_ITEMS_CONFIG) /\
  (exists bst' total,
     Budget.calculateAllBranchValues binary64Budget = Some bst' /\
     Budget.cell bst' 1 "DC_CONSUMABLES" fy_total = Some total /\
     gtb (Editor.branchItemValue (Editor.calculateAllValues binary64Editor) 1
                                 (inputItem "DC_CONSUMABLES"))
         total = true).
Proof.
  assert (Hless :
    match Budget.cell (finalState binary64Budget) 1 "DC_CONSUMABLES" fy_total with
    | Some total =>
        gtb (Editor.branchItemValue (Editor.calculateAllValues binary64Editor) 1
                                    (inputItem "DC_CONSUMABLES"))
            total
    | None => false
    end = true) by (vm_compute; reflexivity).
  split; [|split].
  - split; [in_list|]. split; [in_list|]. split; [reflexivity|].
    split; [reflexivity|].
    unfold annualIsMonthlySum. forall_items ltac:(vm_compute; reflexivity).
  - intros (bst' & Hrun & Hall).
    rewrite calculateAllBranchValues_closed in Hrun. injection Hrun as <-.
    rewrite Forall_forall in Hall.
    assert (Hitem : inputItem "DC_CONSUMABLES" ∈ LINE_ITEMS_CONFIG) by in_list.
    apply Hall in Hitem. cbn [code inputItem] in Hitem.
    rewrite Hitem in Hless. vm_compute in Hless. discriminate Hless.
  - exists (finalState binary64Budget).
    destruct (Budget.cell (finalState binary64Budget) 1 "DC_CONSUMABLES" fy_total)
      as [total|]; [|discriminate Hless].
    exists total. split; [apply calculateAllBranchValues_closed|].
    split; [reflexivity|exact Hless].
Qed.

(** The scenario's fiscal totals in the budget view, month by month. *)
Example scenario_budget_totals :
  (st ← Budget.calculateAllBranchValues scenarioBudget;
   Budget.cell st 1 "REV_NET" fy_total) = Some (lit 153920) /\
  (st ← Budget.calculateAllBranchValues scenarioBudget;
   Budget.cell st 1 "GROSS_PROFIT" fy_total) = Some (lit 138528) /\
  (st ← Budget.calculateAllBranchValues scenarioBudget;
   Budget.cell st 1 "REV_NET" (month_ 2)) = Some (lit 105820).
Proof. repeat split; qc_eval. Qed.

(** * Roll-ups *)

Section RollUps.
Local Open Scope Qc_scope.

Lemma monthTotal_sum (st : Budget.State Qc) (item : ItemConfig) (m : nat) :
  Budget.monthTotal st item m =
    sumQc (map (fun b => default 0 (Budget.cell st b (code item) (month_ m)))
               (Budget.getSelectedBranches st)).
Proof.
  unfold Budget.monthTotal.
  rewrite (foldl_add_sumQc (fun b => Budget.branchMonthValue st b item m)).
  change (@zero Qc Qc_JsNum) with 0. rewrite Qcplus_0_l. f_equal.
  apply map_ext. intros b. unfold Budget.branchMonthValue.
  apply orZero_default.
Qed.

Lemma createDataRow_fold (st : Budget.State Qc) (item : ItemConfig)
    (ms : list nat) (cells : list Qc) (fyTotal : Qc) :
  foldl (fun '(cells, fyTotal) month =>
           let monthTotal := Budget.monthTotal st item month in
           (app cells [monthTotal], add fyTotal monthTotal))
        (cells, fyTotal) ms =
    (app cells (map (Budget.monthTotal st item) ms),
     fyTotal + sumQc (map (Budget.monthTotal st item) ms)).
Proof.
  revert cells fyTotal; induction ms as [|m ms IH]; intros cells fyTotal;
    cbn [foldl map sumQc foldr].
  - rewrite app_nil_r, Qcplus_0_r. reflexivity.
  - rewrite IH. rewrite <- app_assoc. cbn [app]. f_equal.
    fold (sumQc (map (Budget.monthTotal st item) ms)).
    cbv [add Qc_JsNum]. ring.
Qed.

Lemma cell_budgetSelect (st : Budget.State Qc) (sel : Selection) (b : Z)
    (c : string) (key : RowKey) :
  Budget.cell (budgetSelect st sel) b c key = Budget.cell st b c key.
Proof. reflexivity. Qed.

(** C5: a month cell of the budget table is the sum, over the branches
    shown, of the branches' own values for that item and month: for a
    single branch it is that branch's value, for "all" it is the sum over
    the six branches, and a branch without data counts as 0; the FY Total
    cell is the sum of the twelve month cells. *)
Theorem aggregator_sums_the_selected_branches
    (st : Budget.State Qc) (item : ItemConfig) (m : nat) :
  let own b := default 0 (Budget.cell st b (code item) (month_ m)) in
  (forall b, Budget.monthTotal (budgetSelect st (branch b)) item m = own b) /\
  Budget.monthTotal (budgetSelect st all) item m =
    own 1%Z + own 2%Z + own 3%Z + own 4%Z + own 5%Z + own 6%Z /\
  (forall b,
     Budget.branchMonthValue
       (Budget.setCalculatedData st (delete b (Budget.calculatedData st)))
       b item m = 0) /\
  Budget.createDataRow st item =
    (map (Budget.monthTotal st item) MONTHS,
     sumQc (map (Budget.monthTotal st item) MONTHS)).
Proof.
  intros own. subst own. cbv beta. split; [|split; [|split]].
  - intros b. rewrite monthTotal_sum.
    cbn [Budget.getSelectedBranches budgetSelect Budget.selectedBranch map sumQc foldr].
    rewrite !cell_budgetSelect. ring.
  - rewrite monthTotal_sum.
    cbn [Budget.getSelectedBranches budgetSelect Budget.selectedBranch BRANCH_IDS
         map sumQc foldr].
    rewrite !cell_budgetSelect. ring.
  - intros b. unfold Budget.branchMonthValue, Budget.cell.
    cbn [Budget.setCalculatedData Budget.calculatedData].
    rewrite lookup_delete_eq. reflexivity.
  - unfold Budget.createDataRow. rewrite createDataRow_fold.
    change (@zero Qc Qc_JsNum) with 0. rewrite Qcplus_0_l. reflexivity.
Qed.

(** C6: for every selected branch and every line item, the [fy_total] that
    [calculateAllBranchValues] stores is the sum of the twelve month values
    it stores, the values themselves and not rounded ones. *)
Theorem fiscal_total_is_sum_of_months (bst : Budget.State Qc) :
  exists bst', Budget.calculateAllBranchValues bst = Some bst' /\
    Forall (fun b =>
      Forall (fun item =>
        exists v : nat -> Qc,
          Forall (fun m => Budget.cell bst' b (code item) (month_ m) = Some (v m))
                 MONTHS /\
          Budget.cell bst' b (code item) fy_total =
            Some (v 1%nat + v 2%nat + v 3%nat + v 4%nat + v 5%nat + v 6%nat
                  + v 7%nat + v 8%nat + v 9%nat + v 10%nat + v 11%nat + v 12%nat))
        LINE_ITEMS_CONFIG)
      (Budget.getSelectedBranches bst).
Proof.
  exists (finalState bst). split; [apply calculateAllBranchValues_closed|].
  rewrite Forall_forall; intros b Hb. rewrite Forall_forall; intros item Hitem.
  exists (fun m => valueOf (budgetInputs bst b m) (code item)). split.
  - rewrite Forall_forall; intros m Hm. apply budget_month_value; assumption.
  - rewrite budget_fy_value by assumption. f_equal.
    cbn [MONTHS seq map sumQc foldr]. ring.
Qed.

(** C9: when every revenue figure and every assumption percentage of a
    branch is 0 or absent, every line item of the branch is computed as 0.
    In the editor the recalculation stores 0 under every line it computes,
    and the three revenue lines, which the editor does not store but reads
    from the revenue data, read 0.  In the budget view the recalculation
    stores 0 in every month and in the fiscal total of every line. *)
Theorem zero_inputs_give_zero_outputs
    (est : Editor.State Qc) (bst : Budget.State Qc) (b : Z) :
  b ∈ BRANCH_IDS -> b ∈ Budget.getSelectedBranches bst ->
  (forall careType, zeroOrAbsent (Editor.revenueData est !! b ≫= (.!! careType))) ->
  (forall c, zeroOrAbsent
               (assumption_value <$> (Editor.assumptionsData est !! b ≫= (.!! c)))) ->
  (forall m careType,
     zeroOrAbsent (monthData ← Budget.monthlyRevenueData bst !! b;
                   monthRevenue ← monthData !! m;
                   monthRevenue !! careType)) ->
  (forall c, zeroOrAbsent
               (assumption_value <$> (Budget.assumptionsData bst !! b ≫= (.!! c)))) ->
  Forall (fun item =>
            match revenueType item with
            | Some careType =>
                Editor.branchRevenue
                  (Editor.revenueData (Editor.calculateAllValues est)) b careType = 0
            | None =>
                Editor.calculated (Editor.calculateAllValues est) b (code item) =
                  Some 0
            end)
         LINE_ITEMS_CONFIG /\
  exists bst', Budget.calculateAllBranchValues bst = Some bst' /\
    Forall (fun item =>
              Forall (fun key => Budget.cell bst' b (code item) key = Some 0)
                     (map month_ MONTHS ++ [fy_total]))
           LINE_ITEMS_CONFIG.
Proof.
  intros Hb Hsel Hrev _ Hmrev _.
  assert (Hzero : forall o, zeroOrAbsent o -> orZero o = 0).
  { intros o [-> | ->]; reflexivity. }
  assert (He : forall c, valueOf (editorInputs est b) c = 0).
  { intros c.
    rewrite <- (valueOf_zero (assumptionPct (Editor.assumptionsData est) b)
                  (revTypePct (Editor.revenueTypeAssumptions est) b) c).
    apply valueOf_ext. unfold sameEngineInputs, editorInputs, inputsOf.
    cbn [Spec.revenue Spec.assumption Spec.allocation]. unfold Editor.branchRevenue.
    rewrite !Hzero by apply Hrev. repeat split. }
  assert (Hm : forall m c, valueOf (budgetInputs bst b m) c = 0).
  { intros m c.
    rewrite <- (valueOf_zero (assumptionPct (Budget.assumptionsData bst) b)
                  (revTypePct (Budget.revenueTypeAssumptions bst) b) c).
    apply valueOf_ext. unfold sameEngineInputs, budgetInputs, inputsOf.
    cbn [Spec.revenue Spec.assumption Spec.allocation]. unfold Budget.monthRevenue.
    rewrite !Hzero by apply Hmrev. repeat split. }
  split.
  - rewrite Forall_forall; intros item Hitem.
    pose proof (editor_calculated est b item Hb Hitem) as Hstored.
    pose proof (compute_catalog (editorInputs est b)) as Hcat.
    rewrite Forall_forall in Hcat.
    destruct (revenueType item) as [careType|].
    + unfold Editor.branchRevenue. apply Hzero, Hrev.
    + rewrite Hstored, (Hcat item Hitem), He. reflexivity.
  - exists (finalState bst). split; [apply calculateAllBranchValues_closed|].
    rewrite Forall_forall; intros item Hitem.
    apply Forall_app. split.
    + rewrite Forall_forall. intros key Hkey.
      apply list_elem_of_In, in_map_iff in Hkey. destruct Hkey as (m & <- & Hin).
      apply list_elem_of_In in Hin.
      rewrite budget_month_value by assumption. rewrite Hm. reflexivity.
    + apply Forall_cons; split; [|apply Forall_nil; exact I].
      rewrite budget_fy_value by assumption. f_equal.
      rewrite (map_ext _ (fun _ => 0)) by (intros m; apply Hm).
      reflexivity.
Qed.

End RollUps.

Lemma zero_inputs_give_zero_outputs_witness :
  (1%Z ∈ BRANCH_IDS /\ 1%Z ∈ Budget.getSelectedBranches emptyBudget /\
   (forall careType,
      zeroOrAbsent (Editor.revenueData emptyEditor !! 1%Z ≫= (.!! careType))) /\
   (forall c, zeroOrAbsent
                (assumption_value <$>
                   (Editor.assumptionsData emptyEditor !! 1%Z ≫= (.!! c)))) /\
   (forall m careType,
      zeroOrAbsent (monthData ← Budget.monthlyRevenueData emptyBudget !! 1%Z;
                    monthRevenue ← monthData !! m;
                    monthRevenue !! careType)) /\
   (forall c, zeroOrAbsent
                (assumption_value <$>
                   (Budget.assumptionsData emptyBudget !! 1%Z ≫= (.!! c))))) /\
  Forall (fun item =>
            match revenueType item with
            | Some careType =>
                Editor.branchRevenue
                  (Editor.revenueData (Editor.calculateAllValues emptyEditor))
                  1 careType = 0%Qc
            | None =>
                Editor.calculated (Editor.calculateAllValues emptyEditor) 1 (code item) =
                  Some 0%Qc
            end)
         LINE_ITEMS_CONFIG /\
  exists bst', Budget.calculateAllBranchValues emptyBudget = Some bst' /\
    Forall (fun item =>
              Forall (fun key => Budget.cell bst' 1 (code item) key = Some 0%Qc)
                     (map month_ MONTHS ++ [fy_total]))
           LINE_ITEMS_CONFIG.
Proof.
  split.
  - split; [in_list|]. split; [in_list|].
    repeat split; intros; left; reflexivity.
  - apply (zero_inputs_give_zero_outputs emptyEditor emptyBudget 1);
      [in_list | in_list | | | | ]; intros; left; reflexivity.
Defined.

(** * Averages *)

Section Averages.
Local Open Scope Qc_scope.

Lemma isPositive_lt (v : Qc) : isPositive v = true <-> 0 < v.
Proof.
  unfold isPositive, Qclt, Qccompare, Qcompare, Qlt.
  match goal with
  | |- context [Z.compare ?a ?b] =>
      pose proof (Z.compare_lt_iff a b) as Hlt; destruct (Z.compare a b)
  end; split; intros Hx; try discriminate; try reflexivity;
    try (apply Hlt; reflexivity); apply Hlt in Hx; discriminate.
Qed.

Lemma gtb_isPositive (v : Qc) : gtb v zero = isPositive v.
Proof.
  destruct (isPositive v) eqn:Hp.
  - apply gtb_zero, isPositive_lt, Hp.
  - destruct (gtb v zero) eqn:Hg; [|reflexivity].
    apply gtb_zero, isPositive_lt in Hg. congruence.
Qed.

Lemma natQc_S (n : nat) : natQc (S n) = natQc n + 1.
Proof.
  unfold natQc. apply Qc_is_canon. cbn [this Qcplus Q2Qc].
  rewrite !Qred_correct. rewrite Nat2Z.inj_succ. unfold Z.succ.
  rewrite inject_Z_plus. reflexivity.
Qed.

Lemma natQc_pos (n : nat) : 0 < natQc (S n).
Proof.
  unfold natQc, Qclt. cbn [this Q2Qc]. rewrite !Qred_correct.
  unfold Qlt. cbn [Qnum Qden inject_Z]. lia.
Qed.

Lemma sumQc_app (l l' : list Qc) : sumQc (l ++ l') = sumQc l + sumQc l'.
Proof.
  induction l as [|x l IH]; cbn [app].
  - change (sumQc []) with 0. ring.
  - change (sumQc (x :: l ++ l')) with (x + sumQc (l ++ l')).
    change (sumQc (x :: l)) with (x + sumQc l). rewrite IH. ring.
Qed.

Lemma revTypePct_default (r : gmap Z (gmap string Qc)) (b : Z) (c : string) :
  revTypePct r b c = default 0 (r !! b ≫= (.!! c)).
Proof. apply orZero_default. Qed.

(** The accumulation loop of [calculateRevenueTypeTotals], from any
    starting pair. *)
Lemma revenueType_loop (st : Editor.State Qc) (revTypeCode : string)
    (bs : list Z) (typeTotal branchCount : Qc) :
  foldl (fun '(typeTotal, branchCount) branchId =>
           let val := revTypePct (Editor.revenueTypeAssumptions st) branchId
                                 revTypeCode in
           if gtb val zero
           then (add typeTotal val, add branchCount (lit 1))
           else (typeTotal, branchCount))
        (typeTotal, branchCount) bs =
    let pos := positives
                 (omap (fun b => Editor.revenueTypeAssumptions st !! b
                                   ≫= (.!! revTypeCode)) bs) in
    (typeTotal + sumQc pos, branchCount + natQc (length pos)).
Proof.
  unfold positives. revert typeTotal branchCount.
  induction bs as [|b bs IH]; intros typeTotal branchCount;
    cbn [foldl omap list_omap].
  - cbv zeta. cbn [List.filter]. change (sumQc []) with 0.
    change (natQc (length (@nil Qc))) with 0. rewrite !Qcplus_0_r. reflexivity.
  - cbv zeta in IH |- *.
    rewrite (revTypePct_default _ b), gtb_isPositive.
    destruct (Editor.revenueTypeAssumptions st !! b ≫= (.!! revTypeCode))
      as [v|] eqn:Hv; cbn [default from_option id].
    + cbn [List.filter].
      destruct (isPositive v) eqn:Hp; cbv iota.
      * rewrite IH. cbn [length]. rewrite natQc_S.
        match goal with
        | |- context [sumQc (v :: ?l)] =>
            change (sumQc (v :: l)) with (v + sumQc l)
        end.
        cbv [add lit Qc_JsNum]. change (Q2Qc (inject_Z 1)) with 1.
        f_equal; ring.
      * apply IH.
    + change (isPositive 0) with false. cbv iota. apply IH.
Qed.

(** C7: the total shown for a revenue-type code is the arithmetic mean of
    the code's percentages over exactly the branches whose stored value is
    strictly greater than 0 (absent and non-positive values are left out of
    both the sum and the count), and 0 when there is no such branch. *)
Theorem revenue_type_total_is_mean_of_positive_branches
    (st : Editor.State Qc) :
  (forall revTypeCode,
     Editor.revenueTypeTotal st revTypeCode =
       mean (positives (storedAllocations st revTypeCode))) /\
  Editor.calculateRevenueTypeTotals st =
    map (fun revTypeCode =>
           (revTypeCode, mean (positives (storedAllocations st revTypeCode))))
        REVENUE_TYPE_CONFIG.
Proof.
  assert (Htotal : forall revTypeCode,
            Editor.revenueTypeTotal st revTypeCode =
              mean (positives (storedAllocations st revTypeCode))).
  { intros revTypeCode. unfold Editor.revenueTypeTotal.
    rewrite revenueType_loop. cbv zeta. fold (storedAllocations st revTypeCode).
    change (@zero Qc Qc_JsNum) with 0. rewrite !Qcplus_0_l.
    destruct (positives (storedAllocations st revTypeCode)) as [|v pos] eqn:Hpos.
    - reflexivity.
    - cbn [length]. change 0 with (@zero Qc Qc_JsNum) at 1.
      rewrite (proj2 (gtb_zero _) (natQc_pos _)). reflexivity. }
  split; [exact Htotal|].
  unfold Editor.calculateRevenueTypeTotals. apply map_ext. intros revTypeCode.
  rewrite Htotal. reflexivity.
Qed.

End Averages.

(** * The summary cards *)

Section SummaryCards.
Local Open Scope Qc_scope.
Local Open Scope list_scope.

Lemma metricsFor_empty : metricsFor [] Daily.emptyMetrics.
Proof. repeat split. Qed.

Lemma sumQc_snoc (l : list Qc) (x : Qc) : sumQc (l ++ [x]) = sumQc l + x.
Proof. rewrite sumQc_app. change (sumQc [x]) with (x + 0). ring. Qed.

Lemma positives_snoc (l : list Qc) (x : Qc) :
  positives (l ++ [x]) = positives l ++ (if isPositive x then [x] else []).
Proof. unfold positives. rewrite List.filter_app. reflexivity. Qed.

Lemma metricsFor_addRow (rows : list (Daily.Row Qc)) (row : Daily.Row Qc)
    (stm : gmap string (Daily.Metrics Qc)) :
  metricsFor rows (default Daily.emptyMetrics (stm !! Daily.stayTypeOf row)) ->
  exists m, Daily.addRow stm row !! Daily.stayTypeOf row = Some m /\
            metricsFor (rows ++ [row]) m.
Proof.
  intros (Hrev & Hep & Htot & Hcnt). unfold Daily.addRow. cbv zeta.
  rewrite lookup_insert_eq. eexists; split; [reflexivity|].
  unfold metricsFor. rewrite !map_app. cbn [map].
  rewrite !sumQc_snoc, positives_snoc, !orZero_default, !gtb_isPositive.
  destruct (isPositive (default 0 (Daily.cpe row)));
    destruct (isPositive (default 0 (Daily.alos row)));
    cbn [Daily.m_revenue Daily.m_episodes Daily.totalCPE Daily.countCPE];
    rewrite ?app_nil_r, ?sumQc_snoc, ?length_app, ?Nat.add_1_r, ?natQc_S;
    cbn [length]; rewrite ?Nat.add_1_r, ?natQc_S;
    rewrite Hrev, Hep, Htot, Hcnt; cbv [add lit Qc_JsNum];
    change (Q2Qc (inject_Z 1)) with 1; repeat split; reflexivity.
Qed.

Lemma stayTypeMetrics_snoc (rows : list (Daily.Row Qc)) (row : Daily.Row Qc) :
  Daily.stayTypeMetrics (rows ++ [row]) =
    Daily.addRow (Daily.stayTypeMetrics rows) row.
Proof. unfold Daily.stayTypeMetrics. apply foldl_snoc. Qed.

Lemma stayTypeMetrics_spec (rows : list (Daily.Row Qc)) (stayType : string) :
  match rowsOfType rows stayType with
  | [] => Daily.stayTypeMetrics rows !! stayType = None
  | _ :: _ =>
      exists m, Daily.stayTypeMetrics rows !! stayType = Some m /\
                metricsFor (rowsOfType rows stayType) m
  end.
Proof.
  induction rows as [|row rows IH] using rev_ind.
  - reflexivity.
  - unfold rowsOfType in *. rewrite List.filter_app. cbn [List.filter].
    rewrite stayTypeMetrics_snoc.
    destruct (String.eqb (Daily.stayTypeOf row) stayType) eqn:Heq.
    + apply String.eqb_eq in Heq. subst stayType.
      destruct (metricsFor_addRow
                  (List.filter (fun r => String.eqb (Daily.stayTypeOf r)
                                                    (Daily.stayTypeOf row)) rows)
                  row (Daily.stayTypeMetrics rows)) as (m & Hm & Hfor).
      { destruct (List.filter _ rows) as [|r rs].
        - rewrite IH. apply metricsFor_empty.
        - destruct IH as (m & -> & Hm). exact Hm. }
      destruct (List.filter _ rows ++ [row]) as [|r rs] eqn:Happ.
      * destruct (List.filter _ rows); discriminate.
      * exists m. split; assumption.
    + apply String.eqb_neq in Heq. rewrite app_nil_r.
      unfold Daily.addRow. cbv zeta. rewrite lookup_insert_ne by exact Heq.
      exact IH.
Qed.

(** C8: the average cost per episode that the summary table shows for a
    stay type with records is, for LTC and Non-LTC, the mean of the positive
    cpe values of the type's records, and for every other stay type (OP and
    ER among them) the type's total revenue over its total episode count;
    which rule applies depends on the stay type alone. *)
Theorem avg_cpe_rule_is_keyed_by_stay_type
    (dailyBudgetData : list (Daily.Row Qc)) (stayType : string) :
  Daily.updateSummaryCards dailyBudgetData !! stayType =
    match rowsOfType dailyBudgetData stayType with
    | [] => None
    | _ :: _ =>
        Some (if isLongStay stayType
              then meanOfPositiveCpe (rowsOfType dailyBudgetData stayType)
              else revenueOverEpisodes (rowsOfType dailyBudgetData stayType))
    end.
Proof.
  unfold Daily.updateSummaryCards. rewrite map_lookup_imap.
  pose proof (stayTypeMetrics_spec dailyBudgetData stayType) as Hspec.
  destruct (rowsOfType dailyBudgetData stayType) as [|r rs] eqn:Hrows.
  - rewrite Hspec. reflexivity.
  - destruct Hspec as (m & -> & Hrev & Hep & Htot & Hcnt).
    cbn [mbind option_bind]. f_equal.
    unfold Daily.avgCPE, isLongStay, meanOfPositiveCpe, revenueOverEpisodes.
    destruct (String.eqb stayType "LTC" || String.eqb stayType "Non-LTC").
    + rewrite Hcnt, Htot, gtb_isPositive. unfold mean.
      destruct (positives _) as [|v pos].
      * reflexivity.
      * cbn [length]. rewrite (proj2 (isPositive_lt _) (natQc_pos _)). reflexivity.
    + cbv zeta. rewrite Hep, Hrev, gtb_isPositive. reflexivity.
Qed.

End SummaryCards.

(** * The editor's handlers *)

Section HandlerFacts.
Context {A : Type} `{JsNum A}.

Lemma orZero_idem (o : option A) : orZero (Some (orZero o)) = orZero o.
Proof.
  destruct o as [x|]; cbn [orZero].
  - destruct (truthy x) eqn:Hx; [rewrite Hx; reflexivity|].
    destruct (truthy zero); reflexivity.
  - destruct (truthy zero); reflexivity.
Qed.

(** What the engine reads after an assumption was set. *)
Lemma assumptionPct_insert (a : gmap Z (gmap string (Assumption A)))
    (b b' : Z) (c c' : string) (v : A) :
  assumptionPct
    (<[b := <[c := {| assumption_value := v |}]> (default ∅ (a !! b))]> a) b' c' =
    if decide (b = b' /\ c = c') then orZero (Some v) else assumptionPct a b' c'.
Proof.
  unfold assumptionPct. destruct (decide (b = b')) as [<-|Hb].
  - rewrite lookup_insert_eq. cbn [mbind option_bind].
    destruct (decide (c = c')) as [<-|Hc].
    + rewrite lookup_insert_eq, decide_True by (split; reflexivity). reflexivity.
    + rewrite lookup_insert_ne, decide_False by tauto.
      destruct (a !! b); reflexivity.
  - rewrite lookup_insert_ne, decide_False by tauto. reflexivity.
Qed.

Lemma revTypePct_insert (r : gmap Z (gmap string A)) (b b' : Z) (c c' : string)
    (v : A) :
  revTypePct (<[b := <[c := v]> (default ∅ (r !! b))]> r) b' c' =
    if decide (b = b' /\ c = c') then orZero (Some v) else revTypePct r b' c'.
Proof.
  unfold revTypePct. destruct (decide (b = b')) as [<-|Hb].
  - rewrite lookup_insert_eq. cbn [mbind option_bind].
    destruct (decide (c = c')) as [<-|Hc].
    + rewrite lookup_insert_eq, decide_True by (split; reflexivity). reflexivity.
    + rewrite lookup_insert_ne, decide_False by tauto.
      destruct (r !! b); reflexivity.
  - rewrite lookup_insert_ne, decide_False by tauto. reflexivity.
Qed.

(** The object the editor computes for a branch only depends on what the
    engine reads for that branch. *)
Lemma calculateBranch_ext (st st' : Editor.State A) (b : Z) :
  sameEngineInputs (editorInputs st b) (editorInputs st' b) ->
  Editor.calculateBranch st b = Editor.calculateBranch st' b.
Proof.
  intros Hsame. rewrite !calculateBranch_closed.
  apply itemsObject_ext. intros c. apply valueOf_ext, Hsame.
Qed.

Lemma calculated_after (st : Editor.State A) (b : Z) (c : string) :
  Editor.calculated (Editor.calculateAllValues st) b c =
    if decide (b ∈ BRANCH_IDS) then Editor.calculateBranch st b !! c else None.
Proof.
  unfold Editor.calculated. rewrite calculateAllValues_lookup.
  destruct (decide (b ∈ BRANCH_IDS)); reflexivity.
Qed.

(** X1: an edit of one branch, of an assumption or of an allocation,
    leaves what the editor computes for every other branch as it is. *)
Theorem edits_leave_other_branches (st : Editor.State A) (b b' : Z)
    (c : string) (v : A) :
  b <> b' ->
  Editor.calculatedData (EditorPage.onAssumptionChange st b c v) !! b' =
    Editor.calculatedData (Editor.calculateAllValues st) !! b' /\
  Editor.calculatedData (EditorPage.onRevenueTypeChange st b c v) !! b' =
    Editor.calculatedData (Editor.calculateAllValues st) !! b'.
Proof.
  intros Hb. unfold EditorPage.onAssumptionChange, EditorPage.onRevenueTypeChange.
  cbv zeta. rewrite !calculateAllValues_lookup.
  destruct (decide (b' ∈ BRANCH_IDS)); [|split; reflexivity].
  split; f_equal; apply calculateBranch_ext;
    unfold sameEngineInputs, editorInputs, EditorPage.withAssumptions,
      editorWithAllocations;
    cbn [Spec.revenue Spec.assumption Spec.allocation Editor.revenueData
         Editor.assumptionsData Editor.revenueTypeAssumptions].
  - split; [reflexivity|]. split; [reflexivity|]. split; [reflexivity|].
    split; [|split; reflexivity].
    intros c'. rewrite assumptionPct_insert, decide_False by tauto. reflexivity.
  - split; [reflexivity|]. split; [reflexivity|]. split; [reflexivity|].
    split; [reflexivity|].
    rewrite !revTypePct_insert, !decide_False by tauto. split; reflexivity.
Qed.

End HandlerFacts.

Lemma edits_leave_other_branches_witness :
  1%Z <> 2%Z /\
  Editor.calculatedData
      (EditorPage.onAssumptionChange scenarioEditor 1 "DC_MEDICINES" (lit 5)) !! 2%Z =
    Editor.calculatedData (Editor.calculateAllValues scenarioEditor) !! 2%Z /\
  Editor.calculatedData
      (EditorPage.onRevenueTypeChange scenarioEditor 1 "DC_MEDICINES" (lit 5)) !! 2%Z =
    Editor.calculatedData (Editor.calculateAllValues scenarioEditor) !! 2%Z.
Proof.
  split; [discriminate|].
  apply (edits_leave_other_branches scenarioEditor 1 2 "DC_MEDICINES" (lit 5)).
  discriminate.
Defined.

Section StageFacts.
Context {A : Type} `{JsNum A}.

Lemma filtered_codes_item (f : ItemConfig -> bool) (l : list ItemConfig)
    (k : string) :
  k ∈ map code (List.filter f l) ->
  exists item, item ∈ l /\ f item = true /\ code item = k.
Proof.
  intros Hk. apply list_elem_of_fmap in Hk as (item & Hcode & Hitem).
  apply list_elem_of_In, filter_In in Hitem as [Hin Hf].
  exists item. split; [apply list_elem_of_In, Hin|]. split; [exact Hf|].
  symmetry; exact Hcode.
Qed.

Lemma computedCodes_eq :
  computedCodes =
    map code (List.filter (fun item => negb (hasRevenueType item)) LINE_ITEMS_CONFIG).
Proof. reflexivity. Qed.

Lemma computedCodes_item (k : string) :
  k ∈ computedCodes ->
  exists item, item ∈ LINE_ITEMS_CONFIG /\ revenueType item = None /\ code item = k.
Proof.
  intros Hk. rewrite computedCodes_eq in Hk.
  destruct (filtered_codes_item (fun item => negb (hasRevenueType item))
              LINE_ITEMS_CONFIG k Hk) as (item & Hin & Hf & Hcode).
  exists item. split; [exact Hin|]. split; [|exact Hcode].
  unfold hasRevenueType in Hf.
  destruct (revenueType item); [discriminate Hf|reflexivity].
Qed.

(** After a recalculation the editor holds, for a configured branch and a
    line that is not raw revenue, the engine's value. *)
Lemma editor_calculated_code (st : Editor.State A) (b : Z) (k : string) :
  b ∈ BRANCH_IDS -> k ∈ computedCodes ->
  Editor.calculated (Editor.calculateAllValues st) b k =
    Spec.compute (editorInputs st b) k.
Proof.
  intros Hb Hk. destruct (computedCodes_item k Hk) as (item & Hitem & Hraw & <-).
  rewrite editor_calculated by assumption. rewrite Hraw. reflexivity.
Qed.

Lemma revenueStage_computed : Forall (fun k => k ∈ computedCodes) revenueStageCodes.
Proof.
  unfold revenueStageCodes.
  forall_items ltac:(apply list_elem_of_In; vm_compute; tauto).
Qed.

Lemma netRevenue_computed : Forall (fun k => k ∈ computedCodes) Spec.netRevenueCodes.
Proof.
  apply Forall_forall. intros k Hk. apply list_elem_of_In.
  apply list_elem_of_In in Hk. revert k Hk. apply List.Forall_forall.
  vm_compute. repeat (apply List.Forall_cons; [tauto|]). apply List.Forall_nil.
Qed.

Lemma REV_NET_stage (i i' : Spec.Inputs A) :
  sameRevenueStageInputs i i' -> Spec.REV_NET i = Spec.REV_NET i'.
Proof.
  intros (Hip & Hop & Her & Hmoh & Hins & Hvol & Hearly & Hamoh & Hains).
  unfold Spec.REV_NET, Spec.DIS_SETTLEMENT, Spec.DIS_REJECTION,
    Spec.DIS_REJECTION_MOH, Spec.DIS_REJECTION_INS, Spec.percentOf, Spec.REV_SUB.
  rewrite Hip, Hop, Her, Hmoh, Hins, Hvol, Hearly, Hamoh, Hains. reflexivity.
Qed.

Lemma compute_stage (i i' : Spec.Inputs A) :
  sameRevenueStageInputs i i' ->
  Forall (fun k => Spec.compute i k = Spec.compute i' k) revenueStageCodes.
Proof.
  intros (Hip & Hop & Her & Hmoh & Hins & Hvol & Hearly & Hamoh & Hains).
  unfold revenueStageCodes.
  forall_items ltac:(cbv [Spec.compute String.eqb Ascii.eqb Bool.eqb Spec.isOneOf
                          existsb Spec.subRevenueCodes orb
                          Spec.REV_NET Spec.DIS_SETTLEMENT Spec.DIS_REJECTION
                          Spec.DIS_REJECTION_MOH Spec.DIS_REJECTION_INS
                          Spec.percentOf Spec.REV_SUB];
                     rewrite ?Hip, ?Hop, ?Her, ?Hmoh, ?Hins, ?Hvol, ?Hearly,
                       ?Hamoh, ?Hains; reflexivity).
Qed.

Lemma compute_netRevenue (i : Spec.Inputs A) :
  Forall (fun c => Spec.compute i c = Some (Spec.percentOf i (Spec.REV_NET i) c))
         Spec.netRevenueCodes.
Proof.
  cbv [Spec.netRevenueCodes directCostCodes gaCodes app].
  forall_items ltac:(reflexivity).
Qed.

(** The codes a cost percentage can have are none of the four discount
    codes. *)
Lemma netRevenue_not_discount :
  Forall (fun c => c <> "DIS_REJECTION_MOH" /\ c <> "DIS_REJECTION_INS" /\
                   c <> "DIS_VOLUME" /\ c <> "DIS_EARLY_PAY")
         Spec.netRevenueCodes.
Proof.
  cbv [Spec.netRevenueCodes directCostCodes gaCodes app].
  forall_items ltac:(repeat split; discriminate).
Qed.

(** X2: setting the percentage of a line that is charged on net revenue
    (a direct cost, a G&A line, other income, finance cost, depreciation,
    zakat, OCI) leaves every line down to net revenue as it was, and gives
    the line itself net revenue times the new percentage over one hundred
    (zero when the value is falsy). *)
Theorem cost_assumption_edit_keeps_revenue_stage (st : Editor.State A) (b : Z)
    (c : string) (v : A) :
  b ∈ BRANCH_IDS -> c ∈ Spec.netRevenueCodes ->
  Forall (fun k =>
            Editor.calculated (EditorPage.onAssumptionChange st b c v) b k =
              Editor.calculated (Editor.calculateAllValues st) b k)
         revenueStageCodes /\
  exists net,
    Editor.calculated (Editor.calculateAllValues st) b "REV_NET" = Some net /\
    Editor.calculated (EditorPage.onAssumptionChange st b c v) b c =
      Some (mul net (div (orZero (Some v)) hundred)).
Proof.
  intros Hb Hc.
  pose proof netRevenue_not_discount as Hnd.
  rewrite Forall_forall in Hnd. destruct (Hnd c Hc) as (N1 & N2 & N3 & N4).
  unfold EditorPage.onAssumptionChange. cbv zeta.
  set (st' := EditorPage.withAssumptions st _).
  assert (Hstage : sameRevenueStageInputs (editorInputs st' b) (editorInputs st b)).
  { unfold sameRevenueStageInputs, editorInputs, st', EditorPage.withAssumptions.
    cbn [Spec.revenue Spec.assumption Spec.allocation Editor.revenueData
         Editor.assumptionsData Editor.revenueTypeAssumptions].
    rewrite !assumptionPct_insert.
    rewrite !decide_False by (intros [_ ?]; congruence).
    split; [reflexivity|]. split; [reflexivity|]. split; [reflexivity|].
    split; [reflexivity|]. split; [reflexivity|]. split; [reflexivity|].
    split; [reflexivity|]. split; reflexivity. }
  split.
  - pose proof (compute_stage _ _ Hstage) as Hk.
    pose proof revenueStage_computed as Hin.
    rewrite Forall_forall in Hk. rewrite Forall_forall in Hin.
    apply Forall_forall. intros k Hmem.
    rewrite !editor_calculated_code by auto. apply Hk, Hmem.
  - exists (Spec.REV_NET (editorInputs st b)). split.
    + rewrite editor_calculated_code; [reflexivity|exact Hb|].
      apply list_elem_of_In; vm_compute; tauto.
    + pose proof netRevenue_computed as Hin. rewrite Forall_forall in Hin.
      rewrite editor_calculated_code by auto.
      pose proof (compute_netRevenue (editorInputs st' b)) as Hv.
      rewrite Forall_forall in Hv. rewrite (Hv c Hc).
      rewrite (REV_NET_stage _ _ Hstage). unfold Spec.percentOf.
      change (Spec.assumption (editorInputs st' b) c)
        with (assumptionPct (Editor.assumptionsData st') b c).
      unfold st', EditorPage.withAssumptions. cbn [Editor.assumptionsData].
      rewrite assumptionPct_insert, decide_True by (split; reflexivity).
      reflexivity.
Qed.

(** X3: an allocation edit never moves the sub revenue, the volume
    discount or the early-payment discount of any branch. *)
Theorem allocation_edit_keeps_sub_revenue_lines (st : Editor.State A)
    (b b' : Z) (rt : string) (v : A) :
  Forall (fun k =>
            Editor.calculated (EditorPage.onRevenueTypeChange st b rt v) b' k =
              Editor.calculated (Editor.calculateAllValues st) b' k)
         ["REV_SUB"; "DIS_VOLUME"; "DIS_EARLY_PAY"].
Proof.
  unfold EditorPage.onRevenueTypeChange. cbv zeta.
  set (st' := editorWithAllocations st _).
  destruct (decide (b' ∈ BRANCH_IDS)) as [Hb|Hb].
  - forall_items ltac:(rewrite !editor_calculated_code
                         by (try exact Hb; apply list_elem_of_In; vm_compute; tauto);
                       reflexivity).
  - forall_items ltac:(rewrite !calculated_after, !decide_False by exact Hb;
                       reflexivity).
Qed.

(** X4: an edit of an allocation code other than REV_TYPE_MOH and
    REV_TYPE_INSURANCE recalculates to the same values as before the
    edit: the engine reads only those two. *)
Theorem other_allocation_edit_changes_nothing (st : Editor.State A) (b : Z)
    (rt : string) (v : A) :
  rt <> "REV_TYPE_MOH" -> rt <> "REV_TYPE_INSURANCE" ->
  Editor.calculatedData (EditorPage.onRevenueTypeChange st b rt v) =
    Editor.calculatedData (Editor.calculateAllValues st).
Proof.
  intros Hmoh Hins. unfold EditorPage.onRevenueTypeChange. cbv zeta.
  apply map_eq. intros b'. rewrite !calculateAllValues_lookup.
  destruct (decide (b' ∈ BRANCH_IDS)); [|reflexivity].
  apply (f_equal Some). apply calculateBranch_ext.
  unfold sameEngineInputs, editorInputs, editorWithAllocations.
  cbn [Spec.revenue Spec.assumption Spec.allocation Editor.revenueData
       Editor.assumptionsData Editor.revenueTypeAssumptions].
  rewrite !revTypePct_insert.
  rewrite !decide_False by (intros [_ ?]; congruence).
  split; [reflexivity|]. split; [reflexivity|]. split; [reflexivity|].
  split; [reflexivity|]. split; reflexivity.
Qed.

End StageFacts.

Lemma cost_assumption_edit_keeps_revenue_stage_witness :
  1%Z ∈ BRANCH_IDS /\ "DC_MEDICINES" ∈ Spec.netRevenueCodes /\
  Forall (fun k =>
            Editor.calculated
                (EditorPage.onAssumptionChange scenarioEditor 1 "DC_MEDICINES" (lit 5))
                1 k =
              Editor.calculated (Editor.calculateAllValues scenarioEditor) 1 k)
         revenueStageCodes.
Proof.
  assert (Hb : 1%Z ∈ BRANCH_IDS) by (apply list_elem_of_In; vm_compute; tauto).
  assert (Hc : "DC_MEDICINES" ∈ Spec.netRevenueCodes)
    by (apply list_elem_of_In; vm_compute; tauto).
  split; [exact Hb|]. split; [exact Hc|].
  exact (proj1 (cost_assumption_edit_keeps_revenue_stage
                  scenarioEditor 1 "DC_MEDICINES" (lit 5) Hb Hc)).
Defined.

Lemma other_allocation_edit_changes_nothing_witness :
  "REV_TYPE_CASH" <> "REV_TYPE_MOH" /\ "REV_TYPE_CASH" <> "REV_TYPE_INSURANCE" /\
  Editor.calculatedData
      (EditorPage.onRevenueTypeChange scenarioEditor 1 "REV_TYPE_CASH" (lit 40)) =
    Editor.calculatedData (Editor.calculateAllValues scenarioEditor).
Proof.
  split; [discriminate|]. split; [discriminate|].
  apply (other_allocation_edit_changes_nothing scenarioEditor 1 "REV_TYPE_CASH" (lit 40));
    discriminate.
Defined.

(** * The FY Total column of the editor *)

Section FyColumn.
Local Open Scope Qc_scope.

Lemma fy_calculated_sum (st : Editor.State Qc) (k : string) :
  k ∈ computedCodes ->
  foldl (fun total branchId =>
           add total (orZero (Editor.calculated (Editor.calculateAllValues st)
                                                branchId k)))
        zero BRANCH_IDS =
    sumQc (map (fun b => valueOf (editorInputs st b) k) BRANCH_IDS).
Proof.
  intros Hk. rewrite foldl_add_sumQc.
  change (@zero Qc Qc_JsNum) with 0%Qc. rewrite Qcplus_0_l. f_equal.
  apply Forall_fmap_ext_1, Forall_forall. intros b Hb.
  rewrite editor_calculated_code by assumption.
  rewrite orZero_default. reflexivity.
Qed.

Lemma fy_revenue_sum (st : Editor.State Qc) (careType : string) :
  foldl (fun totalRevenue branchId =>
           add totalRevenue
               (Editor.branchRevenue
                  (Editor.revenueData (Editor.calculateAllValues st))
                  branchId careType))
        zero BRANCH_IDS =
    sumQc (map (fun b => Spec.revenue (editorInputs st b) careType) BRANCH_IDS).
Proof.
  rewrite foldl_add_sumQc. change (@zero Qc Qc_JsNum) with 0%Qc.
  rewrite Qcplus_0_l. reflexivity.
Qed.

(** X5: after a recalculation the FY Total column of the editor obeys the
    identities of the cascade down to gross profit: FY sub revenue is the
    sum of the FY inpatient, outpatient and emergency cells, FY net revenue
    is FY sub revenue less FY settlement discounts, FY gross profit is FY
    net revenue less FY direct costs. *)
Theorem fy_column_identities (st : Editor.State Qc) :
  exists ip op er sub_ settlement net dc gross : Qc,
    let fy := EditorPage.fyTotalCell (Editor.calculateAllValues st) in
    fy (rawItem "REV_IP" "IP") = Some ip /\
    fy (rawItem "REV_OP" "OP") = Some op /\
    fy (rawItem "REV_ER" "ER") = Some er /\
    fy (calcItem "REV_SUB") = Some sub_ /\
    fy (calcItem "DIS_SETTLEMENT") = Some settlement /\
    fy (calcItem "REV_NET") = Some net /\
    fy (calcItem "TOTAL_DC") = Some dc /\
    fy (calcItem "GROSS_PROFIT") = Some gross /\
    sub_ = ip + op + er /\
    net = sub_ - settlement /\
    gross = net - dc.
Proof.
  do 8 eexists. cbv zeta.
  unfold EditorPage.fyTotalCell.
  cbn [revenueType isCalculated code rawItem calcItem].
  split; [reflexivity|]. split; [reflexivity|]. split; [reflexivity|].
  split; [reflexivity|]. split; [reflexivity|]. split; [reflexivity|].
  split; [reflexivity|]. split; [reflexivity|].
  rewrite !fy_revenue_sum.
  rewrite !fy_calculated_sum by (apply list_elem_of_In; vm_compute; tauto).
  cbv [BRANCH_IDS map].
  change (valueOf ?i "REV_SUB") with (Spec.REV_SUB i).
  change (valueOf ?i "DIS_SETTLEMENT") with (Spec.DIS_SETTLEMENT i).
  change (valueOf ?i "REV_NET") with (Spec.REV_NET i).
  change (valueOf ?i "TOTAL_DC") with (Spec.TOTAL_DC i).
  change (valueOf ?i "GROSS_PROFIT") with (Spec.GROSS_PROFIT i).
  unfold Spec.GROSS_PROFIT, Spec.REV_NET.
  repeat match goal with
         | |- context [Spec.TOTAL_DC ?i] => generalize (Spec.TOTAL_DC i); intro
         | |- context [Spec.DIS_SETTLEMENT ?i] =>
             generalize (Spec.DIS_SETTLEMENT i); intro
         end.
  unfold Spec.REV_SUB. cbv [sumQc foldr add sub Qc_JsNum].
  split; [ring|]. split; ring.
Qed.

End FyColumn.

(** * Saving and reloading the assumptions *)

Section SaveLoad.
Context {A : Type} `{JsNum A}.

(** The rows of one branch, by code. *)
Lemma saveAssumptions_closed (st : Editor.State A) :
  EditorPage.saveAssumptions st =
    flat_map
      (fun b =>
         app (map (fun c =>
                     {| line_item_code := c; branch_id := b;
                        saved_assumption_value :=
                          assumptionPct (Editor.assumptionsData st) b c;
                        calculated_value := orZero (Editor.calculated st b c) |})
                  inputCodes)
             (map (fun rt =>
                     {| line_item_code := rt; branch_id := b;
                        saved_assumption_value :=
                          revTypePct (Editor.revenueTypeAssumptions st) b rt;
                        calculated_value := zero |})
                  REVENUE_TYPE_CONFIG))
      BRANCH_IDS.
Proof.
  unfold EditorPage.saveAssumptions. apply flat_map_ext. intros b. f_equal.
Qed.

(** X6: whatever the state, the array [saveAssumptions] posts holds, for
    each of the six branches in turn, one row per input line of the catalog
    (in catalog order) followed by one row per revenue type: 234 rows, no
    (branch, code) pair twice, and no row for a calculated or a revenue
    line. *)
Theorem saveAssumptions_rows (st : Editor.State A) :
  map (fun r => (branch_id r, line_item_code r)) (EditorPage.saveAssumptions st) =
    list_prod BRANCH_IDS (app inputCodes REVENUE_TYPE_CONFIG) /\
  NoDup (map (fun r => (branch_id r, line_item_code r))
             (EditorPage.saveAssumptions st)) /\
  length (EditorPage.saveAssumptions st) = 234%nat /\
  Forall (fun r =>
            line_item_code r ∉
              map code (List.filter (fun item => isCalculated item || hasRevenueType item)
                                    LINE_ITEMS_CONFIG))
         (EditorPage.saveAssumptions st).
Proof.
  assert (Hkeys : map (fun r => (branch_id r, line_item_code r))
                      (EditorPage.saveAssumptions st) =
                  list_prod BRANCH_IDS (app inputCodes REVENUE_TYPE_CONFIG))
    by reflexivity.
  split; [exact Hkeys|]. split; [|split].
  - rewrite Hkeys. apply (bool_decide_unpack _). vm_compute. exact I.
  - rewrite <- (length_map (fun r => (branch_id r, line_item_code r))), Hkeys.
    reflexivity.
  - apply Forall_forall. intros r Hr.
    assert (Hc : line_item_code r ∈ app inputCodes REVENUE_TYPE_CONFIG).
    { apply list_elem_of_In in Hr.
      apply (in_map (fun r => (branch_id r, line_item_code r))) in Hr.
      rewrite Hkeys in Hr. apply in_prod_iff in Hr as [_ Hr].
      apply list_elem_of_In, Hr. }
    revert Hc. generalize (line_item_code r). apply Forall_forall.
    apply (bool_decide_unpack _). vm_compute. exact I.
Qed.

End SaveLoad.

Section Loader.
Context {A : Type} `{JsNum A}.

Lemma loadBranchAssumptions_snoc (items : list (ApiItem A)) (item : ApiItem A) :
  EditorPage.loadBranchAssumptions (app items [item]) =
    EditorPage.loadItem (EditorPage.loadBranchAssumptions items) item.
Proof. unfold EditorPage.loadBranchAssumptions. apply foldl_snoc. Qed.

Lemma last_filter_snoc (c : string) (items : list (ApiItem A)) (item : ApiItem A) :
  last (filter (fun it => api_line_item_code it = c) (app items [item])) =
    if decide (api_line_item_code item = c) then Some item
    else last (filter (fun it => api_line_item_code it = c) items).
Proof.
  rewrite filter_app, filter_cons, filter_nil.
  destruct (decide (api_line_item_code item = c)).
  - apply last_snoc.
  - rewrite app_nil_r. reflexivity.
Qed.

Lemma loaded_lookup (items : list (ApiItem A)) (c : string) :
  let latest := last (filter (fun it => api_line_item_code it = c) items) in
  fst (EditorPage.loadBranchAssumptions items) !! c =
    (if bool_decide (c ∈ REVENUE_TYPE_CONFIG) then None
     else (fun it => {| assumption_value := EditorPage.itemValue it |}) <$> latest) /\
  snd (EditorPage.loadBranchAssumptions items) !! c =
    (if bool_decide (c ∈ REVENUE_TYPE_CONFIG)
     then EditorPage.itemValue <$> latest else None).
Proof.
  cbv zeta. induction items as [|item items IH] using rev_ind.
  - cbn. rewrite !lookup_empty. destruct (bool_decide _); split; reflexivity.
  - rewrite loadBranchAssumptions_snoc, last_filter_snoc.
    destruct (EditorPage.loadBranchAssumptions items) as [a r].
    cbn [fst snd] in IH. destruct IH as [IHa IHr].
    unfold EditorPage.loadItem.
    destruct (bool_decide (api_line_item_code item ∈ REVENUE_TYPE_CONFIG)) eqn:Hrt;
      cbn [fst snd];
      destruct (decide (api_line_item_code item = c)) as [Hc|Hc].
    + rewrite <- Hc, Hrt, lookup_insert_eq. rewrite Hc. split; [|reflexivity].
      rewrite IHa, <- Hc, Hrt. reflexivity.
    + rewrite lookup_insert_ne by exact Hc. split; assumption.
    + rewrite <- Hc, Hrt, lookup_insert_eq. rewrite Hc. split; [reflexivity|].
      rewrite IHr, <- Hc, Hrt. reflexivity.
    + rewrite lookup_insert_ne by exact Hc. split; assumption.
Qed.

(** X7: what loading a branch's array leaves in the two stores: under a
    code, the value of the last array element that carries the code (its
    [assumption_percentage], else its [assumption_value], else zero), in
    [revenueTypeAssumptions] when the code is one of the four revenue
    types and in [assumptionsData] otherwise; nothing under a code no
    element carries, and never the same code in both stores. *)
Theorem loadBranchAssumptions_lookup (items : list (ApiItem A)) (c : string) :
  let latest := last (filter (fun it => api_line_item_code it = c) items) in
  fst (EditorPage.loadBranchAssumptions items) !! c =
    (if bool_decide (c ∈ REVENUE_TYPE_CONFIG) then None
     else (fun it => {| assumption_value := EditorPage.itemValue it |}) <$> latest) /\
  snd (EditorPage.loadBranchAssumptions items) !! c =
    (if bool_decide (c ∈ REVENUE_TYPE_CONFIG)
     then EditorPage.itemValue <$> latest else None).
Proof. exact (loaded_lookup items c). Qed.

End Loader.

Section CatalogExt.
Context {A : Type} `{JsNum A}.

Lemma isOneOf_elem (c : string) (codes : list string) :
  Spec.isOneOf c codes = true -> c ∈ codes.
Proof.
  unfold Spec.isOneOf. intros Hc. apply existsb_exists in Hc as (x & Hx & Heq).
  apply String.eqb_eq in Heq. subst x. apply list_elem_of_In, Hx.
Qed.

Lemma foldl_percent_ext (i i' : Spec.Inputs A) (codes : list string) (acc : A) :
  Spec.REV_NET i = Spec.REV_NET i' ->
  Forall (fun c => Spec.assumption i c = Spec.assumption i' c) codes ->
  foldl (fun total code => add total (Spec.percentOf i (Spec.REV_NET i) code))
        acc codes =
  foldl (fun total code => add total (Spec.percentOf i' (Spec.REV_NET i') code))
        acc codes.
Proof.
  intros Hnet Hall. revert acc.
  induction Hall as [|c codes Hc Hall IH]; intros acc; [reflexivity|].
  cbn [foldl]. rewrite IH. unfold Spec.percentOf. rewrite Hc, Hnet. reflexivity.
Qed.

Lemma inputCodes_parts (P : string -> Prop) :
  Forall P inputCodes ->
  (P "DIS_REJECTION_MOH" /\ P "DIS_REJECTION_INS" /\ P "DIS_VOLUME" /\
   P "DIS_EARLY_PAY") /\
  Forall P directCostCodes /\ Forall P gaCodes /\
  (P "OTHER_INCOME" /\ P "FINANCE_COST" /\ P "DEPRECIATION" /\ P "ZAKAT" /\
   P "OCI") /\
  Forall P Spec.netRevenueCodes.
Proof.
  unfold inputCodes, Spec.netRevenueCodes.
  rewrite !Forall_app. intros (Hd & Hdc & Hga & Ho).
  cbv [app] in Hd.
  repeat match goal with
         | Hx : Forall _ (_ :: _) |- _ => apply Forall_cons in Hx as [? Hx]
         end.
  repeat split; try assumption. repeat (apply Forall_cons; split; [assumption|]).
  apply Forall_nil; exact I.
Qed.

(** The engine cannot tell two input sets apart that agree on the catalog. *)
Lemma compute_catalog_ext (i i' : Spec.Inputs A) (c : string) :
  sameCatalogInputs i i' -> Spec.compute i c = Spec.compute i' c.
Proof.
  intros (Hip & Hop & Her & Hpct & Hmoh & Hins).
  destruct (inputCodes_parts _ Hpct)
    as ((Hrm & Hri & Hvol & Hearly) & Hdc & Hga & (Hoi & Hfc & Hdep & Hzk & Hoci)
        & Hnetc).
  assert (Hstage : sameRevenueStageInputs i i').
  { unfold sameRevenueStageInputs. tauto. }
  pose proof (REV_NET_stage _ _ Hstage) as Hnet.
  pose proof (compute_stage _ _ Hstage) as Hst.
  unfold revenueStageCodes in Hst.
  repeat match goal with
         | Hx : Forall _ (_ :: _) |- _ => apply Forall_cons in Hx as [? Hx]
         end.
  assert (Htdc : Spec.TOTAL_DC i = Spec.TOTAL_DC i')
    by (apply foldl_percent_ext; assumption).
  assert (Htga : Spec.TOTAL_GA i = Spec.TOTAL_GA i')
    by (apply foldl_percent_ext; assumption).
  assert (Hsub : Spec.REV_SUB i = Spec.REV_SUB i')
    by (unfold Spec.REV_SUB; rewrite Hip, Hop, Her; reflexivity).
  unfold Spec.compute.
  repeat match goal with
         | |- (if String.eqb c ?k then _ else _) = _ =>
             destruct (String.eqb_spec c k) as [->|_]; [assumption || shelve|]
         | |- (if Spec.isOneOf c ?l then _ else _) = _ =>
             destruct (Spec.isOneOf c l) eqn:?; [shelve|]
         end.
  reflexivity.
  Unshelve.
  all: try (rewrite Hip || rewrite Hop || rewrite Her); try reflexivity.
  - apply isOneOf_elem in Heqb. unfold Spec.percentOf. rewrite Hsub.
    apply list_elem_of_In in Heqb. cbv [Spec.subRevenueCodes In] in Heqb.
    destruct Heqb as [<-|[<-|[]]]; [rewrite Hvol|rewrite Hearly]; reflexivity.
  - apply isOneOf_elem in Heqb0. rewrite Forall_forall in Hnetc.
    unfold Spec.percentOf. rewrite Hnet, (Hnetc c Heqb0). reflexivity.
  - rewrite Htdc. reflexivity.
  - unfold Spec.GROSS_PROFIT. rewrite Htdc, Hnet. reflexivity.
  - rewrite Htga. reflexivity.
  - unfold Spec.EBITDA, Spec.GROSS_PROFIT, Spec.percentOf.
    rewrite Htdc, Htga, Hnet, Hoi. reflexivity.
  - unfold Spec.NET_PROFIT, Spec.EBITDA, Spec.GROSS_PROFIT, Spec.percentOf.
    rewrite Htdc, Htga, Hnet, Hoi, Hfc, Hdep, Hzk. reflexivity.
  - unfold Spec.TOTAL_COMP_INCOME, Spec.NET_PROFIT, Spec.EBITDA,
      Spec.GROSS_PROFIT, Spec.percentOf.
    rewrite Htdc, Htga, Hnet, Hoi, Hfc, Hdep, Hzk, Hoci. reflexivity.
Qed.

Lemma calculateBranch_catalog_ext (st st' : Editor.State A) (b : Z) :
  sameCatalogInputs (editorInputs st b) (editorInputs st' b) ->
  Editor.calculateBranch st b = Editor.calculateBranch st' b.
Proof.
  intros Hsame. rewrite !calculateBranch_closed.
  apply itemsObject_ext. intros c. unfold valueOf.
  rewrite (compute_catalog_ext _ _ c Hsame). reflexivity.
Qed.

End CatalogExt.

Section RoundTrip.
Context {A : Type} `{JsNum A}.

Lemma echoedRows_closed (st : Editor.State A) (b : Z) :
  b ∈ BRANCH_IDS ->
  echoedRows st b =
    app (map (fun c => (c, assumptionPct (Editor.assumptionsData st) b c)) inputCodes)
        (map (fun rt => (rt, revTypePct (Editor.revenueTypeAssumptions st) b rt))
             REVENUE_TYPE_CONFIG).
Proof.
  intros Hb. unfold BRANCH_IDS in Hb.
  repeat (apply elem_of_cons in Hb as [->|Hb]; [reflexivity|]).
  apply elem_of_nil in Hb. destruct Hb.
Qed.

(** The latest element with a code only depends on the codes and values
    of the array. *)
Lemma latest_value_pairs (items : list (ApiItem A)) (c : string) :
  EditorPage.itemValue <$> last (filter (fun it => api_line_item_code it = c) items) =
    snd <$> last (filter (fun p => fst p = c)
                         (map (fun it => (api_line_item_code it,
                                          EditorPage.itemValue it)) items)).
Proof.
  induction items as [|item items IH] using rev_ind; [reflexivity|].
  rewrite map_app, !filter_app. cbn [map]. rewrite !filter_cons, !filter_nil.
  cbn [fst]. destruct (decide (api_line_item_code item = c)).
  - rewrite !last_snoc. reflexivity.
  - rewrite !app_nil_r. exact IH.
Qed.

Lemma echoed_latest (f g : string -> A) :
  let rows := app (map (fun c => (c, f c)) inputCodes)
                  (map (fun rt => (rt, g rt)) REVENUE_TYPE_CONFIG) in
  Forall (fun c => bool_decide (c ∈ REVENUE_TYPE_CONFIG) = false /\
                   snd <$> last (filter (fun p => fst p = c) rows) = Some (f c))
         inputCodes /\
  Forall (fun rt => bool_decide (rt ∈ REVENUE_TYPE_CONFIG) = true /\
                    snd <$> last (filter (fun p => fst p = rt) rows) = Some (g rt))
         REVENUE_TYPE_CONFIG.
Proof.
  cbv zeta. split.
  - cbv [inputCodes Spec.netRevenueCodes directCostCodes gaCodes app].
    forall_items ltac:(split; vm_compute; reflexivity).
  - unfold REVENUE_TYPE_CONFIG at 3.
    forall_items ltac:(split; vm_compute; reflexivity).
Qed.

Lemma storeBranchAssumptions_other
    (responses : Z -> Response (option (list (ApiItem A))))
    (stores : gmap Z (gmap string (Assumption A)) * gmap Z (gmap string A))
    (x b : Z) :
  x <> b ->
  fst (EditorPage.storeBranchAssumptions responses stores x) !! b = fst stores !! b /\
  snd (EditorPage.storeBranchAssumptions responses stores x) !! b = snd stores !! b.
Proof.
  intros Hne. unfold EditorPage.storeBranchAssumptions.
  destruct (responses x) as [data| |]; cbn [fst snd];
    rewrite ?lookup_insert_ne by exact Hne; split; reflexivity.
Qed.

(** The callbacks of the other branches leave a branch's entries alone. *)
Lemma storeBranchAssumptions_frame
    (responses : Z -> Response (option (list (ApiItem A))))
    (branches : list Z)
    (stores : gmap Z (gmap string (Assumption A)) * gmap Z (gmap string A))
    (b : Z) :
  b ∉ branches ->
  fst (foldl (EditorPage.storeBranchAssumptions responses) stores branches) !! b =
    fst stores !! b /\
  snd (foldl (EditorPage.storeBranchAssumptions responses) stores branches) !! b =
    snd stores !! b.
Proof.
  revert stores. induction branches as [|x branches IH]; intros stores Hb.
  - split; reflexivity.
  - apply not_elem_of_cons in Hb as [Hne Hb]. cbn [foldl].
    destruct (IH (EditorPage.storeBranchAssumptions responses stores x) Hb)
      as [-> ->].
    apply storeBranchAssumptions_other. congruence.
Qed.

(** What a branch whose request was answered ok with an array holds after
    the load. *)
Lemma storeBranchAssumptions_ok
    (responses : Z -> Response (option (list (ApiItem A))))
    (branches : list Z)
    (stores : gmap Z (gmap string (Assumption A)) * gmap Z (gmap string A))
    (b : Z) (items : list (ApiItem A)) :
  responses b = ok (Some items) -> b ∈ branches ->
  fst (foldl (EditorPage.storeBranchAssumptions responses) stores branches) !! b =
    Some (fst (EditorPage.loadBranchAssumptions items)) /\
  snd (foldl (EditorPage.storeBranchAssumptions responses) stores branches) !! b =
    Some (snd (EditorPage.loadBranchAssumptions items)).
Proof.
  intros Hok. revert stores.
  induction branches as [|x branches IH]; intros stores Hb.
  - apply elem_of_nil in Hb. destruct Hb.
  - cbn [foldl]. destruct (decide (b ∈ branches)) as [Hin|Hout].
    + apply IH, Hin.
    + apply elem_of_cons in Hb as [<-|Hin]; [|contradiction].
      destruct (storeBranchAssumptions_frame responses branches
                  (EditorPage.storeBranchAssumptions responses stores b) b Hout)
        as [-> ->].
      unfold EditorPage.storeBranchAssumptions. rewrite Hok. cbn [fst snd].
      rewrite !lookup_insert_eq. split; reflexivity.
Qed.

(** What the engine reads for a branch whose answer echoes its saved
    rows. *)
Lemma echoed_branch_reads (st : Editor.State A)
    (asm : gmap Z (gmap string (Assumption A))) (rta : gmap Z (gmap string A))
    (b : Z) (items : list (ApiItem A)) :
  b ∈ BRANCH_IDS ->
  map (fun it => (api_line_item_code it, EditorPage.itemValue it)) items =
    echoedRows st b ->
  asm !! b = Some (fst (EditorPage.loadBranchAssumptions items)) ->
  rta !! b = Some (snd (EditorPage.loadBranchAssumptions items)) ->
  Forall (fun c => assumptionPct asm b c =
                   assumptionPct (Editor.assumptionsData st) b c) inputCodes /\
  Forall (fun rt => revTypePct rta b rt =
                    revTypePct (Editor.revenueTypeAssumptions st) b rt)
         REVENUE_TYPE_CONFIG.
Proof.
  intros Hb Hecho Hasm Hrta.
  rewrite echoedRows_closed in Hecho by exact Hb.
  destruct (echoed_latest (assumptionPct (Editor.assumptionsData st) b)
                          (revTypePct (Editor.revenueTypeAssumptions st) b))
    as [Hin Hrt].
  pose proof (loaded_lookup items) as Hload. split.
  - eapply Forall_impl; [exact Hin|]. cbv beta. intros c [Hc Hlast].
    unfold assumptionPct at 1. rewrite Hasm. cbn [mbind option_bind].
    rewrite (proj1 (Hload c)), Hc.
    rewrite <- option_fmap_compose.
    change (assumption_value ∘ _) with (@EditorPage.itemValue A _).
    rewrite latest_value_pairs, Hecho, Hlast. apply orZero_idem.
  - eapply Forall_impl; [exact Hrt|]. cbv beta. intros c [Hc Hlast].
    unfold revTypePct at 1. rewrite Hrta. cbn [mbind option_bind].
    rewrite (proj2 (Hload c)), Hc.
    rewrite latest_value_pairs, Hecho, Hlast. apply orZero_idem.
Qed.


End RoundTrip.


Section BranchTotals.
Local Open Scope Qc_scope.

Lemma branchTotal_sum (st : Editor.State Qc) (b : Z) :
  EditorPage.branchTotal st b =
    sumQc (map (revTypePct (Editor.revenueTypeAssumptions st) b) REVENUE_TYPE_CONFIG).
Proof.
  unfold EditorPage.branchTotal. rewrite foldl_add_sumQc.
  change (@zero Qc Qc_JsNum) with 0%Qc. apply Qcplus_0_l.
Qed.

Lemma sumQc_allocations_edit (r : gmap Z (gmap string Qc)) (b : Z) (rt : string)
    (v : Qc) (codes : list string) :
  NoDup codes -> rt ∈ codes ->
  sumQc (map (revTypePct (<[b := <[rt := v]> (default ∅ (r !! b))]> r) b) codes) =
    sumQc (map (revTypePct r b) codes) - revTypePct r b rt + v.
Proof.
  induction codes as [|c codes IH]; intros Hnd Hin.
  - apply elem_of_nil in Hin. destruct Hin.
  - apply NoDup_cons in Hnd as [Hc Hnd]. cbn [map].
    change (sumQc (?x :: ?l)) with (x + sumQc l).
    rewrite revTypePct_insert.
    destruct (decide (rt = c)) as [<-|Hne].
    + rewrite decide_True by (split; reflexivity).
      rewrite orZero_default. change (default 0 (Some v)) with v.
      assert (Hrest : map (revTypePct (<[b := <[rt := v]> (default ∅ (r !! b))]> r) b)
                          codes = map (revTypePct r b) codes).
      { apply Forall_fmap_ext_1, Forall_forall. intros c Hcin.
        rewrite revTypePct_insert, decide_False; [reflexivity|].
        intros [_ ->]. contradiction. }
      rewrite Hrest. ring.
    + rewrite decide_False by (intros [_ ?]; contradiction).
      apply elem_of_cons in Hin as [Heq|Hin]; [contradiction|].
      rewrite IH by assumption. ring.
Qed.

(** X10: an edit of one of the four allocations moves the total of the
    edited branch by the new value less the old one, and leaves the total
    of every other branch. *)
Theorem allocation_edit_moves_branch_total (st : Editor.State Qc) (b b' : Z)
    (rt : string) (v : Qc) :
  rt ∈ REVENUE_TYPE_CONFIG -> b' <> b ->
  EditorPage.branchTotal (EditorPage.onRevenueTypeChange st b rt v) b =
    EditorPage.branchTotal st b
      - revTypePct (Editor.revenueTypeAssumptions st) b rt + v /\
  EditorPage.branchTotal (EditorPage.onRevenueTypeChange st b rt v) b' =
    EditorPage.branchTotal st b'.
Proof.
  intros Hrt Hb. rewrite !branchTotal_sum.
  unfold EditorPage.onRevenueTypeChange. cbv zeta.
  change (Editor.revenueTypeAssumptions (Editor.calculateAllValues ?s))
    with (Editor.revenueTypeAssumptions s).
  unfold editorWithAllocations. cbn [Editor.revenueTypeAssumptions].
  split.
  - apply sumQc_allocations_edit; [|exact Hrt].
    apply (bool_decide_unpack _). vm_compute. exact I.
  - f_equal. apply map_ext. intros c.
    rewrite revTypePct_insert, decide_False; [reflexivity|].
    intros [Heq _]. congruence.
Qed.

End BranchTotals.

Lemma allocation_edit_moves_branch_total_witness :
  "REV_TYPE_CASH" ∈ REVENUE_TYPE_CONFIG /\ 2%Z <> 1%Z /\
  EditorPage.branchTotal
      (EditorPage.onRevenueTypeChange scenarioEditor 1 "REV_TYPE_CASH" (lit 40)) 1 =
    (EditorPage.branchTotal scenarioEditor 1
       - revTypePct (Editor.revenueTypeAssumptions scenarioEditor) 1 "REV_TYPE_CASH"
       + lit 40)%Qc.
Proof.
  assert (Hrt : "REV_TYPE_CASH" ∈ REVENUE_TYPE_CONFIG)
    by (apply list_elem_of_In; vm_compute; tauto).
  assert (Hb : 2%Z <> 1%Z) by discriminate.
  split; [exact Hrt|]. split; [exact Hb|].
  exact (proj1 (allocation_edit_moves_branch_total scenarioEditor 1 2
                  "REV_TYPE_CASH" (lit 40) Hrt Hb)).
Defined.

(** * The budget view's recalculation *)

Section BudgetRecalculation.
Context {A : Type} `{JsNum A}.

Lemma finalState_stale (st : Budget.State A)
    (cd : gmap Z (gmap string (gmap RowKey A))) (b : Z) :
  Budget.calculatedData (finalState (Budget.setCalculatedData st cd)) !! b =
    if decide (b ∈ Budget.getSelectedBranches st)
    then Some (branchObject st b) else cd !! b.
Proof.
  rewrite finalState_calculatedData.
  change (Budget.getSelectedBranches (Budget.setCalculatedData st cd))
    with (Budget.getSelectedBranches st).
  change (Budget.calculatedData (Budget.setCalculatedData st cd)) with cd.
  rewrite (foldl_insert_ext (branchObject (Budget.setCalculatedData st cd))
                            (branchObject st)) by reflexivity.
  apply lookup_foldl_insert.
Qed.

Lemma finalState_idem (st : Budget.State A) : finalState (finalState st) = finalState st.
Proof.
  unfold finalState at 1.
  change (Budget.getSelectedBranches (finalState st))
    with (Budget.getSelectedBranches st).
  rewrite (foldl_insert_ext (branchObject (finalState st)) (branchObject st))
    by reflexivity.
  change (Budget.setCalculatedData (finalState st) ?cd)
    with (Budget.setCalculatedData st cd).
  unfold finalState at 2. apply (f_equal (Budget.setCalculatedData st)).
  apply map_eq. intros b. rewrite lookup_foldl_insert, finalState_calculatedData.
  rewrite lookup_foldl_insert.
  destruct (decide (b ∈ Budget.getSelectedBranches st)); reflexivity.
Qed.

(** X11: the budget view's recalculation always completes; running it a
    second time changes nothing; what it stores for a selected branch does
    not depend on what [calculatedData] held before, and the entry of a
    branch that is not selected is left as it was. *)
Theorem budget_recalculation_is_idempotent (st : Budget.State A)
    (cd : gmap Z (gmap string (gmap RowKey A))) (b : Z) :
  exists st1 st2,
    Budget.calculateAllBranchValues st = Some st1 /\
    Budget.calculateAllBranchValues st1 = Some st1 /\
    Budget.calculateAllBranchValues (Budget.setCalculatedData st cd) = Some st2 /\
    Budget.calculatedData st2 !! b =
      if decide (b ∈ Budget.getSelectedBranches st)
      then Budget.calculatedData st1 !! b else cd !! b.
Proof.
  exists (finalState st), (finalState (Budget.setCalculatedData st cd)).
  rewrite !calculateAllBranchValues_closed, finalState_idem.
  split; [reflexivity|]. split; [reflexivity|]. split; [reflexivity|].
  rewrite finalState_stale.
  destruct (decide (b ∈ Budget.getSelectedBranches st)) as [Hb|Hb]; [|reflexivity].
  symmetry. apply finalState_lookup, Hb.
Qed.

(** X12: the cells of a month only depend on that month's revenue: two
    runs that hand the engine the same revenue figures, percentages and
    allocations for a branch and a month store the same value in that
    month's cell of every row of the branch, whatever the other months and
    branches hold. *)
Theorem month_cells_depend_on_their_month_only (st st' : Budget.State A)
    (b : Z) (m : nat) :
  b ∈ Budget.getSelectedBranches st -> b ∈ Budget.getSelectedBranches st' ->
  m ∈ MONTHS ->
  sameEngineInputs (budgetInputs st b m) (budgetInputs st' b m) ->
  exists st1 st1',
    Budget.calculateAllBranchValues st = Some st1 /\
    Budget.calculateAllBranchValues st' = Some st1' /\
    Forall (fun item =>
              Budget.cell st1 b (code item) (month_ m) =
                Budget.cell st1' b (code item) (month_ m))
           LINE_ITEMS_CONFIG.
Proof.
  intros Hb Hb' Hm Hsame. exists (finalState st), (finalState st').
  rewrite !calculateAllBranchValues_closed.
  split; [reflexivity|]. split; [reflexivity|].
  apply Forall_forall. intros item Hitem.
  rewrite !budget_month_cell by assumption.
  apply compute_ext, Hsame.
Qed.

End BudgetRecalculation.

Lemma month_cells_depend_on_their_month_only_witness :
  1%Z ∈ Budget.getSelectedBranches scenarioBudget /\
  1%Z ∈ Budget.getSelectedBranches scenarioJanuary /\
  3%nat ∈ MONTHS /\
  sameEngineInputs (budgetInputs scenarioBudget 1 3) (budgetInputs scenarioJanuary 1 3) /\
  exists st1 st1',
    Budget.calculateAllBranchValues scenarioBudget = Some st1 /\
    Budget.calculateAllBranchValues scenarioJanuary = Some st1' /\
    Forall (fun item =>
              Budget.cell st1 1 (code item) (month_ 3) =
                Budget.cell st1' 1 (code item) (month_ 3))
           LINE_ITEMS_CONFIG.
Proof.
  assert (Hb : 1%Z ∈ Budget.getSelectedBranches scenarioBudget)
    by (apply list_elem_of_In; vm_compute; tauto).
  assert (Hb' : 1%Z ∈ Budget.getSelectedBranches scenarioJanuary)
    by (apply list_elem_of_In; vm_compute; tauto).
  assert (Hm : 3%nat ∈ MONTHS) by (apply list_elem_of_In; vm_compute; tauto).
  assert (Hsame : sameEngineInputs (budgetInputs scenarioBudget 1 3)
                                   (budgetInputs scenarioJanuary 1 3)).
  { unfold sameEngineInputs.
    split; [reflexivity|]. split; [reflexivity|]. split; [reflexivity|].
    split; [intros c; reflexivity|]. split; reflexivity. }
  split; [exact Hb|]. split; [exact Hb'|]. split; [exact Hm|]. split; [exact Hsame|].
  exact (month_cells_depend_on_their_month_only scenarioBudget scenarioJanuary 1 3
           Hb Hb' Hm Hsame).
Defined.

(** * The exported sheet *)

Section ExportSheet.
Local Open Scope Qc_scope.

Lemma exportRow_fold (st : Budget.State Qc) (item : ItemConfig) (ms : list nat)
    (rowData : list Z) (fyTotal : Qc) :
  foldl (fun '(rowData, fyTotal) month =>
           let monthTotal :=
             foldl (fun monthTotal branchId =>
                      let value :=
                        orZero (Budget.cell st branchId (code item) (month_ month)) in
                      add monthTotal value)
                   zero (Budget.getSelectedBranches st) in
           (app rowData [mathRound monthTotal], add fyTotal monthTotal))
        (rowData, fyTotal) ms =
    (app rowData (map (fun m => mathRound (Budget.monthTotal st item m)) ms),
     fyTotal + sumQc (map (Budget.monthTotal st item) ms)).
Proof.
  revert rowData fyTotal. induction ms as [|m ms IH]; intros rowData fyTotal.
  - cbn [foldl map]. change (sumQc []) with 0. rewrite app_nil_r, Qcplus_0_r.
    reflexivity.
  - cbn [foldl map]. rewrite IH. rewrite <- app_assoc. cbn [app].
    change (sumQc (?x :: ?l)) with (x + sumQc l).
    apply f_equal2; [reflexivity|]. cbv [add Qc_JsNum].
    change (foldl _ zero (Budget.getSelectedBranches st))
      with (Budget.monthTotal st item m).
    rewrite Qcplus_assoc. reflexivity.
Qed.

Lemma exportRow_closed (st : Budget.State Qc) (item : ItemConfig) :
  exportRow st item =
    app (map (fun m => mathRound (Budget.monthTotal st item m)) MONTHS)
        [mathRound (sumQc (map (Budget.monthTotal st item) MONTHS))].
Proof.
  unfold exportRow. rewrite exportRow_fold.
  change (@zero Qc Qc_JsNum) with 0. rewrite Qcplus_0_l. reflexivity.
Qed.

Lemma createDataRow_closed (st : Budget.State Qc) (item : ItemConfig) :
  Budget.createDataRow st item =
    (map (Budget.monthTotal st item) MONTHS,
     sumQc (map (Budget.monthTotal st item) MONTHS)).
Proof.
  unfold Budget.createDataRow. rewrite createDataRow_fold.
  change (@zero Qc Qc_JsNum) with 0. rewrite Qcplus_0_l. reflexivity.
Qed.

(** X13: a row of the exported sheet holds the figures of the same row of
    the page, each rounded to the nearest integer: the twelve month cells,
    then the FY total (the total itself rounded, not the sum of the rounded
    months). *)
Theorem export_row_rounds_the_page_row (st : Budget.State Qc) (item : ItemConfig) :
  exportRow st item =
    app (map mathRound (fst (Budget.createDataRow st item)))
        [mathRound (snd (Budget.createDataRow st item))].
Proof.
  rewrite exportRow_closed, createDataRow_closed. cbn [fst snd].
  rewrite map_map. reflexivity.
Qed.

Lemma this_plus (x y : Qc) : (this (x + y) == this x + this y)%Q.
Proof. cbv [Qcplus Q2Qc this]. apply Qred_correct. Qed.

Lemma mathRound_bounds (x : Qc) :
  (this x - (1 # 2) < inject_Z (mathRound x))%Q /\
  (inject_Z (mathRound x) <= this x + (1 # 2))%Q.
Proof.
  unfold mathRound.
  pose proof (Qfloor_le (this (x + Q2Qc (1 # 2)))) as Hle.
  pose proof (Qlt_floor (this (x + Q2Qc (1 # 2)))) as Hlt.
  pose proof (this_plus x (Q2Qc (1 # 2))) as Hplus.
  change (this (Q2Qc (1 # 2))) with (1 # 2)%Q in Hplus.
  rewrite inject_Z_plus in Hlt. change (inject_Z 1) with 1%Q in Hlt.
  split; lra.
Qed.

Lemma sum_of_rounded_bounds (l : list Qc) :
  (this (sumQc l) - inject_Z (Z.of_nat (length l)) * (1 # 2)
     <= inject_Z (sumZ (map mathRound l)))%Q /\
  (inject_Z (sumZ (map mathRound l))
     <= this (sumQc l) + inject_Z (Z.of_nat (length l)) * (1 # 2))%Q.
Proof.
  induction l as [|x l [IHlo IHhi]].
  - change (this (sumQc [])) with 0%Q.
    change (inject_Z (sumZ (map mathRound []))) with 0%Q.
    change (inject_Z (Z.of_nat (length (@nil Qc)))) with 0%Q.
    split; lra.
  - cbn [map length]. change (sumQc (x :: l)) with (x + sumQc l).
    change (sumZ (?a :: ?r)) with (a + sumZ r)%Z.
    pose proof (this_plus x (sumQc l)) as Hplus.
    destruct (mathRound_bounds x) as [Hlo Hhi].
    rewrite Nat2Z.inj_succ. unfold Z.succ. rewrite !inject_Z_plus.
    change (inject_Z 1) with 1%Q.
    split; lra.
Qed.

(** X14: in a row of the exported sheet the FY total differs from the sum
    of the twelve exported month figures by at most 6. *)
Theorem exported_total_is_within_six_of_the_months (st : Budget.State Qc)
    (item : ItemConfig) :
  exists (months : list Z) (fyTotal : Z),
    exportRow st item = app months [fyTotal] /\
    length months = 12%nat /\
    (Z.abs (fyTotal - sumZ months) <= 6)%Z.
Proof.
  rewrite exportRow_closed.
  exists (map (fun m => mathRound (Budget.monthTotal st item m)) MONTHS),
         (mathRound (sumQc (map (Budget.monthTotal st item) MONTHS))).
  split; [reflexivity|]. split; [reflexivity|].
  rewrite <- (map_map (Budget.monthTotal st item) mathRound).
  assert (Hlen : length (map (Budget.monthTotal st item) MONTHS) = 12%nat)
    by reflexivity.
  revert Hlen. generalize (map (Budget.monthTotal st item) MONTHS). intros l Hlen.
  destruct (sum_of_rounded_bounds l) as [Hlo Hhi].
  destruct (mathRound_bounds (sumQc l)) as [Hrlo Hrhi].
  rewrite Hlen in Hlo, Hhi. change (inject_Z (Z.of_nat 12)) with 12%Q in Hlo, Hhi.
  assert (Hup : (inject_Z (mathRound (sumQc l) - sumZ (map mathRound l)) <= 13 # 2)%Q).
  { unfold Z.sub. rewrite inject_Z_plus, inject_Z_opp. lra. }
  assert (Hdown : (-(13 # 2) <= inject_Z (mathRound (sumQc l) - sumZ (map mathRound l)))%Q).
  { unfold Z.sub. rewrite inject_Z_plus, inject_Z_opp. lra. }
  revert Hup Hdown. generalize (mathRound (sumQc l) - sumZ (map mathRound l))%Z.
  intros d Hup Hdown. unfold Qle in Hup, Hdown. cbn in Hup, Hdown. lia.
Qed.

(** X15: nothing is exported while [calculatedData] is empty; after a
    recalculation the export always goes ahead, with a row of thirteen
    figures for each of the 48 line items. *)
Theorem export_needs_calculated_data (st : Budget.State Qc) :
  exportToExcel (Budget.setCalculatedData st ∅) = None /\
  exists st1 rows,
    Budget.calculateAllBranchValues st = Some st1 /\
    exportToExcel st1 = Some rows /\
    length rows = 48%nat /\ Forall (fun row => length row = 13%nat) rows.
Proof.
  split.
  - unfold exportToExcel. cbn [Budget.calculatedData Budget.setCalculatedData].
    rewrite decide_True by reflexivity. reflexivity.
  - exists (finalState st). rewrite calculateAllBranchValues_closed.
    unfold exportToExcel.
    destruct (decide (Budget.calculatedData (finalState st) = ∅)) as [He|_].
    + exfalso. rewrite finalState_calculatedData in He.
      assert (Hsel : exists b, b ∈ Budget.getSelectedBranches st).
      { unfold Budget.getSelectedBranches.
        destruct (Budget.selectedBranch st) as [|b]; [exists 1%Z|exists b].
        - apply list_elem_of_In; vm_compute; tauto.
        - apply list_elem_of_singleton. reflexivity. }
      destruct Hsel as [b Hb].
      apply (f_equal (fun m => m !! b)) in He.
      rewrite lookup_foldl_insert, decide_True, lookup_empty in He by exact Hb.
      discriminate He.
    + eexists. split; [reflexivity|]. split; [reflexivity|]. split; [reflexivity|].
      apply Forall_fmap, Forall_forall. intros item _. cbv beta.
      unfold compose. rewrite exportRow_closed. reflexivity.
Qed.

End ExportSheet.

(** * The metrics summary table *)

Section SummaryTable.
Local Open Scope Qc_scope.
Local Open Scope list_scope.

Lemma alosFor_empty : alosFor [] Daily.emptyMetrics.
Proof. repeat split. Qed.

Lemma alosFor_addRow (rows : list (Daily.Row Qc)) (row : Daily.Row Qc)
    (stm : gmap string (Daily.Metrics Qc)) :
  alosFor rows (default Daily.emptyMetrics (stm !! Daily.stayTypeOf row)) ->
  exists m, Daily.addRow stm row !! Daily.stayTypeOf row = Some m /\
            alosFor (rows ++ [row]) m.
Proof.
  intros (Htot & Hcnt & Hrec). unfold Daily.addRow. cbv zeta.
  rewrite lookup_insert_eq. eexists; split; [reflexivity|].
  unfold alosFor. rewrite !map_app. cbn [map].
  rewrite positives_snoc, !orZero_default, !gtb_isPositive.
  destruct (isPositive (default 0 (Daily.cpe row)));
    destruct (isPositive (default 0 (Daily.alos row)));
    cbn [Daily.totalALOS Daily.countALOS Daily.records];
    rewrite ?app_nil_r, ?sumQc_snoc, ?length_app, ?Nat.add_1_r, ?natQc_S;
    cbn [length]; rewrite ?Nat.add_1_r, ?natQc_S;
    rewrite ?Htot, ?Hcnt, ?Hrec; cbv [add lit Qc_JsNum];
    change (Q2Qc (inject_Z 1)) with 1; repeat split; reflexivity.
Qed.

(** A property of the entries that every record of a stay type maintains
    holds of the entry of every stay type that has records. *)
Lemma stayTypeMetrics_invariant
    (P : list (Daily.Row Qc) -> Daily.Metrics Qc -> Prop) :
  P [] Daily.emptyMetrics ->
  (forall rows row stm,
     P rows (default Daily.emptyMetrics (stm !! Daily.stayTypeOf row)) ->
     exists m, Daily.addRow stm row !! Daily.stayTypeOf row = Some m /\
               P (rows ++ [row]) m) ->
  forall rows stayType,
    match rowsOfType rows stayType with
    | [] => Daily.stayTypeMetrics rows !! stayType = None
    | _ :: _ =>
        exists m, Daily.stayTypeMetrics rows !! stayType = Some m /\
                  P (rowsOfType rows stayType) m
    end.
Proof.
  intros Hempty Hstep rows stayType.
  induction rows as [|row rows IH] using rev_ind.
  - reflexivity.
  - unfold rowsOfType in *. rewrite List.filter_app. cbn [List.filter].
    rewrite stayTypeMetrics_snoc.
    destruct (String.eqb (Daily.stayTypeOf row) stayType) eqn:Heq.
    + apply String.eqb_eq in Heq. subst stayType.
      destruct (Hstep
                  (List.filter (fun r => String.eqb (Daily.stayTypeOf r)
                                                    (Daily.stayTypeOf row)) rows)
                  row (Daily.stayTypeMetrics rows)) as (m & Hm & Hfor).
      { destruct (List.filter _ rows) as [|r rs].
        - rewrite IH. exact Hempty.
        - destruct IH as (m & -> & Hm). exact Hm. }
      destruct (List.filter _ rows ++ [row]) as [|r rs] eqn:Happ.
      * destruct (List.filter _ rows); discriminate.
      * exists m. split; assumption.
    + apply String.eqb_neq in Heq. rewrite app_nil_r.
      unfold Daily.addRow. cbv zeta. rewrite lookup_insert_ne by exact Heq.
      exact IH.
Qed.

(** X16: the metrics summary table has a row for exactly the stay types
    that have records; the average length of stay it shows for such a type
    is the mean of the positive alos values of the type's records (0 when
    none is positive), the same rule for every stay type, and its record
    count is the number of the type's records. *)
Theorem avg_alos_is_mean_of_positive_alos
    (dailyBudgetData : list (Daily.Row Qc)) (stayType : string) :
  match rowsOfType dailyBudgetData stayType with
  | [] => Daily.stayTypeMetrics dailyBudgetData !! stayType = None
  | _ :: _ =>
      exists metrics,
        Daily.stayTypeMetrics dailyBudgetData !! stayType = Some metrics /\
        DailyPage.avgALOS metrics =
          meanOfPositiveAlos (rowsOfType dailyBudgetData stayType) /\
        Daily.records metrics = natQc (length (rowsOfType dailyBudgetData stayType))
  end.
Proof.
  pose proof (stayTypeMetrics_invariant alosFor alosFor_empty alosFor_addRow
                dailyBudgetData stayType) as Hspec.
  destruct (rowsOfType dailyBudgetData stayType) as [|r rs]; [exact Hspec|].
  destruct Hspec as (m & Hm & Htot & Hcnt & Hrec).
  exists m. split; [exact Hm|]. split; [|exact Hrec].
  unfold DailyPage.avgALOS, meanOfPositiveAlos.
  rewrite Hcnt, Htot, gtb_isPositive. unfold mean.
  destruct (positives _) as [|v pos].
  - reflexivity.
  - cbn [length]. rewrite (proj2 (isPositive_lt _) (natQc_pos _)). reflexivity.
Qed.

Lemma sumQc_Permutation (l l' : list Qc) : l ≡ₚ l' -> sumQc l = sumQc l'.
Proof.
  induction 1 as [|x l l' _ IH|x y l|l l' l'' _ IH1 _ IH2].
  - reflexivity.
  - change (sumQc (x :: ?k)) with (x + sumQc k). rewrite IH. reflexivity.
  - change (sumQc (?a :: ?b :: ?k)) with (a + (b + sumQc k)). ring.
  - rewrite IH1. exact IH2.
Qed.

Lemma columnTotal_empty (F : Daily.Metrics Qc -> Qc) : columnTotal F ∅ = 0.
Proof. unfold columnTotal. rewrite map_to_list_empty. reflexivity. Qed.

Lemma columnTotal_insert (F : Daily.Metrics Qc -> Qc)
    (stm : gmap string (Daily.Metrics Qc)) (k : string) (m : Daily.Metrics Qc) :
  F Daily.emptyMetrics = 0 ->
  columnTotal F (<[k := m]> stm) =
    columnTotal F stm - F (default Daily.emptyMetrics (stm !! k)) + F m.
Proof.
  intros HF. unfold columnTotal. destruct (stm !! k) as [m0|] eqn:Hk.
  - rewrite <- insert_delete_eq.
    rewrite (sumQc_Permutation _ _
               (Permutation_map (fun entry => F (snd entry))
                  (map_to_list_insert (delete k stm) k m (lookup_delete_eq stm k)))).
    rewrite <- (sumQc_Permutation _ _
                  (Permutation_map (fun entry => F (snd entry))
                     (map_to_list_delete stm k m0 Hk))).
    cbn [map snd default from_option id].
    change (sumQc (?a :: ?l)) with (a + sumQc l). ring.
  - rewrite (sumQc_Permutation _ _
               (Permutation_map (fun entry => F (snd entry))
                  (map_to_list_insert stm k m Hk))).
    cbn [map snd default from_option id].
    change (sumQc (?a :: ?l)) with (a + sumQc l). rewrite HF. ring.
Qed.

(** One record adds its revenue and its episodes to one entry, and 1 to
    that entry's record count. *)
Lemma addRow_entry (stm : gmap string (Daily.Metrics Qc)) (row : Daily.Row Qc) :
  exists m,
    Daily.addRow stm row = <[Daily.stayTypeOf row := m]> stm /\
    let m0 := default Daily.emptyMetrics (stm !! Daily.stayTypeOf row) in
    Daily.m_revenue m = Daily.m_revenue m0 + default 0 (Daily.revenue row) /\
    Daily.m_episodes m = Daily.m_episodes m0 + default 0 (Daily.episodes row) /\
    Daily.records m = Daily.records m0 + 1.
Proof.
  unfold Daily.addRow. cbv zeta. eexists. split; [reflexivity|].
  rewrite !orZero_default.
  destruct (gtb (default 0 (Daily.cpe row)) zero);
    destruct (gtb (default 0 (Daily.alos row)) zero);
    cbn [Daily.m_revenue Daily.m_episodes Daily.records];
    repeat split; reflexivity.
Qed.

Lemma columnTotals_rows (rows : list (Daily.Row Qc)) :
  columnTotal Daily.m_revenue (Daily.stayTypeMetrics rows) =
    sumQc (map (fun row => default 0 (Daily.revenue row)) rows) /\
  columnTotal Daily.m_episodes (Daily.stayTypeMetrics rows) =
    sumQc (map (fun row => default 0 (Daily.episodes row)) rows) /\
  columnTotal Daily.records (Daily.stayTypeMetrics rows) = natQc (length rows).
Proof.
  induction rows as [|row rows (IHrev & IHep & IHrec)] using rev_ind.
  - unfold Daily.stayTypeMetrics. cbn [foldl]. rewrite !columnTotal_empty.
    repeat split; reflexivity.
  - rewrite stayTypeMetrics_snoc.
    destruct (addRow_entry (Daily.stayTypeMetrics rows) row)
      as (m & -> & Hrev & Hep & Hrec).
    cbv zeta in Hrev, Hep, Hrec.
    rewrite !columnTotal_insert by reflexivity.
    rewrite Hrev, Hep, Hrec, IHrev, IHep, IHrec.
    rewrite !map_app, length_app. cbn [map length].
    rewrite !sumQc_snoc, Nat.add_1_r, natQc_S.
    repeat split; ring.
Qed.

(** X17: when the API sent no source totals, the Total row of the metrics
    summary table is the sum of the rows above it: the total revenue is the
    sum of the revenue column, the total of episodes the sum of the
    episodes of the stay types, and the number of records the sum of the
    record counts. *)
Theorem summary_total_row_adds_up (dailyBudgetData : list (Daily.Row Qc)) :
  DailyPage.totalRevenue None dailyBudgetData =
    columnTotal Daily.m_revenue (Daily.stayTypeMetrics dailyBudgetData) /\
  DailyPage.totalEpisodes dailyBudgetData =
    columnTotal Daily.m_episodes (Daily.stayTypeMetrics dailyBudgetData) /\
  natQc (length dailyBudgetData) =
    columnTotal Daily.records (Daily.stayTypeMetrics dailyBudgetData).
Proof.
  destruct (columnTotals_rows dailyBudgetData) as (Hrev & Hep & Hrec).
  rewrite Hrev, Hep, Hrec.
  unfold DailyPage.totalRevenue, DailyPage.totalEpisodes.
  rewrite !foldl_add_sumQc. change (@zero Qc Qc_JsNum) with 0.
  rewrite !Qcplus_0_l.
  split; [|split; [|reflexivity]]; f_equal; apply map_ext; intros row;
    apply orZero_default.
Qed.

End SummaryTable.

(** * The results table *)

Section ResultsTable.
Local Open Scope list_scope.

Lemma filter_filter {T : Type} (p q : T -> bool) (l : list T) :
  List.filter q (List.filter p l) = List.filter (fun x => p x && q x) l.
Proof.
  induction l as [|x l IH]; [reflexivity|]. cbn [List.filter].
  destruct (p x); cbn [List.filter andb]; [destruct (q x)|]; rewrite IH; reflexivity.
Qed.

Lemma filter_true {T : Type} (l : list T) : List.filter (fun _ => true) l = l.
Proof. induction l as [|x l IH]; [reflexivity|]. cbn. rewrite IH. reflexivity. Qed.

Lemma filter_if {T : Type} (c : bool) (p : T -> bool) (l : list T) :
  (if c then List.filter p l else l) = List.filter (fun x => negb c || p x) l.
Proof. destruct c; [reflexivity|]. symmetry. apply filter_true. Qed.

(** X18: the four filters of the results table combine as a conjunction:
    the table lists, in their order, exactly the records that pass every
    filter that is set, and the count shown is their number. *)
Theorem results_filters_are_a_conjunction (f : Results.Filters)
    (currentPage : Z) (dailyBudgetData : list Results.Row) :
  Results.applyFilters f dailyBudgetData =
    List.filter (Results.passes f) dailyBudgetData /\
  fst (fst (Results.renderResults f currentPage dailyBudgetData)) =
    length (List.filter (Results.passes f) dailyBudgetData).
Proof.
  assert (Hfilter : Results.applyFilters f dailyBudgetData =
                    List.filter (Results.passes f) dailyBudgetData).
  { unfold Results.applyFilters. cbv zeta.
    rewrite !filter_if, !filter_filter. apply List.filter_ext. intros d.
    unfold Results.passes. rewrite !andb_assoc. reflexivity. }
  split; [exact Hfilter|].
  unfold Results.renderResults. cbn [fst]. rewrite Hfilter. reflexivity.
Qed.

Lemma totalPages_div {T : Type} (l : list T) :
  Results.totalPages l = ((Z.of_nat (length l) + 49) / 50)%Z.
Proof.
  unfold Results.totalPages, Results.pageSize, Qceiling.
  generalize (Z.of_nat (length l)). intros n.
  unfold Qfloor, Qopp, Qdiv, Qmult, Qinv, inject_Z. cbn [Qnum Qden].
  change (Z.pos (1 * 50)) with 50%Z. rewrite Z.mul_1_r.
  Z.div_mod_to_equations. lia.
Qed.

Lemma pageData_chunk {T : Type} (l : list T) (i : nat) :
  Results.pageData l (Z.of_nat (S i)) = take 50 (drop (50 * i) l).
Proof.
  unfold Results.pageData, Results.slice, Results.pageSize. cbv zeta.
  replace ((Z.of_nat (S i) - 1) * 50)%Z with (Z.of_nat (50 * i)) by lia.
  generalize (50 * i)%nat. intros k.
  destruct (Z.ltb_spec (Z.of_nat k) 0) as [Hneg|_]; [lia|].
  destruct (Z.ltb_spec (Z.of_nat k + 50) 0) as [Hneg|_]; [lia|].
  destruct (le_lt_dec (length l) k) as [Hge|Hlt].
  - rewrite !Z.min_r by lia. rewrite Z.sub_diag. cbn [Z.to_nat take].
    rewrite (drop_ge l k) by lia. reflexivity.
  - rewrite (Z.min_l (Z.of_nat k)) by lia. rewrite Nat2Z.id.
    destruct (le_lt_dec (length l) (k + 50)) as [Hend|Hend].
    + rewrite Z.min_r by lia.
      rewrite !take_ge; [reflexivity| |]; rewrite length_drop; lia.
    + rewrite Z.min_l by lia.
      replace (Z.to_nat (Z.of_nat k + 50 - Z.of_nat k)) with 50%nat by lia.
      reflexivity.
Qed.

Lemma chunks_take {T : Type} (l : list T) (n : nat) :
  concat (map (fun i => take 50 (drop (50 * i) l)) (seq 0 n)) = take (50 * n) l.
Proof.
  induction n as [|n IH].
  - rewrite Nat.mul_0_r. reflexivity.
  - rewrite seq_S, map_app, concat_app, IH. cbn [map concat plus].
    rewrite app_nil_r, take_take_drop. f_equal. lia.
Qed.

Lemma seqZ_pages (n : nat) :
  seqZ 1 (Z.of_nat n) = map (fun i => Z.of_nat (S i)) (seq 0 n).
Proof.
  unfold seqZ. rewrite Nat2Z.id.
  apply Forall_fmap_ext_1, Forall_forall. intros i _. lia.
Qed.

(** X19: the pages of the results table partition the filtered records:
    pages 1 to [totalPages] put end to end give the filtered list, and each
    of them shows at least one and at most fifty records. *)
Theorem results_pages_partition_the_records {T : Type} (filtered : list T) :
  concat (map (Results.pageData filtered) (seqZ 1 (Results.totalPages filtered))) =
    filtered /\
  Forall (fun page => (0 < length (Results.pageData filtered page) <= 50)%nat)
         (seqZ 1 (Results.totalPages filtered)).
Proof.
  rewrite totalPages_div.
  set (n := Z.to_nat ((Z.of_nat (length filtered) + 49) / 50)).
  assert (Hn : ((Z.of_nat (length filtered) + 49) / 50)%Z = Z.of_nat n).
  { unfold n. rewrite Z2Nat.id; [reflexivity|]. apply Z.div_pos; lia. }
  assert (Hlo : (length filtered <= 50 * n)%nat).
  { apply Nat2Z.inj_le. rewrite Nat2Z.inj_mul, <- Hn.
    change (Z.of_nat 50) with 50%Z. Z.div_mod_to_equations. lia. }
  assert (Hhi : (50 * n < length filtered + 50)%nat).
  { apply Nat2Z.inj_lt. rewrite Nat2Z.inj_mul, Nat2Z.inj_add, <- Hn.
    change (Z.of_nat 50) with 50%Z. Z.div_mod_to_equations. lia. }
  rewrite Hn, seqZ_pages, map_map. split.
  - rewrite (map_ext _ (fun i => take 50 (drop (50 * i) filtered)))
      by (intros i; apply pageData_chunk).
    rewrite chunks_take. apply take_ge, Hlo.
  - apply Forall_fmap, Forall_forall. intros i Hi.
    apply list_elem_of_In, in_seq in Hi. cbv beta. unfold compose.
    rewrite pageData_chunk, length_take, length_drop. lia.
Qed.

(** X20: a page outside 1 to [totalPages] that is not negative shows
    nothing: page 0 and every page after the last are empty. *)
Theorem results_pages_out_of_range_are_empty {T : Type} (filtered : list T)
    (page : Z) :
  page = 0%Z \/ (Results.totalPages filtered < page)%Z ->
  Results.pageData filtered page = [].
Proof.
  intros [->|Hpage].
  - unfold Results.pageData, Results.slice, Results.pageSize. cbv zeta.
    change ((0 - 1) * 50)%Z with (-50)%Z. change (-50 + 50)%Z with 0%Z.
    change (-50 <? 0)%Z with true. change (0 <? 0)%Z with false. cbv iota.
    replace (Z.to_nat (Z.min 0 (Z.of_nat (length filtered))
                       - Z.max (Z.of_nat (length filtered) + -50) 0)) with 0%nat
      by lia.
    reflexivity.
  - rewrite totalPages_div in Hpage.
    assert (Hpos : (1 <= page)%Z) by (Z.div_mod_to_equations; lia).
    replace page with (Z.of_nat (S (Z.to_nat (page - 1)))) by lia.
    rewrite pageData_chunk, drop_ge; [reflexivity|].
    apply Nat2Z.inj_le. rewrite Nat2Z.inj_mul, Z2Nat.id by lia.
    change (Z.of_nat 50) with 50%Z. Z.div_mod_to_equations. lia.
Qed.

(** X21: the pagination bar cannot leave the pages: while the current page
    lies between 1 and [totalPages], every button that is not disabled
    leads to a page in that range, there are at most five numbered
    buttons, and when there is more than one page the current page is one
    of them. *)
Theorem pagination_targets_stay_in_range (totalPages currentPage : Z) :
  (1 <= currentPage <= totalPages)%Z ->
  Forall (fun page => (1 <= page <= totalPages)%Z)
         (Results.enabledTargets totalPages currentPage) /\
  (length (Results.numberedButtons totalPages currentPage) <= 5)%nat /\
  (totalPages = 1%Z \/
   currentPage ∈ Results.numberedButtons totalPages currentPage).
Proof.
  intros Hcur. unfold Results.enabledTargets, Results.numberedButtons. cbv zeta.
  destruct (Z.leb_spec totalPages 1) as [Hone|Hmany].
  - split; [apply Forall_nil; exact I|]. split; [cbn; lia|].
    left. lia.
  - split; [|split].
    + rewrite !Forall_app. split; [|split].
      * destruct (Z.eqb_spec currentPage 1);
          repeat (apply Forall_cons; split; [lia|]); apply Forall_nil; exact I.
      * apply Forall_forall. intros page Hpage.
        apply elem_of_seqZ in Hpage. lia.
      * destruct (Z.eqb_spec currentPage totalPages);
          repeat (apply Forall_cons; split; [lia|]); apply Forall_nil; exact I.
    + rewrite length_seqZ. lia.
    + right. apply elem_of_seqZ. lia.
Qed.

End ResultsTable.

Lemma pagination_targets_stay_in_range_witness :
  (1 <= 3 <= 7)%Z /\
  Forall (fun page => (1 <= page <= 7)%Z) (Results.enabledTargets 7 3).
Proof.
  assert (Hcur : (1 <= 3 <= 7)%Z) by lia.
  split; [exact Hcur|].
  exact (proj1 (pagination_targets_stay_in_range 7 3 Hcur)).
Defined.

Lemma results_pages_out_of_range_are_empty_witness :
  (0 = 0 \/ Results.totalPages [1%Z; 2%Z; 3%Z] < 0)%Z /\
  Results.pageData [1%Z; 2%Z; 3%Z] 0 = [].
Proof.
  assert (Hpage : (0 = 0 \/ Results.totalPages [1%Z; 2%Z; 3%Z] < 0)%Z)
    by (left; reflexivity).
  split; [exact Hpage|].
  exact (results_pages_out_of_range_are_empty [1%Z; 2%Z; 3%Z] 0 Hpage).
Defined.

(** * One month of the budget view *)

Section MonthWrites.
Context {A : Type} `{JsNum A}.

Lemma touchesOnlyMonth_refl (m : nat) (obj : gmap string (gmap RowKey A)) :
  touchesOnlyMonth m obj obj.
Proof. split; [reflexivity|]. intros; reflexivity. Qed.

Lemma touchesOnlyMonth_trans (m : nat) (o1 o2 o3 : gmap string (gmap RowKey A)) :
  touchesOnlyMonth m o1 o2 -> touchesOnlyMonth m o2 o3 -> touchesOnlyMonth m o1 o3.
Proof.
  intros [Hd1 Hc1] [Hd2 Hc2]. split; [congruence|].
  intros c key Hkey. rewrite Hc2, Hc1 by exact Hkey. reflexivity.
Qed.

Lemma setCell_touches (c : string) (m : nat) (v : A)
    (obj obj' : gmap string (gmap RowKey A)) :
  Budget.setCell c m v obj = Some obj' ->
  c ∈ dom obj /\ touchesOnlyMonth m obj obj'.
Proof.
  unfold Budget.setCell. destruct (obj !! c) as [row|] eqn:Hrow; [|discriminate].
  cbn [mbind option_bind]. intros [= <-].
  split; [apply elem_of_dom; rewrite Hrow; eexists; reflexivity|]. split.
  - apply dom_insert_lookup_L. rewrite Hrow. eexists; reflexivity.
  - intros c' key Hkey. destruct (decide (c = c')) as [<-|Hne].
    + rewrite lookup_insert_eq, Hrow. cbn [mbind option_bind].
      apply lookup_insert_ne. congruence.
    + rewrite lookup_insert_ne by exact Hne. reflexivity.
Qed.

Lemma setCell_rows (c : string) (m : nat) (v : A)
    (obj : gmap string (gmap RowKey A)) :
  c ∈ dom obj ->
  exists obj', Budget.setCell c m v obj = Some obj' /\ dom obj' = dom obj.
Proof.
  intros Hc. apply elem_of_dom in Hc as [row Hrow].
  unfold Budget.setCell. rewrite Hrow. cbn [mbind option_bind].
  eexists. split; [reflexivity|].
  apply dom_insert_lookup_L. rewrite Hrow. eexists; reflexivity.
Qed.

Lemma costLoop_none (asm : gmap Z (gmap string (Assumption A))) (b : Z) (m : nat)
    (net : A) (codes : list string) :
  foldl (fun acc code =>
           '(obj, total) ← acc;
           let pct := assumptionPct asm b code in
           let value := mul net (div pct hundred) in
           obj ← Budget.setCell code m value obj;
           Some (obj, add total value))
        None codes = None.
Proof. induction codes as [|c codes IH]; [reflexivity|]. exact IH. Qed.

Lemma costLoop_touches (asm : gmap Z (gmap string (Assumption A))) (b : Z)
    (m : nat) (net : A) (codes : list string)
    (obj obj' : gmap string (gmap RowKey A)) (t t' : A) :
  Budget.costLoop asm b m net codes (obj, t) = Some (obj', t') ->
  Forall (fun c => c ∈ dom obj) codes /\ touchesOnlyMonth m obj obj'.
Proof.
  unfold Budget.costLoop. revert obj t.
  induction codes as [|c codes IH]; intros obj t.
  - cbn [foldl]. intros [= <- <-].
    split; [apply Forall_nil; exact I|apply touchesOnlyMonth_refl].
  - cbn [foldl mbind option_bind]. cbv zeta.
    destruct (Budget.setCell c m _ obj) as [obj1|] eqn:Hset; cbn [mbind option_bind].
    + intros Hrest. apply IH in Hrest as [Hall Ht].
      apply setCell_touches in Hset as [Hc Ht1].
      split; [|exact (touchesOnlyMonth_trans _ _ _ _ Ht1 Ht)].
      apply Forall_cons. split; [exact Hc|].
      eapply Forall_impl; [exact Hall|]. cbv beta. intros c'.
      rewrite (proj1 Ht1). trivial.
    + rewrite costLoop_none. discriminate.
Qed.

Lemma costLoop_rows (asm : gmap Z (gmap string (Assumption A))) (b : Z)
    (m : nat) (net : A) (codes : list string)
    (obj : gmap string (gmap RowKey A)) (t : A) :
  Forall (fun c => c ∈ dom obj) codes ->
  exists obj' t', Budget.costLoop asm b m net codes (obj, t) = Some (obj', t') /\
                  dom obj' = dom obj.
Proof.
  unfold Budget.costLoop. revert obj t.
  induction codes as [|c codes IH]; intros obj t Hall.
  - exists obj, t. split; reflexivity.
  - apply Forall_cons in Hall as [Hc Hall].
    cbn [foldl mbind option_bind]. cbv zeta.
    destruct (setCell_rows c m (mul net (div (assumptionPct asm b c) hundred)) obj Hc)
      as (obj1 & -> & Hdom).
    cbn [mbind option_bind].
    destruct (IH obj1 (add t (mul net (div (assumptionPct asm b c) hundred))))
      as (obj' & t' & Hrest & Hdom').
    { eapply Forall_impl; [exact Hall|]. cbv beta. intros c'.
      rewrite Hdom. trivial. }
    exists obj', t'. split; [exact Hrest|congruence].
Qed.

Lemma bind_Some_inv {X Y : Type} (mx : option X) (k : X -> option Y) (y : Y) :
  mx ≫= k = Some y -> exists x, mx = Some x /\ k x = Some y.
Proof. destruct mx as [x|]; [|discriminate]. intros Hk. exists x. split; trivial. Qed.

Lemma hasRows_dom (obj : gmap string (gmap RowKey A)) :
  hasRows obj <-> Forall (fun item => code item ∈ dom obj) LINE_ITEMS_CONFIG.
Proof.
  unfold hasRows. apply Forall_proper; [|reflexivity].
  intros item. symmetry. apply elem_of_dom.
Qed.

Ltac month_step T :=
  match goal with
  | Hw : (Budget.setCell _ _ _ _ ≫= _) = Some _ |- _ =>
      let o := fresh "obj" in let E := fresh "E" in
      let Hc := fresh "Hc" in let Ht := fresh "Ht" in
      apply bind_Some_inv in Hw as (o & E & Hw);
      apply setCell_touches in E as [Hc Ht];
      try rewrite (proj1 T) in Hc;
      pose proof (touchesOnlyMonth_trans _ _ _ _ T Ht); clear T Ht
  | Hw : (Budget.costLoop _ _ _ _ _ _ ≫= _) = Some _ |- _ =>
      let o := fresh "obj" in let E := fresh "E" in
      let Hc := fresh "Hc" in let Ht := fresh "Ht" in
      apply bind_Some_inv in Hw as ([o ?] & E & Hw);
      apply costLoop_touches in E as [Hc Ht];
      try rewrite (proj1 T) in Hc;
      pose proof (touchesOnlyMonth_trans _ _ _ _ T Ht); clear T Ht
  end.

(** A successful run of the month's writes found a row for every line
    item and touched nothing but the month's cells. *)
Lemma monthWrites_touches (mrd : gmap Z (gmap nat (gmap string A)))
    (asm : gmap Z (gmap string (Assumption A))) (rta : gmap Z (gmap string A))
    (b : Z) (m : nat) (obj obj' : gmap string (gmap RowKey A)) :
  Budget.monthWrites mrd asm rta b m obj = Some obj' ->
  hasRows obj /\ touchesOnlyMonth m obj obj'.
Proof.
  unfold Budget.monthWrites. cbv zeta. intros Hw.
  pose proof (touchesOnlyMonth_refl m obj) as T0.
  repeat match goal with
         | T : touchesOnlyMonth m obj _ |- _ => month_step T
         end.
  match goal with
  | T : touchesOnlyMonth m obj _ |- _ =>
      apply setCell_touches in Hw as [Hlast Ht];
      try rewrite (proj1 T) in Hlast;
      pose proof (touchesOnlyMonth_trans _ _ _ _ T Ht) as Tend
  end.
  split; [|exact Tend].
  apply hasRows_dom.
  unfold directCostCodes, gaCodes in *.
  repeat match goal with
         | Hx : Forall _ (_ :: _) |- _ => apply Forall_cons in Hx as [? Hx]
         end.
  unfold LINE_ITEMS_CONFIG.
  forall_items ltac:(assumption).
Qed.

Ltac rows_step Hd :=
  match goal with
  | |- context [Budget.setCell ?c ?m ?v ?o ≫= _] =>
      let o' := fresh "obj" in let Hd' := fresh "Hd" in
      destruct (setCell_rows c m v o) as (o' & -> & Hd');
      [rewrite ?Hd; assumption|];
      cbn [mbind option_bind]; rewrite Hd in Hd'; clear Hd
  | |- context [Budget.costLoop ?asm ?b ?m ?net ?codes (?o, ?t) ≫= _] =>
      let o' := fresh "obj" in let t' := fresh "t" in let Hd' := fresh "Hd" in
      destruct (costLoop_rows asm b m net codes o t) as (o' & t' & -> & Hd');
      [rewrite ?Hd; assumption|];
      cbn [mbind option_bind]; rewrite Hd in Hd'; clear Hd
  end.

(** The month's writes succeed on an object that has every row. *)
Lemma monthWrites_rows_some (mrd : gmap Z (gmap nat (gmap string A)))
    (asm : gmap Z (gmap string (Assumption A))) (rta : gmap Z (gmap string A))
    (b : Z) (m : nat) (obj : gmap string (gmap RowKey A)) :
  hasRows obj -> is_Some (Budget.monthWrites mrd asm rta b m obj).
Proof.
  intros Hrows. apply hasRows_dom in Hrows.
  unfold LINE_ITEMS_CONFIG in Hrows.
  repeat match goal with
         | Hx : Forall _ (_ :: _) |- _ => apply Forall_cons in Hx as [? Hx]
         end.
  cbn [code rawItem calcItem inputItem] in *.
  assert (Hdc : Forall (fun c => c ∈ dom obj) directCostCodes)
    by (unfold directCostCodes; forall_items ltac:(assumption)).
  assert (Hga : Forall (fun c => c ∈ dom obj) gaCodes)
    by (unfold gaCodes; forall_items ltac:(assumption)).
  unfold Budget.monthWrites. cbv zeta.
  assert (Hd0 : dom obj = dom obj) by reflexivity.
  revert Hd0. generalize obj at 1 3. intros obj0 Hd0.
  repeat match goal with
         | Hd : dom _ = dom obj |- _ => rows_step Hd
         end.
  match goal with
  | Hd : dom ?o = dom obj |- is_Some (Budget.setCell ?c ?m ?v ?o) =>
      destruct (setCell_rows c m v o) as (o' & -> & _);
      [rewrite Hd; assumption|eexists; reflexivity]
  end.
Qed.

End MonthWrites.

Section MonthCall.
Context {A : Type} `{JsNum A}.

(** X22: [calculateMonthValues(branchId, month)] completes exactly when
    [calculatedData[branchId]] exists and has a row for every line item of
    the catalog; otherwise it raises. *)
Theorem month_calculation_needs_every_row (st : Budget.State A) (b : Z) (m : nat) :
  is_Some (Budget.calculateMonthValues st b m) <->
  exists obj, Budget.calculatedData st !! b = Some obj /\
              Forall (fun item => is_Some (obj !! code item)) LINE_ITEMS_CONFIG.
Proof.
  unfold Budget.calculateMonthValues. split.
  - intros [st' Hst']. apply bind_Some_inv in Hst' as (obj & Hobj & Hst').
    apply bind_Some_inv in Hst' as (obj' & Hw & _).
    exists obj. split; [exact Hobj|].
    exact (proj1 (monthWrites_touches _ _ _ _ _ _ _ Hw)).
  - intros (obj & -> & Hrows). cbn [mbind option_bind].
    destruct (monthWrites_rows_some (Budget.monthlyRevenueData st)
                (Budget.assumptionsData st) (Budget.revenueTypeAssumptions st)
                b m obj Hrows) as [obj' ->].
    cbn [mbind option_bind]. eexists; reflexivity.
Qed.

(** X23: a call of [calculateMonthValues(branchId, month)] that completes
    writes only to the cells of that month of that branch: the revenue, the
    assumptions, the allocations and the selection are as before, and so is
    every cell of another branch or of another column, the FY totals among
    them. *)
Theorem month_calculation_touches_its_month_only (st st' : Budget.State A)
    (b : Z) (m : nat) :
  Budget.calculateMonthValues st b m = Some st' ->
  Budget.selectedBranch st' = Budget.selectedBranch st /\
  Budget.monthlyRevenueData st' = Budget.monthlyRevenueData st /\
  Budget.assumptionsData st' = Budget.assumptionsData st /\
  Budget.revenueTypeAssumptions st' = Budget.revenueTypeAssumptions st /\
  forall (b' : Z) (c : string) (key : RowKey),
    b' <> b \/ key <> month_ m ->
    Budget.cell st' b' c key = Budget.cell st b' c key.
Proof.
  unfold Budget.calculateMonthValues. intros Hst'.
  apply bind_Some_inv in Hst' as (obj & Hobj & Hst').
  apply bind_Some_inv in Hst' as (obj' & Hw & [= <-]).
  split; [reflexivity|]. split; [reflexivity|]. split; [reflexivity|].
  split; [reflexivity|].
  intros b' c key Hother. unfold Budget.cell, Budget.setCalculatedData.
  cbn [Budget.calculatedData].
  destruct (decide (b' = b)) as [->|Hb].
  - destruct Hother as [Hne|Hkey]; [contradiction|].
    rewrite lookup_insert_eq, Hobj. cbn [mbind option_bind].
    apply (proj2 (proj2 (monthWrites_touches _ _ _ _ _ _ _ Hw)) c key Hkey).
  - rewrite lookup_insert_ne by congruence. reflexivity.
Qed.

End MonthCall.

Lemma month_calculation_touches_its_month_only_witness :
  exists st',
    Budget.calculateMonthValues scenarioInitialised 1 2 = Some st' /\
    Budget.cell st' 1 "REV_IP" (month_ 2) = Some (lit 60000) /\
    Budget.cell st' 1 "REV_IP" fy_total =
      Budget.cell scenarioInitialised 1 "REV_IP" fy_total.
Proof.
  destruct (Budget.calculateMonthValues scenarioInitialised 1 2) as [st'|] eqn:Hst'.
  - exists st'. split; [reflexivity|]. split.
    + revert Hst'. unfold scenarioInitialised.
      rewrite calculateMonthValues_insert, initItems_rows, monthWrites_rows.
      cbn [mbind option_bind]. intros [= <-]. apply Qc_some_eq.
      vm_compute. reflexivity.
    + apply (month_calculation_touches_its_month_only
               scenarioInitialised st' 1 2 Hst').
      right. discriminate.
  - exfalso. revert Hst'. unfold scenarioInitialised.
    rewrite calculateMonthValues_insert, initItems_rows, monthWrites_rows.
    discriminate.
Defined.

(** * Which cells exist, and what the revenue loader stores *)

Section Shape.
Context {A : Type} `{JsNum A}.

Lemma itemsObject_dom (V : string -> A) :
  dom (itemsObject V) = list_to_set computedCodes.
Proof.
  vm_cast_no_check (@eq_refl (gset string) (list_to_set computedCodes)).
Qed.

Lemma rowsObject_dom (R : string -> gmap RowKey A) :
  dom (rowsObject R) = list_to_set (map code LINE_ITEMS_CONFIG).
Proof.
  vm_cast_no_check
    (@eq_refl (gset string) (list_to_set (map code LINE_ITEMS_CONFIG))).
Qed.

Lemma finalRow_dom (V : nat -> string -> A) (c : string) :
  dom (finalRow V c) = list_to_set (fy_total :: map month_ MONTHS).
Proof.
  vm_cast_no_check
    (@eq_refl (gset RowKey) (list_to_set (fy_total :: map month_ MONTHS))).
Qed.

Lemma rowsObject_lookup_code (R : string -> gmap RowKey A) (c : string) :
  c ∈ map code LINE_ITEMS_CONFIG -> rowsObject R !! c = Some (R c).
Proof.
  intros Hc. apply list_elem_of_fmap in Hc as (item & -> & Hitem).
  pose proof (rowsObject_lookup R) as Hall. rewrite Forall_forall in Hall.
  exact (Hall item Hitem).
Qed.

(** X24: which cells exist after a recalculation.  The editor holds a
    value for exactly the six configured branches and, for each, exactly
    the 45 line items that are not raw revenue.  The budget view, started
    from an empty [calculatedData] as [loadBudget] does, holds a value for
    exactly the selected branches, all 48 line items, and the twelve months
    and the FY total of each. *)
Theorem cells_that_exist_after_recalculation (est : Editor.State A)
    (bst : Budget.State A) :
  (forall b c,
     is_Some (Editor.calculated (Editor.calculateAllValues est) b c) <->
     b ∈ BRANCH_IDS /\ c ∈ computedCodes) /\
  exists bst1,
    Budget.calculateAllBranchValues (Budget.setCalculatedData bst ∅) = Some bst1 /\
    forall b c key,
      is_Some (Budget.cell bst1 b c key) <->
      b ∈ Budget.getSelectedBranches bst /\ c ∈ map code LINE_ITEMS_CONFIG /\
      key ∈ fy_total :: map month_ MONTHS.
Proof.
  split.
  - intros b c. rewrite calculated_after.
    destruct (decide (b ∈ BRANCH_IDS)) as [Hb|Hb].
    + rewrite calculateBranch_closed, <- elem_of_dom, itemsObject_dom.
      rewrite elem_of_list_to_set. tauto.
    + split; [intros [v Hv]; discriminate Hv|tauto].
  - exists (finalState (Budget.setCalculatedData bst ∅)).
    split; [apply calculateAllBranchValues_closed|].
    intros b c key. unfold Budget.cell. rewrite finalState_stale.
    destruct (decide (b ∈ Budget.getSelectedBranches bst)) as [Hb|Hb].
    + cbn [mbind option_bind]. unfold branchObject.
      destruct (decide (c ∈ map code LINE_ITEMS_CONFIG)) as [Hc|Hc].
      * rewrite rowsObject_lookup_code by exact Hc. cbn [mbind option_bind].
        rewrite <- elem_of_dom, finalRow_dom, elem_of_list_to_set. tauto.
      * assert (Hnone : rowsObject (finalRow (branchValues bst b)) !! c = None).
        { apply not_elem_of_dom. rewrite rowsObject_dom, elem_of_list_to_set.
          exact Hc. }
        rewrite Hnone. cbn [mbind option_bind].
        split; [intros [v Hv]; discriminate Hv|tauto].
    + rewrite lookup_empty. cbn [mbind option_bind].
      split; [intros [v Hv]; discriminate Hv|tauto].
Qed.

(** X25: [loadAllBranchesRevenue] replaces the whole of [revenueData]:
    whatever it held before and whatever the outcome of the requests, it
    ends with an object for exactly the six configured branches.  For a
    configured branch the engine then reads, per care type, the figure of
    an ok answer that carries a revenue object, and 0 when the figure is
    missing or falsy or the answer is of another kind; for any other
    branch it reads 0.  The sub revenue a recalculation stores for a
    configured branch is the sum of the three figures read. *)
Theorem revenue_load_replaces_every_branch (st : Editor.State A)
    (responses : Z -> Response (option (gmap string A))) (b : Z) :
  let st' := EditorPage.loadAllBranchesRevenue st responses in
  let figure careType :=
    orZero (EditorPage.responseRevenue (responses b) ≫= (.!! careType)) in
  dom (Editor.revenueData st') = list_to_set BRANCH_IDS /\
  Forall (fun careType =>
            Editor.branchRevenue (Editor.revenueData st') b careType =
              if decide (b ∈ BRANCH_IDS) then figure careType else zero)
         ["IP"; "OP"; "ER"] /\
  Editor.calculated (Editor.calculateAllValues st') b "REV_SUB" =
    if decide (b ∈ BRANCH_IDS)
    then Some (add (add (figure "IP") (figure "OP")) (figure "ER"))
    else None.
Proof.
  cbv zeta.
  assert (Hread :
    Forall (fun careType =>
              Editor.branchRevenue
                  (Editor.revenueData (EditorPage.loadAllBranchesRevenue st responses))
                  b careType =
                if decide (b ∈ BRANCH_IDS)
                then orZero (EditorPage.responseRevenue (responses b) ≫= (.!! careType))
                else zero)
           ["IP"; "OP"; "ER"]).
  { unfold EditorPage.loadAllBranchesRevenue, Editor.branchRevenue.
    cbn [Editor.revenueData]. rewrite lookup_foldl_insert.
    destruct (decide (b ∈ BRANCH_IDS)) as [Hb|Hb].
    - cbn [mbind option_bind].
      destruct (EditorPage.responseRevenue (responses b)) as [revenue|];
        cbn [EditorPage.storedRevenue mbind option_bind].
      + forall_items ltac:(rewrite ?lookup_insert_eq;
                           repeat (rewrite lookup_insert_ne by discriminate;
                                   rewrite ?lookup_insert_eq);
                           apply orZero_idem).
      + forall_items ltac:(rewrite ?lookup_insert_eq;
                           repeat (rewrite lookup_insert_ne by discriminate;
                                   rewrite ?lookup_insert_eq);
                           exact (orZero_idem None)).
    - rewrite lookup_empty. cbn [mbind option_bind orZero].
      forall_items ltac:(reflexivity). }
  split; [|split; [exact Hread|]].
  - unfold EditorPage.loadAllBranchesRevenue. cbn [Editor.revenueData].
    apply set_eq. intros k.
    rewrite elem_of_dom, lookup_foldl_insert, elem_of_list_to_set.
    destruct (decide (k ∈ BRANCH_IDS)) as [Hk|Hk].
    + split; [intros _; exact Hk|intros _; eexists; reflexivity].
    + rewrite lookup_empty. split; [intros [v Hv]; discriminate Hv|contradiction].
  - revert Hread. destruct (decide (b ∈ BRANCH_IDS)) as [Hb|Hb]; intros Hread.
    + rewrite editor_calculated_code
        by (exact Hb || (apply list_elem_of_In; vm_compute; tauto)).
      change (Spec.compute ?i "REV_SUB") with (Some (Spec.REV_SUB i)).
      unfold Spec.REV_SUB, editorInputs. cbn [Spec.revenue].
      repeat match goal with
             | Hx : Forall _ (_ :: _) |- _ => apply Forall_cons in Hx as [? Hx]
             end.
      repeat match goal with
             | Hx : Editor.branchRevenue _ b _ = _ |- _ => rewrite Hx; clear Hx
             end.
      reflexivity.
    + rewrite calculated_after, decide_False by exact Hb. reflexivity.
Qed.

End Shape.
